(** * conda-vendor: a shallow embedding of [conda_vendor/conda_vendor.py]

    The development follows the Python module function by function:

    - Python strings and [hashlib.sha256(..).hexdigest()];
    - the conda-lock data the module consumes ([FetchAction], [LinkAction],
      [DryRunInstall]) and JSON documents (repodata.json);
    - the pure parts: [_get_query_list], [_remove_channel], the filtering
      loops of [_reconstruct_repodata_json], the loop nest of
      [create_repodata_json];
    - the effectful parts ([download_packages], [solve_environment],
      [vendor]) in a state-and-exception monad over a world made of a file
      system and the external services (network, conda-lock), which also
      records the events of the run.

    Conventions of the model:

    - a [str] is held as the [string] of the bytes of its UTF-8 encoding,
      on which [startswith], [in], [==] and [+] act as they do on the
      text; [isnumeric] decodes the character it tests; [lower] maps the
      ASCII letters;
    - [sys.exit] raises [SystemExit], as in Python; the module has no
      [try], so an exception ends the run, and the exit status follows
      from it;
    - [pathlib], the file system, [requests], [yaml] and conda-lock are
      interfaces (type classes); the statements hold for every
      implementation, and a small concrete one is given to run the
      functions;
    - every [click.echo] is an event of the run; [click.progressbar] only
      draws on the terminal and is left out; [assert isinstance(..)] holds
      by typing.
*)

From Stdlib Require Import ZArith Ascii String List DecimalString.
From stdpp Require Import gmap strings list fin_maps.

Set Warnings "-register-all".
Local Open Scope string_scope.
Local Open Scope list_scope.
Local Open Scope Z_scope.

(* ===================================================================== *)
(** ** Python strings *)
(* ===================================================================== *)

Module PyStr.

(** [s.startswith(pre)] *)
Definition startswith (s pre : string) : bool := String.prefix pre s.

(** [needle in hay] on two [str]: [needle] occurs in [hay] as a contiguous
    run of characters. *)
Fixpoint contains (hay needle : string) : bool :=
  String.prefix needle hay ||
  match hay with
  | EmptyString => false
  | String _ rest => contains rest needle
  end.

(** [c.lower()] on an ASCII character; other characters are unchanged. *)
Definition lower_ascii (c : ascii) : ascii :=
  let n := N_of_ascii c in
  if ((65 <=? n) && (n <=? 90))%N then ascii_of_N (n + 32) else c.

(** [s.lower()] *)
Fixpoint lower (s : string) : string :=
  match s with
  | EmptyString => EmptyString
  | String c rest => String (lower_ascii c) (lower rest)
  end.

(** A continuation byte of UTF-8 and its six bits. *)
Definition continuation (c : ascii) : option N :=
  let b := N_of_ascii c in
  if ((128 <=? b) && (b <? 192))%N then Some (b - 128)%N else None.

(** [ord(s[0])]: the code point of the first character of [s], which
    takes one to four bytes of the encoding ([None] for the empty string
    and for bytes that do not start a character). *)
Definition ord_at_0 (s : string) : option N :=
  match s with
  | EmptyString => None
  | String c0 rest =>
      let b0 := N_of_ascii c0 in
      if (b0 <? 128)%N then Some b0
      else if (b0 <? 192)%N then None
      else if (b0 <? 224)%N then
        match rest with
        | String c1 _ =>
            match continuation c1 with
            | Some x1 => Some ((b0 - 192) * 64 + x1)%N
            | None => None
            end
        | _ => None
        end
      else if (b0 <? 240)%N then
        match rest with
        | String c1 (String c2 _) =>
            match continuation c1, continuation c2 with
            | Some x1, Some x2 => Some (((b0 - 224) * 64 + x1) * 64 + x2)%N
            | _, _ => None
            end
        | _ => None
        end
      else if (b0 <? 248)%N then
        match rest with
        | String c1 (String c2 (String c3 _)) =>
            match continuation c1, continuation c2, continuation c3 with
            | Some x1, Some x2, Some x3 =>
                Some ((((b0 - 240) * 64 + x1) * 64 + x2) * 64 + x3)%N
            | _, _, _ => None
            end
        | _ => None
        end
      else None
  end.

(** The code points [c] for which [chr(c).isnumeric()] holds, as closed
    ranges in increasing order: the characters with a numeric value in the
    Unicode Character Database 14.0.0, the one of CPython 3.11. *)
Definition numeric_ranges : list (N * N) :=
  [
    (48, 57); (178, 179); (185, 185); (188, 190); (1632, 1641);
    (1776, 1785); (1984, 1993); (2406, 2415); (2534, 2543); (2548, 2553);
    (2662, 2671); (2790, 2799); (2918, 2927); (2930, 2935); (3046, 3058);
    (3174, 3183); (3192, 3198); (3302, 3311); (3416, 3422); (3430, 3448);
    (3558, 3567); (3664, 3673); (3792, 3801); (3872, 3891); (4160, 4169);
    (4240, 4249); (4969, 4988); (5870, 5872); (6112, 6121); (6128, 6137);
    (6160, 6169); (6470, 6479); (6608, 6618); (6784, 6793); (6800, 6809);
    (6992, 7001); (7088, 7097); (7232, 7241); (7248, 7257); (8304, 8304);
    (8308, 8313); (8320, 8329); (8528, 8578); (8581, 8585); (9312, 9371);
    (9450, 9471); (10102, 10131); (11517, 11517); (12295, 12295);
    (12321, 12329); (12344, 12346); (12690, 12693); (12832, 12841);
    (12872, 12879); (12881, 12895); (12928, 12937); (12977, 12991);
    (13317, 13317); (13443, 13443); (14378, 14378); (15181, 15181);
    (19968, 19968); (19971, 19971); (19975, 19975); (19977, 19977);
    (20061, 20061); (20108, 20108); (20116, 20116); (20118, 20118);
    (20159, 20160); (20191, 20191); (20200, 20200); (20237, 20237);
    (20336, 20336); (20740, 20740); (20806, 20806); (20841, 20841);
    (20843, 20843); (20845, 20845); (21313, 21313); (21315, 21317);
    (21324, 21324); (21441, 21444); (22235, 22235); (22769, 22769);
    (22777, 22777); (24186, 24186); (24318, 24319); (24332, 24334);
    (24336, 24336); (25342, 25342); (25420, 25420); (26578, 26578);
    (28422, 28422); (29590, 29590); (30334, 30334); (32902, 32902);
    (33836, 33836); (36014, 36014); (36019, 36019); (36144, 36144);
    (38433, 38433); (38470, 38470); (38476, 38476); (38520, 38520);
    (38646, 38646); (42528, 42537); (42726, 42735); (43056, 43061);
    (43216, 43225); (43264, 43273); (43472, 43481); (43504, 43513);
    (43600, 43609); (44016, 44025); (63851, 63851); (63859, 63859);
    (63864, 63864); (63922, 63922); (63953, 63953); (63955, 63955);
    (63997, 63997); (65296, 65305); (65799, 65843); (65856, 65912);
    (65930, 65931); (66273, 66299); (66336, 66339); (66369, 66369);
    (66378, 66378); (66513, 66517); (66720, 66729); (67672, 67679);
    (67705, 67711); (67751, 67759); (67835, 67839); (67862, 67867);
    (68028, 68029); (68032, 68047); (68050, 68095); (68160, 68168);
    (68221, 68222); (68253, 68255); (68331, 68335); (68440, 68447);
    (68472, 68479); (68521, 68527); (68858, 68863); (68912, 68921);
    (69216, 69246); (69405, 69414); (69457, 69460); (69573, 69579);
    (69714, 69743); (69872, 69881); (69942, 69951); (70096, 70105);
    (70113, 70132); (70384, 70393); (70736, 70745); (70864, 70873);
    (71248, 71257); (71360, 71369); (71472, 71483); (71904, 71922);
    (72016, 72025); (72784, 72812); (73040, 73049); (73120, 73129);
    (73664, 73684); (74752, 74862); (92768, 92777); (92864, 92873);
    (93008, 93017); (93019, 93025); (93824, 93846); (119520, 119539);
    (119648, 119672); (120782, 120831); (123200, 123209); (123632, 123641);
    (125127, 125135); (125264, 125273); (126065, 126123); (126125, 126127);
    (126129, 126132); (126209, 126253); (126255, 126269); (127232, 127244);
    (130032, 130041); (131073, 131073); (131172, 131172); (131298, 131298);
    (131361, 131361); (133418, 133418); (133507, 133507); (133516, 133516);
    (133532, 133532); (133866, 133866); (133885, 133885); (133913, 133913);
    (140176, 140176); (141720, 141720); (146203, 146203); (156269, 156269);
    (194704, 194704)
  ]%N.

(** [c.isnumeric()] for the one-character [str] of code point [c] *)
Definition isnumeric (c : N) : bool :=
  existsb (fun r => (fst r <=? c) && (c <=? snd r))%N numeric_ranges.

(** [s[0].isnumeric()] for a non-empty [s] *)
Definition isnumeric_at_0 (s : string) : bool :=
  match ord_at_0 s with
  | Some c => isnumeric c
  | None => false
  end.

End PyStr.

(* ===================================================================== *)
(** ** [hashlib.sha256(data).hexdigest()]

    FIPS 180-4 SHA-256 on a byte string, 32-bit words as [Z] reduced modulo
    [2^32]. *)
(* ===================================================================== *)

Module SHA256.

Definition bytes := list Byte.byte.

Definition w32 (x : Z) : Z := x mod 4294967296.
Definition add32 (x y : Z) : Z := w32 (x + y).
Definition rotr (n x : Z) : Z :=
  Z.lor (Z.shiftr x n) (w32 (Z.shiftl x (32 - n))).
Definition not32 (x : Z) : Z := Z.lxor x 4294967295.

Definition Ch (x y z : Z) : Z := Z.lxor (Z.land x y) (Z.land (not32 x) z).
Definition Maj (x y z : Z) : Z :=
  Z.lxor (Z.lxor (Z.land x y) (Z.land x z)) (Z.land y z).
Definition Sigma0 (x : Z) : Z :=
  Z.lxor (Z.lxor (rotr 2 x) (rotr 13 x)) (rotr 22 x).
Definition Sigma1 (x : Z) : Z :=
  Z.lxor (Z.lxor (rotr 6 x) (rotr 11 x)) (rotr 25 x).
Definition sigma0 (x : Z) : Z :=
  Z.lxor (Z.lxor (rotr 7 x) (rotr 18 x)) (Z.shiftr x 3).
Definition sigma1 (x : Z) : Z :=
  Z.lxor (Z.lxor (rotr 17 x) (rotr 19 x)) (Z.shiftr x 10).

(** The constants of FIPS 180-4, 4.2.2 and 5.3.3: the first 32 bits of the
    fractional parts of the cube roots of the first 64 primes, and of the
    square roots of the first 8. *)
Definition is_prime (n : Z) : bool :=
  forallb (fun d => negb (n mod d =? 0)) (seqZ 2 (n - 2)).

Definition primes : list Z := List.filter is_prime (seqZ 2 310).

(** The integer part of the [k]-th root of [n], bit by bit from [2^bits]. *)
Fixpoint iroot (k : Z) (bits : nat) (n r : Z) : Z :=
  match bits with
  | O => r
  | S b =>
      let c := r + 2 ^ Z.of_nat b in
      iroot k b n (if c ^ k <=? n then c else r)
  end.

Definition frac32 (k p : Z) : Z := w32 (iroot k 40 (p * 2 ^ (32 * k)) 0).

Definition K : list Z := Eval vm_compute in map (frac32 3) (take 64 primes).

Definition H0 : list Z := Eval vm_compute in map (frac32 2) (take 8 primes).

(** Padding: a [0x80] byte, zero bytes up to 56 modulo 64, and the bit
    length of the message as a 64-bit big-endian integer. *)
Fixpoint be_bytes (n : nat) (x : Z) : list Z :=
  match n with
  | O => []
  | S n' => (Z.shiftr x (8 * Z.of_nat n')) mod 256 :: be_bytes n' x
  end.

Definition pad (msg : list Z) : list Z :=
  let len := Z.of_nat (length msg) in
  let zeros := Z.to_nat ((55 - len) mod 64) in
  msg ++ [128] ++ replicate zeros 0 ++ be_bytes 8 (8 * len).

Fixpoint be_words (fuel : nat) (bs : list Z) : list Z :=
  match fuel, bs with
  | S fuel', b0 :: b1 :: b2 :: b3 :: rest =>
      (b0 * 16777216 + b1 * 65536 + b2 * 256 + b3) :: be_words fuel' rest
  | _, _ => []
  end.

(** Message schedule; [rw] holds the words computed so far, latest first. *)
Fixpoint extend (n : nat) (rw : list Z) : list Z :=
  match n with
  | O => rw
  | S n' =>
      let w := add32 (add32 (sigma1 (nth 1 rw 0)) (nth 6 rw 0))
                     (add32 (sigma0 (nth 14 rw 0)) (nth 15 rw 0)) in
      extend n' (w :: rw)
  end.

Definition schedule (block : list Z) : list Z :=
  rev (extend 48 (rev block)).

Definition round (st : list Z) (kw : Z * Z) : list Z :=
  match st with
  | [a; b; c; d; e; f; g; h] =>
      let t1 := add32 (add32 (add32 h (Sigma1 e))
                             (add32 (Ch e f g) (fst kw))) (snd kw) in
      let t2 := add32 (Sigma0 a) (Maj a b c) in
      [add32 t1 t2; a; b; c; add32 d t1; e; f; g]
  | _ => st
  end.

Definition compress (h : list Z) (block : list Z) : list Z :=
  zip_with add32 h (fold_left round (combine K (schedule block)) h).

Fixpoint blocks (fuel : nat) (ws : list Z) : list (list Z) :=
  match fuel with
  | O => []
  | S fuel' =>
      match ws with
      | [] => []
      | _ => take 16 ws :: blocks fuel' (drop 16 ws)
      end
  end.

Definition digest_words (data : bytes) : list Z :=
  let bs := pad (map (fun b => Z.of_N (Byte.to_N b)) data) in
  let ws := be_words (length bs) bs in
  fold_left compress (blocks (length ws) ws) H0.

(** Lowercase hexadecimal, as [hexdigest] prints it. *)
Definition hex_digit (x : Z) : ascii :=
  match x mod 16 with
  | 0 => "0" | 1 => "1" | 2 => "2" | 3 => "3"
  | 4 => "4" | 5 => "5" | 6 => "6" | 7 => "7"
  | 8 => "8" | 9 => "9" | 10 => "a" | 11 => "b"
  | 12 => "c" | 13 => "d" | 14 => "e" | _ => "f"
  end%char.

Fixpoint hex_nibbles (n : nat) (x : Z) : string :=
  match n with
  | O => EmptyString
  | S n' => String (hex_digit (Z.shiftr x (4 * Z.of_nat n'))) (hex_nibbles n' x)
  end.

Definition hex_word (x : Z) : string := hex_nibbles 8 x.

Definition hexdigest (data : bytes) : string :=
  fold_right (fun w acc => hex_word w +:+ acc) EmptyString
             (digest_words data).

End SHA256.

Definition str_bytes (s : string) : SHA256.bytes := list_byte_of_string s.

(* ===================================================================== *)
(** ** Exceptions

    [sys.exit(arg)] raises [SystemExit(arg)]; the module has no [try], so
    every exception ends the run. *)
(* ===================================================================== *)

Inductive exit_arg :=
  | ExitCode (n : Z)           (* sys.exit(1), sys.exit(0) *)
  | ExitMessage (msg : string) (* sys.exit("..."): printed on stderr *).

Inductive exn :=
  | SystemExit (arg : exit_arg)
  | AssertionError
  | TypeError
  | AttributeError
  | KeyError (key : string)
  | IndexError
  | OSError (name : string)       (* FileExistsError, FileNotFoundError, ... *)
  | ExternalError (name : string) (* raised inside requests, yaml, conda-lock *).

(** The status the process ends with when the exception is not caught. *)
Definition exit_status_of_exn (e : exn) : Z :=
  match e with
  | SystemExit (ExitCode n) => n
  | _ => 1
  end.

Definition exit_status {A : Type} (r : exn + A) : Z :=
  match r with
  | inl e => exit_status_of_exn e
  | inr _ => 0
  end.

Definition res_bind {A B : Type} (r : exn + A) (k : A -> exn + B) : exn + B :=
  match r with
  | inl e => inl e
  | inr a => k a
  end.

Declare Scope res_scope.
Delimit Scope res_scope with res.
Notation "'try' x <- r ; k" := (res_bind r (fun x => k))
  (at level 10, x name, r at level 100, k at level 200) : res_scope.

(* ===================================================================== *)
(** ** Data of conda-lock *)
(* ===================================================================== *)

(** [conda_lock.conda_solver.FetchAction], a [TypedDict]; the field
    [fa_x] is [pkg["x"]]. *)
Record FetchAction := {
  fa_channel : string;
  fa_constrains : option (list string);
  fa_depends : option (list string);
  fa_fn : string;
  fa_md5 : string;
  fa_sha256 : option string;
  fa_name : string;
  fa_subdir : string;
  fa_timestamp : Z;
  fa_url : string;
  fa_version : string
}.

(** [conda_lock.conda_solver.LinkAction]; [la_x] is [entry["x"]]. *)
Record LinkAction := {
  la_base_url : string;
  la_channel : string;
  la_dist_name : string;
  la_name : string;
  la_platform : string;
  la_version : string
}.

(** [conda_lock.conda_solver.DryRunInstall]: [solution["success"]],
    [solution["actions"]["FETCH"]] and [solution["actions"]["LINK"]]. *)
Record DryRunInstall := {
  success : bool;
  FETCH : list FetchAction;
  LINK : list LinkAction
}.

(** [conda_lock.src_parser.VersionedDependency] and [LockSpecification]. *)
Record VersionedDependency := {
  dep_name : string;
  dep_version : string
}.

Record LockSpecification := {
  dependencies : list VersionedDependency;
  channels : list string
}.

(** [conda_lock.virtual_package.FakeRepoData]: [vp_channel_url] is
    [virt_pkgs.channel.url]; [vp_all_repodata] maps a platform to the
    (name, version) pairs of [all_repodata[platform]["packages"]]. *)
Record FakeRepoData := {
  vp_channel_url : string;
  vp_all_repodata : gmap string (list (string * string))
}.

(* ===================================================================== *)
(** ** JSON documents

    What [json.loads] returns: an object is a [dict], a mapping with unique
    keys. *)
(* ===================================================================== *)

Inductive json :=
  | JNull
  | JBool (b : bool)
  | JNum (z : Z)
  | JStr (s : string)
  | JArr (l : list json)
  | JObj (m : gmap string json).

(** [d.get(key, default)] *)
Definition py_get (d : json) (key : string) (default_ : json) : exn + json :=
  match d with
  | JObj m => inr (default default_ (m !! key))
  | _ => inl AttributeError
  end.

(** [len(x)] *)
Definition py_len (x : json) : exn + Z :=
  match x with
  | JObj m => inr (Z.of_nat (size m))
  | JArr l => inr (Z.of_nat (length l))
  | JStr s => inr (Z.of_nat (String.length s))
  | _ => inl TypeError
  end.

(** [x.items()] *)
Definition py_items (x : json) : exn + gmap string json :=
  match x with
  | JObj m => inr m
  | _ => inl AttributeError
  end.

(* ===================================================================== *)
(** ** [_get_query_list] *)
(* ===================================================================== *)

Definition query_of_dep (dep : VersionedDependency) : string :=
  match dep_version dep with
  | EmptyString => dep_name dep
  | String _ _ =>
      if PyStr.isnumeric_at_0 (dep_version dep)
      then dep_name dep +:+ "==" +:+ dep_version dep
      else dep_name dep +:+ dep_version dep
  end.

Definition _get_query_list (lock_spec : LockSpecification) : list string :=
  foldl (fun specs dep => specs ++ [query_of_dep dep])
        [] (dependencies lock_spec).

(* ===================================================================== *)
(** ** [_remove_channel] *)
(* ===================================================================== *)

Definition _remove_channel (solution : DryRunInstall) (channel : string)
  : DryRunInstall :=
  let fetch :=
    foldl (fun fetch entry =>
             if PyStr.startswith (fa_channel entry) channel then fetch
             else fetch ++ [entry])
          [] (FETCH solution) in
  let link :=
    foldl (fun link entry =>
             if String.eqb (la_base_url entry) channel then link
             else link ++ [entry])
          [] (LINK solution) in
  {| success := success solution; FETCH := fetch; LINK := link |}.

(** The predicate of the first loop: the entry comes from [channel]. *)
Definition from_channel (channel : string) (entry : FetchAction) : Prop :=
  PyStr.startswith (fa_channel entry) channel = true.

#[global] Instance from_channel_dec channel entry :
  Decision (from_channel channel entry).
Proof. unfold from_channel. apply _. Defined.

(* ===================================================================== *)
(** ** [_reconstruct_repodata_json]: the document it builds

    [repo_data_of dest_name package_list live] is the [repo_data] the
    function hands to [json.dump], from [dest_dir.name], the package list
    and the parsed upstream document [live_repodata_json]. *)
(* ===================================================================== *)

(** [for name, entry in items: if name in valid_names: out[name] = entry],
    starting from the empty dict. *)
Definition retain (valid_names : list string) (items : gmap string json)
  : gmap string json :=
  map_fold (fun name entry out =>
              if bool_decide (name ∈ valid_names) then <[name := entry]> out
              else out)
           ∅ items.

Definition make_repo_data (dest_name : string) (pk pc : gmap string json)
  : json :=
  JObj {[ "info" := JObj {[ "subdir" := JStr dest_name ]};
          "packages" := JObj pk;
          "packages.conda" := JObj pc ]}.

Definition repo_data_of (dest_name : string) (package_list : list FetchAction)
    (live_repodata_json : json) : exn + json :=
  let valid_names := map fa_fn package_list in
  (try _packages <- py_get live_repodata_json "packages" (JObj ∅);
   try _packages_dot_conda <-
     py_get live_repodata_json "packages.conda" (JObj ∅);
   try n1 <- py_len _packages;
   try n2 <- py_len _packages_dot_conda;
   try items1 <- py_items _packages;
   let pk := retain valid_names items1 in
   try items2 <- py_items _packages_dot_conda;
   let pc := retain valid_names items2 in
   inr (make_repo_data dest_name pk pc))%res.

(* ===================================================================== *)
(** ** The world the program runs in

    Three interfaces stand for what the module calls but does not define:
    [pathlib] and the operating system's file system, the services behind
    [requests], [yaml] and conda-lock, and the pieces of the Python runtime
    whose result the language leaves open. *)
(* ===================================================================== *)

Inductive colour := Blue | Cyan | Green | Red | Yellow.

(** One entry of the Iron Bank [resources] block. *)
Record resource := {
  res_url : string;
  res_filename : string;
  res_validation_type : string;
  res_validation_value : option string
}.

(** What a write puts into a file. *)
Inductive content :=
  | Binary (data : SHA256.bytes)          (* f.write(file_data), mode "wb" *)
  | JsonText (doc : json)                 (* json.dump(doc, f) *)
  | YamlText (resources : list resource)  (* yaml.dump({"resources": ..}, f) *).

(** [requests.Response]: [.content] and the result of [.json()]. *)
Record Response := {
  resp_content : SHA256.bytes;
  resp_json : exn + json
}.

(** [Retry(connect=.., backoff_factor=..)]; the factor as a fraction. *)
Record Retry := {
  connect : Z;
  backoff_factor : Z * Z
}.

Class FileSystem (Path FS : Type) := {
  path_of_str : string -> Path;                  (* Path(s) *)
  joinpath : Path -> string -> Path;             (* p / s *)
  path_name : Path -> string;                    (* p.name *)
  path_str : Path -> string;                     (* str(p), f"{p}" *)
  cwd : FS -> Path;                              (* Path.cwd() *)
  fs_exists : FS -> Path -> bool;                (* p.exists() *)
  fs_is_dir : FS -> Path -> bool;                (* p.is_dir() *)
  fs_read_text : FS -> Path -> exn + string;     (* open(p, "r") and read *)
  fs_mkdir : Path -> FS -> (exn + unit) * FS;    (* Path.mkdir(p) *)
  fs_write : Path -> content -> FS -> (exn + unit) * FS
                                                 (* open(p, "w" | "wb"), write, close *)
}.

(** What the proofs about directory creation need from the file system: a
    successful [mkdir] leaves a directory at its path and removes no other. *)
Class FileSystemLaws (Path FS : Type) `{!FileSystem Path FS} := {
  fs_mkdir_creates : forall p fs fs',
    fs_mkdir p fs = (inr tt, fs') -> fs_is_dir fs' p = true;
  fs_mkdir_keeps : forall p q fs fs',
    fs_mkdir p fs = (inr tt, fs') -> fs_is_dir fs q = true ->
    fs_is_dir fs' q = true
}.

(** The services keep a state of their own ([Ext]: the network, conda's
    caches and temporary directories); they read the file system and do not
    write to it. *)
Class Services (Path FS Ext : Type) := {
  (** [session.get(url)] on a session mounted with the retry policy *)
  session_get : Retry -> string -> Ext -> (exn + Response) * Ext;
  (** [version.parse(conda_lock_version) < version.parse("1.3.0")] *)
  conda_lock_before_1_3_0 : bool;
  (** [parse_environment_file(file)] and [parse_environment_file(file, platforms)] *)
  parse_environment_file :
    Path -> option (list string) -> FS -> Ext -> (exn + LockSpecification) * Ext;
  default_virtual_package_repodata : Ext -> (exn + FakeRepoData) * Ext;
  virtual_package_repo_from_specification :
    Path -> FS -> Ext -> (exn + FakeRepoData) * Ext;
  (** [solve_specs_for_arch(solver, channels, specs, platform)] *)
  solve_specs_for_arch :
    string -> list string -> list string -> string ->
    FS -> Ext -> (exn + DryRunInstall) * Ext;
  (** [reconstruct_fetch_actions(solver, platform, solution)] *)
  reconstruct_fetch_actions :
    string -> string -> DryRunInstall -> FS -> Ext -> (exn + DryRunInstall) * Ext
}.

Class PyRuntime := {
  list_of_set : list string -> list string;    (* list(set(xs)) *)
  repr_list : list string -> string;           (* f"{xs}" for a list of str *)
  str_int : Z -> string;                       (* f"{n}" for an int *)
  json_dumps : list FetchAction -> string;     (* json.dumps(package_list, indent=4) *)
  yaml_safe_load : string -> exn + json        (* yaml.safe_load(f) *)
}.

(** [list(set(xs))] holds each element of [xs] once, in an order the
    language does not fix. *)
Class PyRuntimeLaws `{!PyRuntime} := {
  list_of_set_NoDup : forall xs, NoDup (list_of_set xs);
  list_of_set_elem : forall xs x, x ∈ list_of_set xs <-> x ∈ xs
}.

(** What the program did, in order. *)
Inductive event (Path : Type) :=
  | EvStatus (c : colour) (bold : bool) (text : string)
      (* click.echo(click.style(text, fg=c, bg="black", bold=bold)) *)
  | EvEcho (text : string)                     (* click.echo(text) *)
  | EvGet (url : string)                       (* _improved_download(url) *)
  | EvMkdir (p : Path)
  | EvWrite (p : Path) (c : content)
  | EvParseEnvironment (p : Path)
  | EvVirtualPackages
  | EvSolve (solver : string) (chans specs : list string) (platform : string)
  | EvReconstructFetch.

Arguments EvStatus {Path} c bold text.
Arguments EvEcho {Path} text.
Arguments EvGet {Path} url.
Arguments EvMkdir {Path} p.
Arguments EvWrite {Path} p c.
Arguments EvParseEnvironment {Path} p.
Arguments EvVirtualPackages {Path}.
Arguments EvSolve {Path} solver chans specs platform.
Arguments EvReconstructFetch {Path}.

Record World (FS Ext : Type) := {
  w_fs : FS;
  w_ext : Ext
}.
Arguments w_fs {FS Ext} w.
Arguments w_ext {FS Ext} w.

(** A computation: from a world to a value or an exception, the world
    afterwards and the events in between. *)
Definition M (Path FS Ext A : Type) : Type :=
  World FS Ext -> (exn + A) * World FS Ext * list (event Path).

Section Monad.
Context {Path FS Ext : Type}.
Local Notation "'M'" := (M Path FS Ext).

Definition ret {A} (a : A) : M A := fun w => (inr a, w, []).

Definition bind {A B} (m : M A) (k : A -> M B) : M B :=
  fun w =>
    match m w with
    | (inl e, w1, evs1) => (inl e, w1, evs1)
    | (inr a, w1, evs1) =>
        match k a w1 with
        | (r, w2, evs2) => (r, w2, evs1 ++ evs2)
        end
    end.

Definition raise {A} (e : exn) : M A := fun w => (inl e, w, []).

(** [sys.exit(arg)] *)
Definition sys_exit {A} (arg : exit_arg) : M A := raise (SystemExit arg).

Definition emit (e : event Path) : M unit := fun w => (inr tt, w, [e]).

Definition lift {A} (r : exn + A) : M A := fun w => (r, w, []).

(** A read of the file system. *)
Definition fs_query {A} (f : FS -> A) : M A := fun w => (inr (f (w_fs w)), w, []).

(** A call that changes the file system. *)
Definition fs_update {A} (f : FS -> (exn + A) * FS) : M A :=
  fun w =>
    match f (w_fs w) with
    | (r, fs') => (r, {| w_fs := fs'; w_ext := w_ext w |}, [])
    end.

(** A call to an outside service. *)
Definition ext_call {A} (f : FS -> Ext -> (exn + A) * Ext) : M A :=
  fun w =>
    match f (w_fs w) (w_ext w) with
    | (r, ext') => (r, {| w_fs := w_fs w; w_ext := ext' |}, [])
    end.

(** [for x in l: body(x)] *)
Fixpoint for_ {A} (l : list A) (body : A -> M unit) : M unit :=
  match l with
  | [] => ret tt
  | x :: rest => bind (body x) (fun _ => for_ rest body)
  end.

End Monad.

Declare Scope prog_scope.
Delimit Scope prog_scope with prog.
Notation "x <- m ;; k" := (bind m (fun x => k))
  (at level 100, m at next level, k at level 200, right associativity) : prog_scope.
Notation "m ;;; k" := (bind m (fun _ => k))
  (at level 100, k at level 200, right associativity) : prog_scope.

(* ===================================================================== *)
(** ** The functions of [conda_vendor.py] *)
(* ===================================================================== *)

(** [x[key]] on a parsed YAML or JSON value *)
Definition py_getitem (x : json) (key : string) : exn + json :=
  match x with
  | JObj m =>
      match m !! key with
      | Some v => inr v
      | None => inl (KeyError key)
      end
  | _ => inl TypeError
  end.

(** [a != b] between the [str] [a] and the [Optional[str]] [b] *)
Definition py_ne (a : string) (b : option string) : bool :=
  match b with
  | Some s => negb (String.eqb a s)
  | None => true
  end.

(** [f"{x}"] for an [Optional[str]] *)
Definition str_opt (x : option string) : string :=
  match x with
  | Some s => s
  | None => "None"
  end.

(** [n * s] *)
Fixpoint str_repeat (n : nat) (s : string) : string :=
  match n with
  | O => EmptyString
  | S n' => s +:+ str_repeat n' s
  end.

Section Program.
Context {Path FS Ext : Type}.
Context `{!FileSystem Path FS} `{!Services Path FS Ext} `{!PyRuntime}.
Local Notation "'M'" := (M Path FS Ext).
Local Open Scope prog_scope.

Definition _blue (s : string) (bold : bool) : M unit := emit (EvStatus Blue bold s).
Definition _cyan (s : string) (bold : bool) : M unit := emit (EvStatus Cyan bold s).
Definition _green (s : string) (bold : bool) : M unit := emit (EvStatus Green bold s).
Definition _red (s : string) (bold : bool) : M unit := emit (EvStatus Red bold s).
Definition _yellow (s : string) (bold : bool) : M unit := emit (EvStatus Yellow bold s).

(** [Path.mkdir(p)] *)
Definition mkdir (p : Path) : M unit :=
  emit (EvMkdir p) ;;; fs_update (fs_mkdir p).

(** [with open(p, mode) as f: f.write(..)] and the two [dump]s *)
Definition write_file (p : Path) (c : content) : M unit :=
  emit (EvWrite p c) ;;; fs_update (fs_write p c).

Definition _generate_lock_spec (environment_file : Path) (platform : string)
  : M LockSpecification :=
  emit (EvParseEnvironment environment_file) ;;;
  if conda_lock_before_1_3_0
  then ext_call (parse_environment_file environment_file None)
  else ext_call (parse_environment_file environment_file (Some [platform])).

Definition _get_environment_name (environment_file : Path) : M json :=
  opened <- fs_query (fun fs => fs_read_text fs environment_file) ;;
  text <- lift opened ;;
  _yaml <- lift (yaml_safe_load text) ;;
  lift (py_getitem _yaml "name").

Definition _get_virtual_packages (virtual_package_spec : option string)
  : M FakeRepoData :=
  emit EvVirtualPackages ;;;
  match virtual_package_spec with
  | None => ext_call (fun _ => default_virtual_package_repodata)
  | Some spec =>
      ext_call (virtual_package_repo_from_specification (path_of_str spec))
  end.

Definition solve_environment (environment_file : Path)
    (solver platform : string) (virtual_package_spec : option string)
  : M (list FetchAction) :=
  lock_spec <- _generate_lock_spec environment_file platform ;;
  let specs := _get_query_list lock_spec in
  virt_pkgs <- _get_virtual_packages virtual_package_spec ;;
  _cyan ("Using Solver: " +:+ solver) false ;;;
  _cyan ("Solving for Platform: " +:+ platform) false ;;;
  _cyan ("Solving for Spec: " +:+ repr_list specs) false ;;;
  _cyan "Virtual Packages:" false ;;;
  pkgs <- lift (match vp_all_repodata virt_pkgs !! platform with
                | Some pkgs => inr pkgs
                | None => inl (KeyError platform)
                end) ;;
  for_ pkgs (fun pkg =>
    _cyan ("    " +:+ fst pkg +:+ ": " +:+ snd pkg) false) ;;;
  let chans := channels lock_spec ++ [vp_channel_url virt_pkgs] in
  emit (EvSolve solver chans specs platform) ;;;
  solution <- ext_call (solve_specs_for_arch solver chans specs platform) ;;
  let solution := _remove_channel solution (vp_channel_url virt_pkgs) in
  if negb (success solution) then
    _red ("Failed to Solve for " +:+ repr_list specs) true ;;;
    _red ("Using " +:+ solver +:+ " for " +:+ platform) true ;;;
    sys_exit (ExitCode 1)
  else
    _green "Successfull Solve" true ;;;
    emit EvReconstructFetch ;;;
    patched_solution <-
      ext_call (reconstruct_fetch_actions solver platform solution) ;;
    ret (FETCH patched_solution).

(** [Retry(connect=5, backoff_factor=0.5)] *)
Definition retry : Retry := {| connect := 5; backoff_factor := (1, 2) |}.

Definition _improved_download (url : string) : M Response :=
  emit (EvGet url) ;;;
  ext_call (fun _ => session_get retry url).

Definition _reconstruct_repodata_json (repodata_url : string)
    (dest_dir : Path) (package_list : list FetchAction) : M unit :=
  response <- _improved_download repodata_url ;;
  live_repodata_json <- lift (resp_json response) ;;
  repo_data <-
    lift (repo_data_of (path_name dest_dir) package_list live_repodata_json) ;;
  let dest_file := path_of_str (path_str dest_dir +:+ "/repodata.json") in
  write_file dest_file (JsonText repo_data).

(** The body of the first loop of [create_repodata_json]. *)
Definition describe_package (pkg : FetchAction) : M unit :=
  _blue (str_repeat 70 "=") true ;;;
  _yellow ("Channel: " +:+ fa_channel pkg) false ;;;
  _yellow ("Package: " +:+ fa_fn pkg) false ;;;
  _yellow ("URL: " +:+ fa_url pkg) false ;;;
  _yellow ("SHA256: " +:+ str_opt (fa_sha256 pkg)) false ;;;
  _yellow ("Subdirectory: " +:+ fa_subdir pkg) false ;;;
  _yellow ("Timestamp: " +:+ str_int (fa_timestamp pkg)) false ;;;
  _blue (str_repeat 70 "=") true.

(** The body of its inner loop, for the pair (subdir, channel). *)
Definition reconstruct_pair (package_list : list FetchAction)
    (vendored_root : Path) (job : string * string) : M unit :=
  let subdir := fst job in
  let channel := snd job in
  _red ("Reconstructing repodata.json with Hotfix for " +:+ subdir
        +:+ " using " +:+ channel +:+ "/repodata.json") true ;;;
  _reconstruct_repodata_json (channel +:+ "/repodata.json")
    (joinpath vendored_root subdir) package_list.

Definition create_repodata_json (package_list : list FetchAction)
    (vendored_root : Path) : M unit :=
  for_ package_list describe_package ;;;
  let chans := list_of_set (map fa_channel package_list) in
  let subdirs := list_of_set (map fa_subdir package_list) in
  for_ subdirs (fun subdir =>
    for_ (List.filter (fun ch => PyStr.contains ch subdir) chans)
      (fun channel =>
         reconstruct_pair package_list vendored_root (subdir, channel))).

(** The body of the loop of [download_packages]. *)
Definition download_one (vendored_root : Path) (pkg : FetchAction) : M unit :=
  let dest_dir := joinpath vendored_root (fa_subdir pkg) in
  ok <- fs_query (fun fs => fs_exists fs dest_dir && fs_is_dir fs dest_dir) ;;
  if negb ok then raise AssertionError else
  response <- _improved_download (fa_url pkg) ;;
  let file_data := resp_content response in
  let sha256 := SHA256.hexdigest file_data in
  if py_ne sha256 (fa_sha256 pkg) then
    sys_exit (ExitMessage "SHA256 Checksum Validation Failed")
  else
    write_file (joinpath dest_dir (fa_fn pkg)) (Binary file_data).

Definition download_packages (package_list : list FetchAction)
    (vendored_root : Path) (platform : string) : M unit :=
  _green "Downloading and Verifying SHA256 Checksums for Solved Packages" true ;;;
  for_ package_list (download_one vendored_root).

Definition yaml_dump_ironbank_manifest (package_list : list FetchAction)
  : M unit :=
  _cyan "Generating Iron Bank resources clause" true ;;;
  let resources :=
    foldl (fun resources pkg =>
             resources ++ [ {| res_url := fa_url pkg;
                               res_filename := fa_fn pkg;
                               res_validation_type := "sha256";
                               res_validation_value := fa_sha256 pkg |} ])
          [] package_list in
  write_file (path_of_str "ib_manifest.yaml") (YamlText resources) ;;;
  _green "Iron Bank resources list written to ib_manifest.yaml" true.

(** The body of [vendor] after the destination check and the creation of
    the directories. *)
Definition vendor_run (environment_file vendored_root : Path)
    (solver platform : string) (virtual_package_spec : option string)
    (dry_run ironbank_gen : bool) : M unit :=
  package_list <-
    solve_environment environment_file solver platform virtual_package_spec ;;
  if dry_run then
    _green "Dry Run Complete!" true ;;;
    emit (EvEcho (json_dumps package_list)) ;;;
    sys_exit (ExitCode 0)
  else
    create_repodata_json package_list vendored_root ;;;
    download_packages package_list vendored_root platform ;;;
    _green "SHA256 Checksum Validation and Packages Downloaded" true ;;;
    _green "Vendoring Complete!" true ;;;
    _green ("Vendored Channel: " +:+ path_str vendored_root) true ;;;
    if ironbank_gen then yaml_dump_ironbank_manifest package_list
    else ret tt.

Definition vendor (file : option string) (solver platform : string)
    (virtual_package_spec : option string) (dry_run ironbank_gen : bool)
  : M unit :=
  _green ("Vendoring Local Channel for file: " +:+ str_opt file) false ;;;
  file <- lift (match file with
                | Some f => inr f
                | None => inl TypeError
                end) ;;
  let environment_file := path_of_str file in
  environment_name <- _get_environment_name environment_file ;;
  environment_name <- lift (match environment_name with
                            | JStr s => inr s
                            | _ => inl TypeError
                            end) ;;
  vendored_root <- fs_query (fun fs => joinpath (cwd fs) environment_name) ;;
  root_exists <- fs_query (fun fs => fs_exists fs vendored_root) ;;
  if root_exists then
    _red ("vendored channel destination " +:+ path_str vendored_root
          +:+ " already exists") true ;;;
    sys_exit (ExitCode 1)
  else
    (if dry_run then
       _yellow "Dry Run - Will Not Download Files" true
     else
       mkdir vendored_root ;;;
       mkdir (joinpath vendored_root platform) ;;;
       mkdir (joinpath vendored_root "noarch")) ;;;
    vendor_run environment_file vendored_root solver platform
      virtual_package_spec dry_run ironbank_gen.

End Program.

(* ===================================================================== *)
(** ** A small concrete world

    Paths are lists of components, absolute or relative to the working
    directory; the file system is a finite map from absolute paths to
    nodes; the services answer from fixed tables.  It is used to run the
    functions on concrete inputs. *)
(* ===================================================================== *)

Module Demo.

Definition Path : Type := bool * list string.

Inductive node :=
  | Dir
  | File (c : content).

Record FS := {
  working_dir : list string;
  nodes : gmap (list string) node
}.

(** The components of a path string: the runs between slashes that are
    neither empty nor ["."]. *)
Fixpoint components (s cur : string) : list string :=
  let close :=
    if decide (cur = EmptyString) then []
    else if decide (cur = ".") then [] else [cur] in
  match s with
  | EmptyString => close
  | String c rest =>
      if Ascii.eqb c "/" then close ++ components rest EmptyString
      else components rest (cur +:+ String c EmptyString)
  end.

Definition parse (s : string) : Path :=
  (String.prefix "/" s, components s EmptyString).

Definition join (p : Path) (s : string) : Path :=
  if String.prefix "/" s then parse s
  else (fst p, snd p ++ components s EmptyString).

Definition name (p : Path) : string := List.last (snd p) EmptyString.

Definition render (p : Path) : string :=
  match p with
  | (true, []) => "/"
  | (false, []) => "."
  | (is_abs, c :: cs) =>
      (if is_abs then "/" else "") +:+
      fold_left (fun acc x => acc +:+ "/" +:+ x) cs c
  end.

Definition resolve (fs : FS) (p : Path) : list string :=
  if fst p then snd p else working_dir fs ++ snd p.

Definition exists_ (fs : FS) (p : Path) : bool :=
  match nodes fs !! resolve fs p with
  | Some _ => true
  | None => false
  end.

Definition is_dir (fs : FS) (p : Path) : bool :=
  match nodes fs !! resolve fs p with
  | Some Dir => true
  | _ => false
  end.

Definition read_text (fs : FS) (p : Path) : exn + string :=
  match nodes fs !! resolve fs p with
  | Some (File (Binary data)) => inr (string_of_list_byte data)
  | Some _ => inl (OSError "IsADirectoryError")
  | None => inl (OSError "FileNotFoundError")
  end.

Definition parent_is_dir (fs : FS) (ps : list string) : bool :=
  match nodes fs !! removelast ps with
  | Some Dir => true
  | _ => false
  end.

Definition put (ps : list string) (n : node) (fs : FS) : FS :=
  {| working_dir := working_dir fs; nodes := <[ps := n]> (nodes fs) |}.

Definition mkdir (p : Path) (fs : FS) : (exn + unit) * FS :=
  let ps := resolve fs p in
  match nodes fs !! ps with
  | Some _ => (inl (OSError "FileExistsError"), fs)
  | None =>
      if parent_is_dir fs ps then (inr tt, put ps Dir fs)
      else (inl (OSError "FileNotFoundError"), fs)
  end.

Definition write (p : Path) (c : content) (fs : FS) : (exn + unit) * FS :=
  let ps := resolve fs p in
  match nodes fs !! ps with
  | Some Dir => (inl (OSError "IsADirectoryError"), fs)
  | _ =>
      if parent_is_dir fs ps then (inr tt, put ps (File c) fs)
      else (inl (OSError "FileNotFoundError"), fs)
  end.

#[global] Instance file_system : FileSystem Path FS := {|
  path_of_str := parse;
  joinpath := join;
  path_name := name;
  path_str := render;
  cwd := fun fs => (true, working_dir fs);
  fs_exists := exists_;
  fs_is_dir := is_dir;
  fs_read_text := read_text;
  fs_mkdir := mkdir;
  fs_write := write
|}.

(** The services: a table of URLs, and the answers of conda-lock. *)
Record Ext := {
  net : gmap string Response;
  lock_spec : LockSpecification;
  virtual_packages : FakeRepoData;
  solution : DryRunInstall
}.

#[global] Instance services : Services Path FS Ext := {|
  session_get := fun _ url ext =>
    match net ext !! url with
    | Some r => (inr r, ext)
    | None => (inl (ExternalError "requests.ConnectionError"), ext)
    end;
  conda_lock_before_1_3_0 := false;
  parse_environment_file := fun _ _ _ ext => (inr (lock_spec ext), ext);
  default_virtual_package_repodata := fun ext => (inr (virtual_packages ext), ext);
  virtual_package_repo_from_specification :=
    fun _ _ ext => (inr (virtual_packages ext), ext);
  solve_specs_for_arch := fun _ _ _ _ _ ext => (inr (solution ext), ext);
  reconstruct_fetch_actions := fun _ _ sol _ ext => (inr sol, ext)
|}.

Definition join_with (sep : string) (xs : list string) : string :=
  match xs with
  | [] => EmptyString
  | x :: rest => fold_left (fun acc y => acc +:+ sep +:+ y) rest x
  end.

(** A one-key YAML reader: the text [name: x]. *)
Definition load_name (text : string) : exn + json :=
  if String.prefix "name: " text
  then inr (JObj {[ "name" := JStr (String.substring 6 (String.length text - 6) text) ]})
  else inl (ExternalError "yaml.YAMLError").

#[global] Instance runtime : PyRuntime := {|
  list_of_set := remove_dups;
  repr_list := fun xs =>
    "[" +:+ join_with ", " (map (fun x => "'" +:+ x +:+ "'") xs) +:+ "]";
  str_int := fun n => NilZero.string_of_int (Z.to_int n);
  json_dumps := fun pl => "[" +:+ join_with ", " (map fa_fn pl) +:+ "]";
  yaml_safe_load := load_name
|}.

(** *** A scenario: two packages and one virtual package *)

Definition pkg (channel subdir fn : string) (digest : option string)
  : FetchAction :=
  {| fa_channel := channel; fa_constrains := None; fa_depends := Some [];
     fa_fn := fn; fa_md5 := EmptyString; fa_sha256 := digest;
     fa_name := fn; fa_subdir := subdir; fa_timestamp := 0;
     fa_url := channel +:+ "/" +:+ fn; fa_version := "1.0" |}.

Definition foo : FetchAction :=
  pkg "https://conda.example/main/linux-64" "linux-64" "foo-1.0-0.tar.bz2"
    (Some "ba7816bf8f01cfea414140de5dae2223b00361a396177a9cb410ff61f20015ad").

Definition bar : FetchAction :=
  pkg "https://conda.example/main/noarch" "noarch" "bar-2.0-0.conda"
    (Some "e3b0c44298fc1c149afbf4c8996fb92427ae41e4649b934ca495991b7852b855").

(** [bar] with its digest in upper case. *)
Definition bar_upper : FetchAction :=
  pkg "https://conda.example/main/noarch" "noarch" "bar-2.0-0.conda"
    (Some "E3B0C44298FC1C149AFBF4C8996FB92427AE41E4649B934CA495991B7852B855").

(** [foo] with a digest that is not the one of the served bytes. *)
Definition foo_tampered : FetchAction :=
  pkg "https://conda.example/main/linux-64" "linux-64" "foo-1.0-0.tar.bz2"
    (Some "0000000000000000000000000000000000000000000000000000000000000000").

Definition glibc : FetchAction :=
  pkg "file:///tmp/virtual/linux-64" "linux-64" "__glibc-2.17-0.tar.bz2" None.

Definition entry (n : string) : json := JObj {[ "name" := JStr n ]}.

Definition upstream_linux : json :=
  JObj {[ "info" := JObj {[ "subdir" := JStr "linux-64" ]};
          "packages" := JObj {[ "foo-1.0-0.tar.bz2" := entry "foo";
                                "foo-0.9-0.tar.bz2" := entry "foo";
                                "baz-3.1-0.tar.bz2" := entry "baz" ]};
          "packages.conda" := JObj {[ "baz-3.1-0.conda" := entry "baz" ]} ]}.

(** An upstream document without the [packages] partition. *)
Definition upstream_noarch : json :=
  JObj {[ "info" := JObj {[ "subdir" := JStr "noarch" ]};
          "packages.conda" := JObj {[ "bar-2.0-0.conda" := entry "bar";
                                      "qux-1.0-0.conda" := entry "qux" ]} ]}.

Definition ext0 : Ext := {|
  net := {[ "https://conda.example/main/linux-64/repodata.json" :=
              {| resp_content := []; resp_json := inr upstream_linux |};
            "https://conda.example/main/noarch/repodata.json" :=
              {| resp_content := []; resp_json := inr upstream_noarch |};
            "https://conda.example/main/linux-64/foo-1.0-0.tar.bz2" :=
              {| resp_content := str_bytes "abc";
                 resp_json := inl (ExternalError "JSONDecodeError") |};
            "https://conda.example/main/noarch/bar-2.0-0.conda" :=
              {| resp_content := [];
                 resp_json := inl (ExternalError "JSONDecodeError") |} ]};
  lock_spec := {| dependencies := [ {| dep_name := "foo"; dep_version := "1.0" |};
                                    {| dep_name := "bar"; dep_version := ">=2" |} ];
                  channels := ["https://conda.example/main"] |};
  virtual_packages := {| vp_channel_url := "file:///tmp/virtual";
                         vp_all_repodata := {[ "linux-64" := [("__glibc", "2.17")] ]} |};
  solution := {| success := true;
                 FETCH := [foo; glibc; bar];
                 LINK := [] |}
|}.

(** A working directory [/work] holding [environment.yaml]. *)
Definition fs0 : FS := {|
  working_dir := ["work"];
  nodes := {[ [] := Dir;
              ["work"] := Dir;
              ["work"; "environment.yaml"] := File (Binary (str_bytes "name: demo")) ]}
|}.

(** The same with the mirror [/work/demo] already in place. *)
Definition fs_taken : FS := put ["work"; "demo"] Dir fs0.

(** The same with the mirror and its two subdirectories created. *)
Definition fs_ready : FS :=
  put ["work"; "demo"; "noarch"] Dir
    (put ["work"; "demo"; "linux-64"] Dir fs_taken).

Definition world (fs : FS) : World FS Ext := {| w_fs := fs; w_ext := ext0 |}.

End Demo.

(* ===================================================================== *)
(** ** Vocabulary of the statements *)
(* ===================================================================== *)

(** The partition [key] of an upstream document: the object stored under
    [key], and no entries when the document has no such key. *)
Definition partition_is (m : gmap string json) (key : string)
    (p : gmap string json) : Prop :=
  m !! key = Some (JObj p) \/ (m !! key = None /\ p = ∅).

(** The pairs (subdir, channel) that [create_repodata_json] goes through,
    in the order of its two nested loops. *)
Definition repodata_jobs `{!PyRuntime} (package_list : list FetchAction)
  : list (string * string) :=
  let chans := list_of_set (map fa_channel package_list) in
  let subdirs := list_of_set (map fa_subdir package_list) in
  flat_map (fun subdir =>
              map (fun channel => (subdir, channel))
                  (List.filter (fun ch => PyStr.contains ch subdir) chans))
           subdirs.

(** Events that change the file system. *)
Definition is_mutation {Path : Type} (e : event Path) : Prop :=
  match e with
  | EvMkdir _ | EvWrite _ _ => True
  | _ => False
  end.

(** Events of solving and downloading. *)
Definition is_work {Path : Type} (e : event Path) : Prop :=
  match e with
  | EvGet _ | EvParseEnvironment _ | EvVirtualPackages
  | EvSolve _ _ _ _ | EvReconstructFetch => True
  | _ => False
  end.

(** The texts printed with a bare [click.echo], in order: the output that
    is not a status line. *)
Definition echoed {Path : Type} (evs : list (event Path)) : list string :=
  omap (fun e => match e with EvEcho text => Some text | _ => None end) evs.

(** The files written, with what was written, in order. *)
Definition written {Path : Type} (evs : list (event Path))
  : list (Path * content) :=
  omap (fun e => match e with EvWrite p c => Some (p, c) | _ => None end) evs.

(** Events that print something other than a status line. *)
Definition is_echo {Path : Type} (e : event Path) : Prop :=
  match e with
  | EvEcho _ => True
  | _ => False
  end.

(** Events that neither change the file system nor print data. *)
Definition calm {Path : Type} (e : event Path) : Prop :=
  ~ is_mutation e /\ ~ is_echo e.

(** The computation leaves the file system as it found it, and each of
    its events satisfies [P]. *)
Definition keeps_fs {Path FS Ext A : Type} (P : event Path -> Prop)
    (m : M Path FS Ext A) : Prop :=
  forall w, w_fs (snd (fst (m w))) = w_fs w /\ Forall P (snd (m w)).

(** The condition of the [assert] in [download_packages]. *)
Definition dest_dir_ok {Path FS : Type} `{!FileSystem Path FS}
    (fs : FS) (root : Path) (pkg : FetchAction) : bool :=
  fs_exists fs (joinpath root (fa_subdir pkg))
  && fs_is_dir fs (joinpath root (fa_subdir pkg)).

(** The loop of [retain] with the order of iteration explicit: [items] is
    what [d.items()] yields, in the order it yields it. *)
Definition retain_items (valid_names : list string)
    (items : list (string * json)) : gmap string json :=
  foldl (fun out item =>
           if bool_decide (fst item ∈ valid_names)
           then <[fst item := snd item]> out else out)
        ∅ items.

(* ===================================================================== *)
(** ** [_get_conda_platform] *)
(* ===================================================================== *)

(** [f"{n}"] for an [int] *)
Definition py_str_int (n : Z) : string := NilZero.string_of_int (Z.to_int n).

Definition _platform_map : gmap string string :=
  {[ "linux2" := "linux";
     "linux" := "linux";
     "darwin" := "osx";
     "win32" := "win";
     "zos" := "zos" ]}.

(** [sys_platform] is [sys.platform] and [calcsize_P] is
    [struct.calcsize("P")], the two values the function reads from the
    host. *)
Definition _get_conda_platform (platform : option string)
    (sys_platform : string) (calcsize_P : Z) : exn + string :=
  match platform with
  | Some platform => inr platform
  | None =>
      let platform := sys_platform in
      let bits := calcsize_P * 8 in
      match _platform_map !! platform with
      | Some os => inr (os +:+ "-" +:+ py_str_int bits)
      | None => inl (KeyError platform)
      end
  end.

(* ===================================================================== *)
(** ** The [ironbank-gen] command *)
(* ===================================================================== *)

Section Commands.
Context {Path FS Ext : Type}.
Context `{!FileSystem Path FS} `{!Services Path FS Ext} `{!PyRuntime}.
Local Open Scope prog_scope.

Definition ironbank_gen (file : option string) (solver platform : string)
    (virtual_package_spec : option string) : M Path FS Ext unit :=
  file <- lift (match file with
                | Some f => inr f
                | None => inl TypeError
                end) ;;
  package_list <-
    solve_environment (path_of_str file) solver platform virtual_package_spec ;;
  yaml_dump_ironbank_manifest package_list.

End Commands.

(** The URLs downloaded, in order. *)
Definition fetched {Path : Type} (evs : list (event Path)) : list string :=
  omap (fun e => match e with EvGet url => Some url | _ => None end) evs.

(** Every event of the computation satisfies [P]. *)
Definition emits {Path FS Ext A : Type} (P : event Path -> Prop)
    (m : M Path FS Ext A) : Prop :=
  forall w, Forall P (snd (m w)).

(** What an event of [create_repodata_json] may be: never a [mkdir] or a
    bare echo, and a write only of an index document into the
    [repodata.json] of the subdirectory of some descriptor. *)
Definition index_event {Path FS : Type} `{!FileSystem Path FS}
    (D : list FetchAction) (root : Path) (e : event Path) : Prop :=
  match e with
  | EvMkdir _ | EvEcho _ => False
  | EvWrite p c =>
      exists S U doc,
        S ∈ map fa_subdir D /\
        repo_data_of (path_name (joinpath root S)) D U = inr doc /\
        p = path_of_str (path_str (joinpath root S) +:+ "/repodata.json") /\
        c = JsonText doc
  | _ => True
  end.


(** The calls to conda-lock among the events, in order. *)
Definition lock_calls {Path : Type} (evs : list (event Path))
  : list (event Path) :=
  List.filter (fun e => match e with
                        | EvParseEnvironment _ | EvVirtualPackages
                        | EvSolve _ _ _ _ | EvReconstructFetch => true
                        | _ => false
                        end) evs.

(** The four lines printed before the virtual packages are listed. *)
Definition solve_header {Path : Type} `{!PyRuntime}
    (solver platform : string) (specs : list string) : list (event Path) :=
  [ EvStatus Cyan false ("Using Solver: " +:+ solver);
    EvStatus Cyan false ("Solving for Platform: " +:+ platform);
    EvStatus Cyan false ("Solving for Spec: " +:+ repr_list specs);
    EvStatus Cyan false "Virtual Packages:" ].

(** The entry of the Iron Bank manifest for a descriptor. *)
Definition resource_of (pkg : FetchAction) : resource :=
  {| res_url := fa_url pkg;
     res_filename := fa_fn pkg;
     res_validation_type := "sha256";
     res_validation_value := fa_sha256 pkg |}.

(** The services of the concrete world when the solver reports a failure. *)
Definition demo_ext_failed : Demo.Ext :=
  {| Demo.net := Demo.net Demo.ext0;
     Demo.lock_spec := Demo.lock_spec Demo.ext0;
     Demo.virtual_packages := Demo.virtual_packages Demo.ext0;
     Demo.solution := {| success := false; FETCH := []; LINK := [] |} |}.

(* ===================================================================== *)
(** * Properties *)
(* ===================================================================== *)

(** ** Strings and digests *)

Lemma append_nil (b : string) : EmptyString +:+ b = b.
Proof. reflexivity. Qed.

Lemma append_cons (c : ascii) (a b : string) :
  String c a +:+ b = String c (a +:+ b).
Proof. reflexivity. Qed.

Lemma prefix_spec (pre s : string) :
  String.prefix pre s = true <-> exists rest, s = pre +:+ rest.
Proof.
  revert s. induction pre as [|c pre IH]; intros [|c' s]; simpl.
  - split; [intros _; by exists EmptyString | done].
  - split; [intros _; by exists (String c' s) | done].
  - split; [done | intros [rest Hrest]; discriminate].
  - destruct (Ascii.ascii_dec c c') as [->|Hne].
    + rewrite IH. split; intros [rest Hrest]; exists rest;
        rewrite append_cons in *; congruence.
    + split; [done | intros [rest Hrest]; rewrite append_cons in Hrest; congruence].
Qed.

Lemma startswith_spec (s pre : string) :
  PyStr.startswith s pre = true <-> exists rest, s = pre +:+ rest.
Proof. apply prefix_spec. Qed.

Lemma string_app_assoc (a b c : string) : (a +:+ b) +:+ c = a +:+ (b +:+ c).
Proof.
  induction a as [|x a IH]; [done|]. rewrite !append_cons. by rewrite IH.
Qed.


Example sha256_constants :
  length SHA256.K = 64%nat /\
  head SHA256.K = Some 0x428a2f98 /\ last SHA256.K = Some 0xc67178f2 /\
  head SHA256.H0 = Some 0x6a09e667 /\ last SHA256.H0 = Some 0x5be0cd19.
Proof. repeat split. Qed.

Example sha256_empty :
  SHA256.hexdigest [] =
  "e3b0c44298fc1c149afbf4c8996fb92427ae41e4649b934ca495991b7852b855".
Proof. vm_compute. reflexivity. Qed.

Example sha256_abc :
  SHA256.hexdigest (str_bytes "abc") =
  "ba7816bf8f01cfea414140de5dae2223b00361a396177a9cb410ff61f20015ad".
Proof. vm_compute. reflexivity. Qed.

Example sha256_two_blocks :
  SHA256.hexdigest
    (str_bytes "abcdbcdecdefdefgefghfghighijhijkijkljklmklmnlmnomnopnopq") =
  "248d6a61d20638b8e5c026930c3e6039a33ce45964ff2167f6ecedd419db06c1".
Proof. vm_compute. reflexivity. Qed.

Lemma lower_app (a b : string) :
  PyStr.lower (a +:+ b) = PyStr.lower a +:+ PyStr.lower b.
Proof.
  induction a as [|c a IH]; [done|]. rewrite !append_cons. simpl. by rewrite IH.
Qed.

Lemma lower_hex_digit (x : Z) :
  PyStr.lower_ascii (SHA256.hex_digit x) = SHA256.hex_digit x.
Proof.
  unfold SHA256.hex_digit.
  destruct (x mod 16) as [|p|p]; [reflexivity | | reflexivity].
  do 4 (destruct p as [p|p|]; try reflexivity).
Qed.

Lemma lower_hex_nibbles (n : nat) (x : Z) :
  PyStr.lower (SHA256.hex_nibbles n x) = SHA256.hex_nibbles n x.
Proof.
  induction n as [|n IH]; simpl; [done|]. by rewrite lower_hex_digit, IH.
Qed.

(** [hexdigest] prints lower case: [lower] leaves it unchanged. *)
Lemma hexdigest_lower (data : SHA256.bytes) :
  PyStr.lower (SHA256.hexdigest data) = SHA256.hexdigest data.
Proof.
  unfold SHA256.hexdigest.
  induction (SHA256.digest_words data) as [|w ws IH]; [done|].
  cbn [fold_right]. rewrite lower_app, IH. unfold SHA256.hex_word.
  by rewrite lower_hex_nibbles.
Qed.

(* ===================================================================== *)
(** ** [_remove_channel] *)
(* ===================================================================== *)

Section RemoveChannel.
Context {A : Type} (skip : A -> bool).

(** The loop [for entry in xs: if skip(entry): continue; acc.append(entry)]
    appends to [acc] the entries of [xs] that are not skipped, in order. *)
Lemma skip_loop_filter (xs acc : list A) :
  foldl (fun acc entry => if skip entry then acc else acc ++ [entry]) acc xs
  = acc ++ filter (fun entry => skip entry = false) xs.
Proof.
  revert acc. induction xs as [|x xs IH]; intros acc; simpl.
  - by rewrite app_nil_r.
  - rewrite IH. destruct (skip x) eqn:Hx.
    + rewrite filter_cons_False; [done | congruence].
    + rewrite filter_cons_True by done. by rewrite <- app_assoc.
Qed.

Lemma length_filter_split (xs : list A) :
  length (filter (fun entry => skip entry = false) xs)
  = (length xs - length (filter (fun entry => skip entry = true) xs))%nat.
Proof.
  induction xs as [|x xs IH]; simpl; [done|].
  pose proof (length_filter (fun entry => skip entry = true) xs).
  destruct (skip x) eqn:Hx.
  - rewrite filter_cons_False by congruence.
    rewrite (filter_cons_True (fun entry => skip entry = true)) by done.
    simpl. lia.
  - rewrite filter_cons_True by done.
    rewrite (filter_cons_False (fun entry => skip entry = true)) by congruence.
    simpl. lia.
Qed.
End RemoveChannel.

Lemma remove_channel_FETCH (solution : DryRunInstall) (channel : string) :
  FETCH (_remove_channel solution channel)
  = filter (fun d => PyStr.startswith (fa_channel d) channel = false)
           (FETCH solution).
Proof. unfold _remove_channel. simpl. by rewrite skip_loop_filter. Qed.

(** C4. The FETCH list that [_remove_channel] leaves holds no descriptor
    whose channel starts with the given channel URL, has the length of the
    original list minus the number of descriptors from that channel, and
    keeps the other descriptors in their original order: it is the
    original list filtered. *)
Theorem remove_channel_strips_fetch (solution : DryRunInstall) (channel : string) :
  let D := FETCH solution in
  let D' := FETCH (_remove_channel solution channel) in
  (forall d, d ∈ D' -> ~ from_channel channel d) /\
  length D' = (length D - length (filter (from_channel channel) D))%nat /\
  D' = filter (fun d => ~ from_channel channel d) D /\
  D' `sublist_of` D /\
  (forall d, d ∈ D -> ~ from_channel channel d -> d ∈ D').
Proof.
  intros D D'. subst D D'. rewrite remove_channel_FETCH.
  assert (Heq : filter (fun d => PyStr.startswith (fa_channel d) channel = false)
                       (FETCH solution)
                = filter (fun d => ~ from_channel channel d) (FETCH solution)).
  { apply list_filter_iff. intros d. unfold from_channel.
    destruct (PyStr.startswith _ _); naive_solver. }
  split; [|split; [|split; [|split]]].
  - intros d Hd. apply list_elem_of_filter in Hd as [Hd _].
    unfold from_channel. congruence.
  - apply (length_filter_split (fun d => PyStr.startswith (fa_channel d) channel)).
  - exact Heq.
  - apply sublist_filter.
  - intros d Hd Hn. rewrite Heq. apply list_elem_of_filter. done.
Qed.

(* ===================================================================== *)
(** ** [_reconstruct_repodata_json]: the document *)
(* ===================================================================== *)

Section Retain.
Context (valid_names : list string).

Lemma retain_lookup (items : gmap string json) (k : string) :
  retain valid_names items !! k
  = if bool_decide (k ∈ valid_names) then items !! k else None.
Proof.
  unfold retain. revert k.
  apply (map_fold_weak_ind
           (fun out (m : gmap string json) =>
              forall k, out !! k
                        = if bool_decide (k ∈ valid_names) then m !! k else None)).
  - intros k. rewrite !lookup_empty. by case_bool_decide.
  - intros i x m out Hi IH k.
    destruct (decide (i = k)) as [->|Hne].
    + rewrite lookup_insert_eq. case_bool_decide.
      * by rewrite lookup_insert_eq.
      * rewrite IH. by rewrite bool_decide_eq_false_2.
    + rewrite (lookup_insert_ne m) by done.
      case_bool_decide; [rewrite lookup_insert_ne by done|]; apply IH.
Qed.

Lemma retain_empty : retain valid_names ∅ = ∅.
Proof. apply map_eq. intros k. rewrite retain_lookup, lookup_empty. by case_bool_decide. Qed.

Lemma retain_filter (items : gmap string json) :
  retain valid_names items
  = filter (fun kv => fst kv ∈ valid_names) items.
Proof.
  apply map_eq. intros k. rewrite retain_lookup, map_lookup_filter.
  destruct (items !! k) as [v|]; simpl.
  - case_bool_decide; case_guard; simpl in *; done.
  - by case_bool_decide.
Qed.

Lemma retain_subseteq (items : gmap string json) :
  retain valid_names items ⊆ items.
Proof. rewrite retain_filter. apply map_filter_subseteq. Qed.

Lemma retain_dom (items : gmap string json) :
  dom (retain valid_names items)
  = (list_to_set valid_names : gset string) ∩ dom items.
Proof.
  apply set_eq. intros k.
  rewrite elem_of_intersection, !elem_of_dom, elem_of_list_to_set, retain_lookup.
  case_bool_decide as Hk; split.
  - by intros Hsome.
  - by intros [_ Hsome].
  - intros Hnone. by apply is_Some_None in Hnone.
  - by intros [Hin _].
Qed.

(** Keeping the retained entries again changes nothing. *)
Lemma retain_retain (items : gmap string json) :
  retain valid_names (retain valid_names items) = retain valid_names items.
Proof.
  apply map_eq. intros k. rewrite !retain_lookup. by case_bool_decide.
Qed.

(** Whatever the order in which the items are visited, the loop builds
    the same mapping. *)
Lemma retain_items_lookup (items : list (string * json)) (acc : gmap string json)
    (k : string) :
  NoDup (items.*1) ->
  foldl (fun out item =>
           if bool_decide (fst item ∈ valid_names)
           then <[fst item := snd item]> out else out)
        acc items !! k
  = match (list_to_map items : gmap string json) !! k with
    | Some v => if bool_decide (k ∈ valid_names) then Some v else acc !! k
    | None => acc !! k
    end.
Proof.
  revert acc. induction items as [|[i x] items IH]; intros acc Hnd; simpl.
  - by rewrite lookup_empty.
  - rewrite fmap_cons in Hnd. apply NoDup_cons in Hnd as [Hi Hnd].
    rewrite IH by done.
    assert (Hnone : (list_to_map items : gmap string json) !! i = None).
    { by apply not_elem_of_list_to_map_1. }
    destruct (decide (i = k)) as [->|Hne].
    + rewrite Hnone, lookup_insert_eq.
      case_bool_decide; [by rewrite lookup_insert_eq | done].
    + rewrite (lookup_insert_ne (list_to_map items)) by done.
      assert (Hacc : (if bool_decide (i ∈ valid_names)
                      then <[i:=x]> acc else acc) !! k = acc !! k).
      { destruct (bool_decide (i ∈ valid_names));
          [by rewrite lookup_insert_ne | done]. }
      by rewrite Hacc.
Qed.

Lemma retain_items_spec (items : list (string * json)) :
  NoDup (items.*1) ->
  retain_items valid_names items = retain valid_names (list_to_map items).
Proof.
  intros Hnd. apply map_eq. intros k. unfold retain_items.
  rewrite retain_items_lookup by done. rewrite retain_lookup, lookup_empty.
  destruct (list_to_map items !! k); by case_bool_decide.
Qed.
End Retain.

Lemma repo_data_of_partitions (dest_name : string) (D : list FetchAction)
    (m pk pc : gmap string json) :
  partition_is m "packages" pk ->
  partition_is m "packages.conda" pc ->
  repo_data_of dest_name D (JObj m)
  = inr (make_repo_data dest_name (retain (map fa_fn D) pk)
                                  (retain (map fa_fn D) pc)).
Proof.
  intros [Hpk | [Hpk ->]] [Hpc | [Hpc ->]];
    unfold repo_data_of, py_get; rewrite Hpk, Hpc; reflexivity.
Qed.

(** A partition that is present and is not an object makes the function
    raise: the hypotheses on the partitions cannot be dropped. *)
Lemma repo_data_of_inr (dest_name : string) (D : list FetchAction)
    (U doc : json) :
  repo_data_of dest_name D U = inr doc ->
  exists m pk pc, U = JObj m /\ partition_is m "packages" pk /\
                  partition_is m "packages.conda" pc.
Proof.
  unfold repo_data_of, py_get. destruct U as [| | | | |m]; try discriminate.
  intros Hdoc. exists m.
  destruct (m !! "packages") as [[| | | | |pk]|] eqn:Hpk;
    destruct (m !! "packages.conda") as [[| | | | |pc]|] eqn:Hpc;
    try discriminate; unfold partition_is; eauto 10.
Qed.

(** C3. For an upstream document whose partitions are [Upk] and [Upc] and
    any descriptor list [D], the document built has the three keys [info]
    (holding the destination subdirectory), [packages] and
    [packages.conda]; the keys of its two partitions together are exactly
    the file names of [D] that are keys of the upstream partitions; every
    entry kept is the upstream entry, and no key outside the file names of
    [D] is present. *)
Theorem reconstructed_index_keys (dest_name : string) (D : list FetchAction)
    (m Upk Upc : gmap string json) :
  partition_is m "packages" Upk ->
  partition_is m "packages.conda" Upc ->
  exists pk pc : gmap string json,
    repo_data_of dest_name D (JObj m)
    = inr (JObj {[ "info" := JObj {[ "subdir" := JStr dest_name ]};
                   "packages" := JObj pk;
                   "packages.conda" := JObj pc ]}) /\
    dom pk ∪ dom pc
    = (list_to_set (map fa_fn D) : gset string) ∩ (dom Upk ∪ dom Upc) /\
    pk ⊆ Upk /\ pc ⊆ Upc /\
    (forall k, k ∉ map fa_fn D -> pk !! k = None /\ pc !! k = None).
Proof.
  intros Hpk Hpc.
  exists (retain (map fa_fn D) Upk), (retain (map fa_fn D) Upc).
  split; [by apply repo_data_of_partitions|].
  split.
  { rewrite !retain_dom. apply set_eq. intros k.
    rewrite elem_of_union, !elem_of_intersection, elem_of_union. tauto. }
  split; [apply retain_subseteq|]. split; [apply retain_subseteq|].
  intros k Hk. rewrite !retain_lookup. by rewrite bool_decide_eq_false_2.
Qed.

Lemma reconstructed_index_keys_witness :
  exists pk pc : gmap string json,
    repo_data_of "linux-64" [Demo.foo; Demo.bar] Demo.upstream_linux
    = inr (JObj {[ "info" := JObj {[ "subdir" := JStr "linux-64" ]};
                   "packages" := JObj pk;
                   "packages.conda" := JObj pc ]}) /\
    dom pk ∪ dom pc
    = (list_to_set (map fa_fn [Demo.foo; Demo.bar]) : gset string)
      ∩ (dom ({[ "foo-1.0-0.tar.bz2" := Demo.entry "foo";
                 "foo-0.9-0.tar.bz2" := Demo.entry "foo";
                 "baz-3.1-0.tar.bz2" := Demo.entry "baz" ]} : gmap string json)
         ∪ dom ({[ "baz-3.1-0.conda" := Demo.entry "baz" ]} : gmap string json)) /\
    pk ⊆ {[ "foo-1.0-0.tar.bz2" := Demo.entry "foo";
            "foo-0.9-0.tar.bz2" := Demo.entry "foo";
            "baz-3.1-0.tar.bz2" := Demo.entry "baz" ]} /\
    pc ⊆ {[ "baz-3.1-0.conda" := Demo.entry "baz" ]} /\
    (forall k, k ∉ map fa_fn [Demo.foo; Demo.bar] ->
               pk !! k = None /\ pc !! k = None).
Proof.
  apply (reconstructed_index_keys "linux-64" [Demo.foo; Demo.bar]).
  - left. reflexivity.
  - left. reflexivity.
Defined.

(** The document of the scenario: one entry is kept out of four. *)
Example repo_data_linux :
  repo_data_of "linux-64" [Demo.foo; Demo.bar] Demo.upstream_linux
  = inr (JObj {[ "info" := JObj {[ "subdir" := JStr "linux-64" ]};
                 "packages" := JObj {[ "foo-1.0-0.tar.bz2" := Demo.entry "foo" ]};
                 "packages.conda" := JObj ∅ ]}).
Proof. vm_compute. reflexivity. Qed.

(** C7. An upstream document without the [packages] key, without the
    [packages.conda] key, or without both is handled as if the missing
    partition were an empty object: the function returns a document (no
    exception), the partition that is missing contributes no entry, and the
    other partition is filtered as usual. *)
Theorem missing_partition_is_empty (dest_name : string) (D : list FetchAction)
    (m : gmap string json) :
  (m !! "packages" = None ->
     repo_data_of dest_name D (JObj m)
     = repo_data_of dest_name D (JObj (<["packages" := JObj ∅]> m)) /\
     forall pc, m !! "packages.conda" = Some (JObj pc) ->
       repo_data_of dest_name D (JObj m)
       = inr (make_repo_data dest_name ∅ (retain (map fa_fn D) pc))) /\
  (m !! "packages.conda" = None ->
     repo_data_of dest_name D (JObj m)
     = repo_data_of dest_name D (JObj (<["packages.conda" := JObj ∅]> m)) /\
     forall pk, m !! "packages" = Some (JObj pk) ->
       repo_data_of dest_name D (JObj m)
       = inr (make_repo_data dest_name (retain (map fa_fn D) pk) ∅)) /\
  (m !! "packages" = None -> m !! "packages.conda" = None ->
     repo_data_of dest_name D (JObj m) = inr (make_repo_data dest_name ∅ ∅)).
Proof.
  split; [|split].
  - intros Hpk. split.
    + unfold repo_data_of, py_get. rewrite Hpk, lookup_insert_eq.
      rewrite lookup_insert_ne by done. reflexivity.
    + intros pc Hpc.
      rewrite (repo_data_of_partitions dest_name D m ∅ pc);
        [by rewrite retain_empty | by right | by left].
  - intros Hpc. split.
    + unfold repo_data_of, py_get. rewrite Hpc, lookup_insert_eq.
      rewrite lookup_insert_ne by done. reflexivity.
    + intros pk Hpk.
      rewrite (repo_data_of_partitions dest_name D m pk ∅);
        [by rewrite retain_empty | by left | by right].
  - intros Hpk Hpc.
    rewrite (repo_data_of_partitions dest_name D m ∅ ∅);
      [by rewrite retain_empty | by right | by right].
Qed.

Lemma missing_partition_is_empty_witness :
  repo_data_of "noarch" [Demo.foo; Demo.bar] Demo.upstream_noarch
  = inr (make_repo_data "noarch" ∅
           (retain (map fa_fn [Demo.foo; Demo.bar])
                   {[ "bar-2.0-0.conda" := Demo.entry "bar";
                      "qux-1.0-0.conda" := Demo.entry "qux" ]})).
Proof.
  refine (proj2 (proj1 (missing_partition_is_empty "noarch" [Demo.foo; Demo.bar] _) _) _ _);
    reflexivity.
Defined.

(* ===================================================================== *)
(** ** Computations *)
(* ===================================================================== *)

Section MonadLaws.
Context {Path FS Ext : Type}.
Local Notation "'M'" := (M Path FS Ext).

Lemma bind_inr {A B} (m : M A) (k : A -> M B) w a w1 evs1 :
  m w = (inr a, w1, evs1) ->
  bind m k w = (fst (fst (k a w1)), snd (fst (k a w1)), evs1 ++ snd (k a w1)).
Proof. intros Hm. unfold bind. rewrite Hm. by destruct (k a w1) as [[r w2] evs2]. Qed.

Lemma bind_inl {A B} (m : M A) (k : A -> M B) w e w1 evs1 :
  m w = (inl e, w1, evs1) -> bind m k w = (inl e, w1, evs1).
Proof. intros Hm. unfold bind. by rewrite Hm. Qed.

Lemma bind_assoc {A B C} (m : M A) (f : A -> M B) (g : B -> M C) w :
  bind (bind m f) g w = bind m (fun x => bind (f x) g) w.
Proof.
  unfold bind. destruct (m w) as [[[e|a] w1] evs1]; [done|].
  destruct (f a w1) as [[[e|b] w2] evs2]; [done|].
  destruct (g b w2) as [[r w3] evs3]. by rewrite app_assoc.
Qed.

Lemma bind_ext {A B} (m : M A) (k k' : A -> M B) w :
  (forall a w', k a w' = k' a w') -> bind m k w = bind m k' w.
Proof.
  intros Hk. unfold bind. destruct (m w) as [[[e|a] w1] evs1]; [done|].
  by rewrite Hk.
Qed.

Lemma bind_ret_r (m : M unit) w : bind m (fun _ => ret tt) w = m w.
Proof.
  unfold bind, ret. destruct (m w) as [[[e|[]] w1] evs1]; [done|].
  by rewrite app_nil_r.
Qed.


Lemma for_app {A} (l1 l2 : list A) (body : A -> M unit) w :
  for_ (l1 ++ l2) body w = bind (for_ l1 body) (fun _ => for_ l2 body) w.
Proof.
  revert w. induction l1 as [|x l1 IH]; intros w; simpl.
  - unfold bind, ret. by destruct (for_ l2 body w) as [[r w1] evs1].
  - rewrite bind_assoc. apply bind_ext. intros _ w'. apply IH.
Qed.


End MonadLaws.

(* ===================================================================== *)
(** ** [create_repodata_json] *)
(* ===================================================================== *)



Section CreateRepodata.
Context {Path FS Ext : Type}.
Context `{!FileSystem Path FS} `{!Services Path FS Ext} `{!PyRuntime}.
Context `{!PyRuntimeLaws}.




End CreateRepodata.

(* ===================================================================== *)
(** ** Stepping through a computation *)
(* ===================================================================== *)

Section Steps.
Context {Path FS Ext : Type}.
Local Notation "'M'" := (M Path FS Ext).

Lemma bind_emit {B} (e : event Path) (k : unit -> M B) w :
  bind (emit e) k w = (fst (fst (k tt w)), snd (fst (k tt w)), e :: snd (k tt w)).
Proof. unfold bind, emit. by destruct (k tt w) as [[r w'] evs]. Qed.

Lemma bind_lift_inr {A B} (a : A) (k : A -> M B) w :
  bind (lift (inr a)) k w = k a w.
Proof. unfold bind, lift. by destruct (k a w) as [[r w'] evs]. Qed.

Lemma bind_fs_query {A B} (f : FS -> A) (k : A -> M B) w :
  bind (fs_query f) k w = k (f (w_fs w)) w.
Proof. unfold bind, fs_query. by destruct (k _ w) as [[r w'] evs]. Qed.

Context (P : event Path -> Prop).

Lemma keeps_ret {A} (a : A) : keeps_fs P (ret a : M A).
Proof. intros w. by split. Qed.

Lemma keeps_raise {A} (e : exn) : keeps_fs P (raise e : M A).
Proof. intros w. by split. Qed.

Lemma keeps_lift {A} (r : exn + A) : keeps_fs P (lift r : M A).
Proof. intros w. by split. Qed.

Lemma keeps_emit (e : event Path) : P e -> keeps_fs P (emit e : M unit).
Proof. intros He w. split; [done|]. by constructor. Qed.

Lemma keeps_fs_query {A} (f : FS -> A) : keeps_fs P (fs_query f : M A).
Proof. intros w. by split. Qed.

Lemma keeps_ext_call {A} (f : FS -> Ext -> (exn + A) * Ext) :
  keeps_fs P (ext_call f : M A).
Proof.
  intros w. unfold ext_call. by destruct (f (w_fs w) (w_ext w)) as [r ext'].
Qed.

Lemma keeps_bind {A B} (m : M A) (k : A -> M B) :
  keeps_fs P m -> (forall a, keeps_fs P (k a)) -> keeps_fs P (bind m k).
Proof.
  intros Hm Hk w. specialize (Hm w). unfold bind.
  destruct (m w) as [[[e|a] w1] evs1]; simpl in *; [done|].
  destruct Hm as [Hfs Hevs]. specialize (Hk a w1).
  destruct (k a w1) as [[r w2] evs2]; simpl in *.
  destruct Hk as [Hfs2 Hevs2]. split; [congruence|]. by apply Forall_app.
Qed.

Lemma keeps_for {A} (l : list A) (body : A -> M unit) :
  (forall x, keeps_fs P (body x)) -> keeps_fs P (for_ l body).
Proof.
  intros Hb. induction l as [|x l IH]; simpl; [apply keeps_ret|].
  apply keeps_bind; [apply Hb | intros _; apply IH].
Qed.
End Steps.

Ltac keeps_step :=
  first
    [ apply keeps_bind; [|intros ?]
    | apply keeps_for; intros ?
    | apply keeps_ret | apply keeps_raise | apply keeps_lift
    | apply keeps_fs_query | apply keeps_ext_call
    | apply keeps_emit; simpl; tauto ].

Section Vendor.
Context {Path FS Ext : Type}.
Context `{!FileSystem Path FS} `{!Services Path FS Ext} `{!PyRuntime}.


Lemma solve_environment_keeps_fs (environment_file : Path)
    (solver platform : string) (vps : option string) :
  keeps_fs calm
    (solve_environment environment_file solver platform vps).
Proof.
  unfold solve_environment, _generate_lock_spec, _get_virtual_packages,
    _cyan, _red, _green, sys_exit, calm.
  repeat keeps_step.
  - destruct conda_lock_before_1_3_0; keeps_step.
  - destruct vps; keeps_step.
  - destruct (negb _); repeat keeps_step.
Qed.

Lemma get_environment_name_pure (p : Path) (w : World FS Ext) :
  exists r, _get_environment_name p w = (r, w, []).
Proof.
  unfold _get_environment_name. rewrite bind_fs_query.
  destruct (fs_read_text (w_fs w) p) as [e|text]; [by eexists|].
  rewrite bind_lift_inr.
  destruct (yaml_safe_load text) as [e|y]; [by eexists|].
  rewrite bind_lift_inr. by eexists.
Qed.

Lemma vendor_root_exists (file solver platform : string)
    (vps : option string) (dry_run ironbank_gen : bool)
    (w : World FS Ext) (name : string) :
  _get_environment_name (path_of_str file) w = (inr (JStr name), w, []) ->
  fs_exists (w_fs w) (joinpath (cwd (w_fs w)) name) = true ->
  vendor (Some file) solver platform vps dry_run ironbank_gen w
  = (inl (SystemExit (ExitCode 1)), w,
     [ EvStatus Green false ("Vendoring Local Channel for file: " +:+ file);
       EvStatus Red true
         ("vendored channel destination "
          +:+ path_str (joinpath (cwd (w_fs w)) name) +:+ " already exists") ]).
Proof.
  intros Hname Hex. unfold vendor, _green, _red.
  rewrite bind_emit, bind_lift_inr.
  rewrite (bind_inr _ _ _ _ _ _ Hname). rewrite bind_lift_inr.
  rewrite !bind_fs_query. rewrite Hex.
  rewrite bind_emit. reflexivity.
Qed.

(** With the destination free, [vendor] is the creation of the
    directories (or the dry-run notice) followed by [vendor_run]. *)
Lemma vendor_root_free (file solver platform : string)
    (vps : option string) (dry_run ironbank_gen : bool)
    (w : World FS Ext) (name : string) :
  _get_environment_name (path_of_str file) w = (inr (JStr name), w, []) ->
  fs_exists (w_fs w) (joinpath (cwd (w_fs w)) name) = false ->
  let root := joinpath (cwd (w_fs w)) name in
  let rest :=
    bind (if dry_run
          then _yellow "Dry Run - Will Not Download Files" true
          else bind (mkdir root) (fun _ =>
               bind (mkdir (joinpath root platform)) (fun _ =>
                     mkdir (joinpath root "noarch"))))
         (fun _ => vendor_run (path_of_str file) root solver platform vps
                     dry_run ironbank_gen) w in
  vendor (Some file) solver platform vps dry_run ironbank_gen w
  = (fst (fst rest), snd (fst rest),
     EvStatus Green false ("Vendoring Local Channel for file: " +:+ file)
     :: snd rest).
Proof.
  intros Hname Hex. cbn zeta. unfold vendor, _green.
  rewrite bind_emit, bind_lift_inr.
  rewrite (bind_inr _ _ _ _ _ _ Hname). rewrite bind_lift_inr.
  rewrite !bind_fs_query. rewrite Hex. reflexivity.
Qed.

Lemma calm_written (evs : list (event Path)) :
  Forall calm evs -> written evs = [].
Proof.
  induction 1 as [|e evs [He _] _ IH]; [done|].
  destruct e; simpl in *; try done; tauto.
Qed.

Lemma calm_echoed (evs : list (event Path)) :
  Forall calm evs -> echoed evs = [].
Proof.
  induction 1 as [|e evs [_ He] _ IH]; [done|].
  destruct e; simpl in *; try done; tauto.
Qed.

Lemma calm_no_mutation (evs : list (event Path)) :
  Forall calm evs -> Forall (fun e => ~ is_mutation e) evs.
Proof. intros Hc. eapply Forall_impl; [exact Hc|]. by intros e [? _]. Qed.

(** The dry run, once the destination is known to be free. *)
Lemma vendor_dry_run (file solver platform : string)
    (vps : option string) (ironbank_gen : bool)
    (w : World FS Ext) (name : string) :
  _get_environment_name (path_of_str file) w = (inr (JStr name), w, []) ->
  fs_exists (w_fs w) (joinpath (cwd (w_fs w)) name) = false ->
  vendor (Some file) solver platform vps true ironbank_gen w
  = match solve_environment (path_of_str file) solver platform vps w with
    | (inl e, w1, evs1) =>
        (inl e, w1,
         EvStatus Green false ("Vendoring Local Channel for file: " +:+ file)
         :: EvStatus Yellow true "Dry Run - Will Not Download Files"
         :: evs1)
    | (inr package_list, w1, evs1) =>
        (inl (SystemExit (ExitCode 0)), w1,
         EvStatus Green false ("Vendoring Local Channel for file: " +:+ file)
         :: EvStatus Yellow true "Dry Run - Will Not Download Files"
         :: evs1 ++ [ EvStatus Green true "Dry Run Complete!";
                      EvEcho (json_dumps package_list) ])
    end.
Proof.
  intros Hname Hex.
  rewrite (vendor_root_free _ _ _ _ _ _ _ _ Hname Hex). cbn zeta.
  unfold _yellow. rewrite bind_emit. cbn [fst snd].
  unfold vendor_run.
  destruct (solve_environment (path_of_str file) solver platform vps w)
    as [[[e|pl] w1] evs1] eqn:Hsolve.
  - by rewrite (bind_inl _ _ _ _ _ _ Hsolve).
  - rewrite (bind_inr _ _ _ _ _ _ Hsolve).
    unfold _green. rewrite bind_emit, bind_emit. reflexivity.
Qed.

(** C6. A dry run whose destination does not exist yet leaves the file
    system as it was: no [mkdir] and no write is issued, whatever the
    solver answers.  When the solver returns a package list, the run ends
    with exit status 0 and the JSON dump of that list is the one text
    printed with a bare [click.echo], as the last event before the exit;
    everything else printed is a coloured status line. *)
Theorem dry_run_leaves_file_system (file solver platform : string)
    (vps : option string) (ironbank_gen : bool)
    (w : World FS Ext) (name : string) :
  _get_environment_name (path_of_str file) w = (inr (JStr name), w, []) ->
  fs_exists (w_fs w) (joinpath (cwd (w_fs w)) name) = false ->
  let run := vendor (Some file) solver platform vps true ironbank_gen w in
  w_fs (snd (fst run)) = w_fs w /\
  Forall (fun e => ~ is_mutation e) (snd run) /\
  written (snd run) = [] /\
  forall package_list w1 evs1,
    solve_environment (path_of_str file) solver platform vps w
    = (inr package_list, w1, evs1) ->
    fst (fst run) = inl (SystemExit (ExitCode 0)) /\
    exit_status (fst (fst run)) = 0 /\
    echoed (snd run) = [json_dumps package_list] /\
    exists evs, snd run = evs ++ [EvEcho (json_dumps package_list)].
Proof.
  intros Hname Hex run. subst run.
  rewrite (vendor_dry_run _ _ _ _ _ _ _ Hname Hex).
  pose proof (solve_environment_keeps_fs (path_of_str file) solver platform vps w)
    as [Hfs Hcalm].
  destruct (solve_environment (path_of_str file) solver platform vps w)
    as [[[e|pl] w1] evs1]; cbn [fst snd] in *.
  - split; [done|]. split; [|split].
    + do 2 (constructor; [simpl; tauto|]). by apply calm_no_mutation.
    + simpl. by apply calm_written.
    + intros pl w1' evs1' Heq. discriminate.
  - split; [done|]. split; [|split].
    + do 2 (constructor; [simpl; tauto|]). apply Forall_app. split.
      * by apply calm_no_mutation.
      * do 2 (constructor; [simpl; tauto|]). constructor.
    + simpl. unfold written. rewrite omap_app. fold (written evs1).
      by rewrite calm_written.
    + intros pl' w1' evs1' Heq. injection Heq as <- <- <-.
      split; [done|]. split; [done|]. split.
      * simpl. unfold echoed. rewrite omap_app. fold (echoed evs1).
        by rewrite calm_echoed.
      * eexists (_ :: _ :: evs1 ++ [_]). simpl. rewrite <- app_assoc. reflexivity.
Qed.

(** C10. In a dry run too, when the destination already exists the run
    ends with exit status 1 right after the destination check: the world
    is unchanged, no solving or download event and no file-system change
    occurs, and no package list is printed. *)
Theorem dry_run_checks_destination (file solver platform : string)
    (vps : option string) (ironbank_gen : bool)
    (w : World FS Ext) (name : string) :
  _get_environment_name (path_of_str file) w = (inr (JStr name), w, []) ->
  fs_exists (w_fs w) (joinpath (cwd (w_fs w)) name) = true ->
  let run := vendor (Some file) solver platform vps true ironbank_gen w in
  fst (fst run) = inl (SystemExit (ExitCode 1)) /\
  exit_status (fst (fst run)) = 1 /\
  snd (fst run) = w /\
  Forall (fun e => ~ is_work e /\ ~ is_mutation e) (snd run) /\
  echoed (snd run) = [].
Proof.
  intros Hname Hex run. subst run.
  rewrite (vendor_root_exists _ _ _ _ _ _ _ _ Hname Hex). cbn [fst snd].
  repeat split; try done.
  repeat constructor; simpl; tauto.
Qed.

Lemma mkdir_run (p : Path) (w : World FS Ext) :
  mkdir p w
  = (fst (fs_mkdir p (w_fs w)),
     {| w_fs := snd (fs_mkdir p (w_fs w)); w_ext := w_ext w |},
     [EvMkdir p]).
Proof.
  unfold mkdir. rewrite bind_emit. unfold fs_update.
  by destruct (fs_mkdir p (w_fs w)) as [r fs'].
Qed.

Lemma write_file_run (p : Path) (c : content) (w : World FS Ext) :
  write_file p c w
  = (fst (fs_write p c (w_fs w)),
     {| w_fs := snd (fs_write p c (w_fs w)); w_ext := w_ext w |},
     [EvWrite p c]).
Proof.
  unfold write_file. rewrite bind_emit. unfold fs_update.
  by destruct (fs_write p c (w_fs w)) as [r fs'].
Qed.

Lemma improved_download_run (url : string) (w : World FS Ext) :
  _improved_download url w
  = (fst (session_get retry url (w_ext w)),
     {| w_fs := w_fs w; w_ext := snd (session_get retry url (w_ext w)) |},
     [EvGet url]).
Proof.
  unfold _improved_download. rewrite bind_emit. unfold ext_call.
  by destruct (session_get retry url (w_ext w)) as [r ext'].
Qed.
End Vendor.

Section Directories.
Context {Path FS Ext : Type}.
Context `{!FileSystem Path FS} `{!Services Path FS Ext} `{!PyRuntime}.
Context `{!FileSystemLaws Path FS}.

(** The three [mkdir] calls of [vendor], by the answers of the file
    system: the first [mkdir] that raises ends the sequence with its
    exception, and when none does the three directories are there
    afterwards. *)
Lemma make_directories (root : Path) (platform : string) (w : World FS Ext) :
  let d1 := root in
  let d2 := joinpath root platform in
  let d3 := joinpath root "noarch" in
  let at_fs fs := {| w_fs := fs; w_ext := w_ext w |} in
  let dirs := bind (mkdir d1) (fun _ => bind (mkdir d2) (fun _ => mkdir d3)) in
  (exists e fs1,
     fs_mkdir d1 (w_fs w) = (inl e, fs1) /\
     dirs w = (inl e, at_fs fs1, [EvMkdir d1])) \/
  (exists fs1 e fs2,
     fs_mkdir d1 (w_fs w) = (inr tt, fs1) /\
     fs_mkdir d2 fs1 = (inl e, fs2) /\
     dirs w = (inl e, at_fs fs2, [EvMkdir d1; EvMkdir d2])) \/
  (exists fs1 fs2 e fs3,
     fs_mkdir d1 (w_fs w) = (inr tt, fs1) /\
     fs_mkdir d2 fs1 = (inr tt, fs2) /\
     fs_mkdir d3 fs2 = (inl e, fs3) /\
     dirs w = (inl e, at_fs fs3, [EvMkdir d1; EvMkdir d2; EvMkdir d3])) \/
  (exists fs1 fs2 fs3,
     fs_mkdir d1 (w_fs w) = (inr tt, fs1) /\
     fs_mkdir d2 fs1 = (inr tt, fs2) /\
     fs_mkdir d3 fs2 = (inr tt, fs3) /\
     dirs w = (inr tt, at_fs fs3, [EvMkdir d1; EvMkdir d2; EvMkdir d3]) /\
     fs_is_dir fs3 d1 = true /\
     fs_is_dir fs3 d2 = true /\
     fs_is_dir fs3 d3 = true).
Proof.
  intros d1 d2 d3 at_fs dirs. subst d1 d2 d3 at_fs dirs.
  destruct (fs_mkdir root (w_fs w)) as [[e|[]] fs1] eqn:H1.
  { left. exists e, fs1. split; [done|].
    apply bind_inl. rewrite mkdir_run, H1. reflexivity. }
  erewrite bind_inr by (rewrite mkdir_run, H1; reflexivity).
  cbn [fst snd w_fs w_ext].
  set (w1 := {| w_fs := fs1; w_ext := w_ext w |}).
  destruct (fs_mkdir (joinpath root platform) fs1) as [[e|[]] fs2] eqn:H2.
  { right. left. exists fs1, e, fs2. split; [done|]. split; [done|].
    erewrite bind_inl
      by (rewrite mkdir_run; subst w1; cbn [w_fs]; rewrite H2; reflexivity).
    reflexivity. }
  erewrite bind_inr
    by (rewrite mkdir_run; subst w1; cbn [w_fs]; rewrite H2; reflexivity).
  cbn [fst snd w_fs w_ext]. rewrite mkdir_run. cbn [w_fs w_ext].
  destruct (fs_mkdir (joinpath root "noarch") fs2) as [[e|[]] fs3] eqn:H3.
  { right. right. left. exists fs1, fs2, e, fs3. by repeat (split; [done|]). }
  right. right. right. exists fs1, fs2, fs3. repeat (split; [done|]).
  pose proof (fs_mkdir_creates _ _ _ H1) as D1.
  pose proof (fs_mkdir_creates _ _ _ H2) as D2.
  pose proof (fs_mkdir_creates _ _ _ H3) as D3.
  split; [|split; [|done]].
  - eapply fs_mkdir_keeps; [exact H3|]. eapply fs_mkdir_keeps; [exact H2|]. done.
  - eapply fs_mkdir_keeps; [exact H3|]. done.
Qed.

(** C5. When the destination exists at the start, [vendor] ends with
    exit status 1 before any solving or downloading and leaves the world
    unchanged.  When it does not exist and the run is not a dry run, the
    first three actions after the banner are the [mkdir] of the root, of
    the platform subdirectory and of [noarch], each in the file system the
    one before left.  The first of them that raises ends the run with its
    exception, nothing else done.  When the three succeed, the three
    directories exist in the file system they leave, and the whole rest of
    the run (solving, index reconstruction, downloads) starts from that
    file system: every write comes after the three directories are
    there. *)
Theorem destination_check_then_directories (file solver platform : string)
    (vps : option string) (dry_run ironbank_gen : bool)
    (w : World FS Ext) (name : string) :
  _get_environment_name (path_of_str file) w = (inr (JStr name), w, []) ->
  let root := joinpath (cwd (w_fs w)) name in
  let d2 := joinpath root platform in
  let d3 := joinpath root "noarch" in
  let at_fs fs := {| w_fs := fs; w_ext := w_ext w |} in
  let run := vendor (Some file) solver platform vps dry_run ironbank_gen w in
  let banner :=
    EvStatus Green false ("Vendoring Local Channel for file: " +:+ file) in
  (fs_exists (w_fs w) root = true ->
     fst (fst run) = inl (SystemExit (ExitCode 1)) /\
     exit_status (fst (fst run)) = 1 /\
     snd (fst run) = w /\
     Forall (fun e => ~ is_work e /\ ~ is_mutation e) (snd run)) /\
  (fs_exists (w_fs w) root = false -> dry_run = false ->
     (exists e fs1,
        fs_mkdir root (w_fs w) = (inl e, fs1) /\
        run = (inl e, at_fs fs1, [banner; EvMkdir root])) \/
     (exists fs1 e fs2,
        fs_mkdir root (w_fs w) = (inr tt, fs1) /\
        fs_mkdir d2 fs1 = (inl e, fs2) /\
        run = (inl e, at_fs fs2, [banner; EvMkdir root; EvMkdir d2])) \/
     (exists fs1 fs2 e fs3,
        fs_mkdir root (w_fs w) = (inr tt, fs1) /\
        fs_mkdir d2 fs1 = (inr tt, fs2) /\
        fs_mkdir d3 fs2 = (inl e, fs3) /\
        run = (inl e, at_fs fs3,
               [banner; EvMkdir root; EvMkdir d2; EvMkdir d3])) \/
     (exists fs1 fs2 fs3,
        fs_mkdir root (w_fs w) = (inr tt, fs1) /\
        fs_mkdir d2 fs1 = (inr tt, fs2) /\
        fs_mkdir d3 fs2 = (inr tt, fs3) /\
        fs_is_dir fs3 root = true /\
        fs_is_dir fs3 d2 = true /\
        fs_is_dir fs3 d3 = true /\
        let rest :=
          vendor_run (path_of_str file) root solver platform vps false
            ironbank_gen (at_fs fs3) in
        run = (fst (fst rest), snd (fst rest),
               banner :: EvMkdir root :: EvMkdir d2 :: EvMkdir d3
               :: snd rest))).
Proof.
  intros Hname root d2 d3 at_fs run banner. subst run banner. split.
  - intros Hex. rewrite (vendor_root_exists _ _ _ _ _ _ _ _ Hname Hex).
    cbn [fst snd]. repeat split; try done.
    repeat constructor; simpl; tauto.
  - intros Hex ->.
    rewrite (vendor_root_free _ _ _ _ _ _ _ _ Hname Hex). cbn zeta.
    fold root d2 d3.
    destruct (make_directories root platform w)
      as [(e & fs1 & H1 & Hdirs)
         | [(fs1 & e & fs2 & H1 & H2 & Hdirs)
           | [(fs1 & fs2 & e & fs3 & H1 & H2 & H3 & Hdirs)
             | (fs1 & fs2 & fs3 & H1 & H2 & H3 & Hdirs & D1 & D2 & D3)]]].
    + left. exists e, fs1. split; [done|].
      by rewrite (bind_inl _ _ _ _ _ _ Hdirs).
    + right. left. exists fs1, e, fs2. do 2 (split; [done|]).
      by rewrite (bind_inl _ _ _ _ _ _ Hdirs).
    + right. right. left. exists fs1, fs2, e, fs3. do 3 (split; [done|]).
      by rewrite (bind_inl _ _ _ _ _ _ Hdirs).
    + right. right. right. exists fs1, fs2, fs3. do 6 (split; [done|]).
      cbn zeta. by rewrite (bind_inr _ _ _ _ _ _ Hdirs).
Qed.
End Directories.

Lemma py_ne_false (a : string) (b : option string) :
  py_ne a b = false <-> b = Some a.
Proof.
  destruct b as [s|]; simpl; [|done].
  rewrite negb_false_iff, String.eqb_eq. split; congruence.
Qed.

Lemma py_ne_true (a : string) (b : option string) :
  py_ne a b = true <-> b <> Some a.
Proof.
  rewrite <- py_ne_false. destruct (py_ne a b); split; congruence.
Qed.

Section Download.
Context {Path FS Ext : Type}.
Context `{!FileSystem Path FS} `{!Services Path FS Ext} `{!PyRuntime}.

(** The four ways through the body of the download loop. *)
Lemma download_one_run (root : Path) (pkg : FetchAction) (w : World FS Ext) :
  download_one root pkg w
  = if negb (dest_dir_ok (w_fs w) root pkg) then (inl AssertionError, w, [])
    else
      match session_get retry (fa_url pkg) (w_ext w) with
      | (inl e, ext') =>
          (inl e, {| w_fs := w_fs w; w_ext := ext' |}, [EvGet (fa_url pkg)])
      | (inr response, ext') =>
          if py_ne (SHA256.hexdigest (resp_content response)) (fa_sha256 pkg)
          then (inl (SystemExit (ExitMessage "SHA256 Checksum Validation Failed")),
                {| w_fs := w_fs w; w_ext := ext' |}, [EvGet (fa_url pkg)])
          else
            let p := joinpath (joinpath root (fa_subdir pkg)) (fa_fn pkg) in
            let c := Binary (resp_content response) in
            (fst (fs_write p c (w_fs w)),
             {| w_fs := snd (fs_write p c (w_fs w)); w_ext := ext' |},
             [EvGet (fa_url pkg); EvWrite p c])
      end.
Proof.
  unfold download_one. rewrite bind_fs_query. fold (dest_dir_ok (w_fs w) root pkg).
  destruct (negb (dest_dir_ok (w_fs w) root pkg)); [reflexivity|].
  destruct (session_get retry (fa_url pkg) (w_ext w)) as [[e|response] ext'] eqn:Hget.
  - apply bind_inl. by rewrite improved_download_run, Hget.
  - erewrite bind_inr by (rewrite improved_download_run, Hget; reflexivity).
    cbn zeta.
    destruct (py_ne _ _); [reflexivity|].
    rewrite write_file_run. reflexivity.
Qed.

(** What the body writes, it writes after the digest has matched. *)
Lemma download_one_written (root : Path) (pkg : FetchAction) (w : World FS Ext)
    (p : Path) (c : content) :
  (p, c) ∈ written (snd (download_one root pkg w)) ->
  exists data,
    p = joinpath (joinpath root (fa_subdir pkg)) (fa_fn pkg) /\
    c = Binary data /\ fa_sha256 pkg = Some (SHA256.hexdigest data).
Proof.
  rewrite download_one_run.
  destruct (negb _); [by intros ?%elem_of_nil|].
  destruct (session_get _ _ _) as [[e|response] ext'];
    [by intros ?%elem_of_nil|].
  destruct (py_ne _ _) eqn:Hne; [by intros ?%elem_of_nil|].
  cbn. intros Hin%list_elem_of_singleton. injection Hin as -> ->.
  exists (resp_content response). by apply py_ne_false in Hne.
Qed.

Lemma for_written {A} (body : A -> M Path FS Ext unit)
    (Q : A -> Path * content -> Prop) (l : list A) (w : World FS Ext) :
  (forall x w' pc, x ∈ l -> pc ∈ written (snd (body x w')) -> Q x pc) ->
  forall pc, pc ∈ written (snd (for_ l body w)) -> exists x, x ∈ l /\ Q x pc.
Proof.
  revert w. induction l as [|x l IH]; intros w Hbody pc; simpl.
  - by intros ?%elem_of_nil.
  - unfold bind. destruct (body x w) as [[[e|[]] w1] evs1] eqn:Hx.
    + simpl. intros Hin. exists x. split; [left|].
      apply (Hbody x w); [left|]. by rewrite Hx.
    + destruct (for_ l body w1) as [[r w2] evs2] eqn:Hl. simpl.
      unfold written. rewrite omap_app, elem_of_app. intros [Hin|Hin].
      * exists x. split; [left|]. apply (Hbody x w); [left|]. by rewrite Hx.
      * destruct (IH w1) with (pc := pc) as (y & Hy & HQ).
        -- intros y w' pc' Hy. apply Hbody. by right.
        -- by rewrite Hl.
        -- exists y. split; [by right|done].
Qed.

(** C1, as amended. Once the destination directory is there and the
    download has returned, the artifact is written exactly when the
    expected digest of the descriptor is the computed lower-case
    hexadecimal digest, character for character; otherwise the run exits
    with the checksum message and nothing is written.  The comparison is
    case-sensitive: whenever the artifact is accepted the expected digest
    is already in lower case (and then equals its lower-case form and the
    computed digest). *)
Theorem digest_check_is_exact (root : Path) (pkg : FetchAction)
    (w : World FS Ext) (response : Response) (ext' : Ext) :
  dest_dir_ok (w_fs w) root pkg = true ->
  session_get retry (fa_url pkg) (w_ext w) = (inr response, ext') ->
  let digest := SHA256.hexdigest (resp_content response) in
  let run := download_one root pkg w in
  let dest := joinpath (joinpath root (fa_subdir pkg)) (fa_fn pkg) in
  (written (snd run) = [(dest, Binary (resp_content response))]
   <-> fa_sha256 pkg = Some digest) /\
  (fa_sha256 pkg <> Some digest ->
     run = (inl (SystemExit (ExitMessage "SHA256 Checksum Validation Failed")),
            {| w_fs := w_fs w; w_ext := ext' |}, [EvGet (fa_url pkg)])) /\
  (forall E, fa_sha256 pkg = Some E -> written (snd run) <> [] ->
             digest = PyStr.lower E /\ E = PyStr.lower E).
Proof.
  intros Hok Hget digest run dest. subst run.
  rewrite download_one_run, Hok, Hget. cbn [negb].
  fold digest.
  destruct (py_ne digest (fa_sha256 pkg)) eqn:Hne.
  - apply py_ne_true in Hne. cbn [snd written omap].
    split; [split; [discriminate|done]|]. split; [done|].
    intros E HE Hw. done.
  - apply py_ne_false in Hne. cbn.
    split; [done|]. split; [done|].
    intros E HE _. rewrite HE in Hne. injection Hne as ->.
    subst digest. by rewrite hexdigest_lower.
Qed.

(** C2. [download_packages] writes only to the destination file of a
    descriptor of the list, and only bytes whose digest is the expected
    digest of that descriptor.  When the loop reaches a descriptor whose
    downloaded bytes have another digest, the run ends with
    [sys.exit("SHA256 Checksum Validation Failed")] (exit status 1): the
    file system is the one the earlier descriptors left, the last event
    is the download, and the later descriptors are not processed. *)
Theorem mismatch_aborts_before_write (D : list FetchAction) (root : Path)
    (platform : string) (w : World FS Ext) :
  let run := download_packages D root platform w in
  (forall p c, (p, c) ∈ written (snd run) ->
     exists d data,
       d ∈ D /\ p = joinpath (joinpath root (fa_subdir d)) (fa_fn d) /\
       c = Binary data /\ fa_sha256 d = Some (SHA256.hexdigest data)) /\
  (forall pre d post w1 evs1 response ext',
     D = pre ++ d :: post ->
     for_ pre (download_one root) w = (inr tt, w1, evs1) ->
     dest_dir_ok (w_fs w1) root d = true ->
     session_get retry (fa_url d) (w_ext w1) = (inr response, ext') ->
     fa_sha256 d <> Some (SHA256.hexdigest (resp_content response)) ->
     run = (inl (SystemExit (ExitMessage "SHA256 Checksum Validation Failed")),
            {| w_fs := w_fs w1; w_ext := ext' |},
            EvStatus Green true
              "Downloading and Verifying SHA256 Checksums for Solved Packages"
            :: evs1 ++ [EvGet (fa_url d)]) /\
     exit_status (fst (fst run)) = 1).
Proof.
  intros run. subst run. unfold download_packages, _green.
  rewrite bind_emit. cbn [fst snd]. split.
  - intros p c Hin. cbn in Hin.
    destruct (for_written (download_one root)
                (fun d pc => exists data,
                   pc.1 = joinpath (joinpath root (fa_subdir d)) (fa_fn d) /\
                   pc.2 = Binary data /\
                   fa_sha256 d = Some (SHA256.hexdigest data))
                D w) with (pc := (p, c)) as (d & Hd & data & Hp & Hc & Hsha).
    + intros d w' [p' c'] _ Hw.
      destruct (download_one_written _ _ _ _ _ Hw) as (data & ? & ? & ?).
      by exists data.
    + exact Hin.
    + by exists d, data.
  - intros pre d post w1 evs1 response ext' -> Hpre Hok Hget Hne.
    rewrite for_app. rewrite (bind_inr _ _ _ _ _ _ Hpre).
    cbn [for_]. erewrite bind_inl.
    2:{ rewrite download_one_run, Hok, Hget. cbn [negb].
        apply py_ne_true in Hne. rewrite Hne. reflexivity. }
    cbn [fst snd]. done.
Qed.

Lemma reconstruct_run (repodata_url : string) (dest_dir : Path)
    (package_list : list FetchAction) (w : World FS Ext)
    (response : Response) (ext' : Ext) (U doc : json) :
  session_get retry repodata_url (w_ext w) = (inr response, ext') ->
  resp_json response = inr U ->
  repo_data_of (path_name dest_dir) package_list U = inr doc ->
  let dest_file := path_of_str (path_str dest_dir +:+ "/repodata.json") in
  _reconstruct_repodata_json repodata_url dest_dir package_list w
  = (fst (fs_write dest_file (JsonText doc) (w_fs w)),
     {| w_fs := snd (fs_write dest_file (JsonText doc) (w_fs w));
        w_ext := ext' |},
     [EvGet repodata_url; EvWrite dest_file (JsonText doc)]).
Proof.
  intros Hget HU Hdoc dest_file. unfold _reconstruct_repodata_json.
  erewrite bind_inr by (rewrite improved_download_run, Hget; reflexivity).
  cbn [fst snd]. rewrite HU, bind_lift_inr, Hdoc, bind_lift_inr.
  rewrite write_file_run. reflexivity.
Qed.
End Download.

Section Repeat.
Context {Path FS Ext : Type}.
Context `{!FileSystem Path FS} `{!Services Path FS Ext} `{!PyRuntime}.

(** C8. Reconstruction gives the same document for the same upstream
    document and descriptor list.  The filtering loop builds the same
    mapping in whatever order the items of the upstream dict are visited,
    and two runs of [_reconstruct_repodata_json] whose downloads return
    the same upstream document write the same document to the same
    file. *)
Theorem reconstruction_is_repeatable :
  (forall (valid_names : list string) (items : list (string * json))
          (d : gmap string json),
     NoDup (items.*1) -> list_to_map items = d ->
     retain_items valid_names items = retain valid_names d) /\
  (forall (repodata_url : string) (dest_dir : Path) (D : list FetchAction)
          (U : json) (w w1 : World FS Ext) (evs1 : list (event Path))
          (response1 response2 : Response) (ext1 ext2 : Ext),
     session_get retry repodata_url (w_ext w) = (inr response1, ext1) ->
     resp_json response1 = inr U ->
     _reconstruct_repodata_json repodata_url dest_dir D w = (inr tt, w1, evs1) ->
     session_get retry repodata_url (w_ext w1) = (inr response2, ext2) ->
     resp_json response2 = inr U ->
     let dest_file := path_of_str (path_str dest_dir +:+ "/repodata.json") in
     exists doc,
       repo_data_of (path_name dest_dir) D U = inr doc /\
       written evs1 = [(dest_file, JsonText doc)] /\
       written (snd (_reconstruct_repodata_json repodata_url dest_dir D w1))
       = [(dest_file, JsonText doc)]).
Proof.
  split.
  - intros valid_names items d Hnd <-. by apply retain_items_spec.
  - intros url dest D U w w1 evs1 r1 r2 e1 e2 Hget1 HU1 Hrun1 Hget2 HU2 dest_file.
    destruct (repo_data_of (path_name dest) D U) as [e|doc] eqn:Hdoc.
    + exfalso. revert Hrun1. unfold _reconstruct_repodata_json.
      erewrite bind_inr by (rewrite improved_download_run, Hget1; reflexivity).
      cbn [fst snd]. rewrite HU1, bind_lift_inr, Hdoc. discriminate.
    + exists doc. split; [done|].
      rewrite (reconstruct_run _ _ _ _ _ _ _ _ Hget1 HU1 Hdoc) in Hrun1.
      rewrite (reconstruct_run _ _ _ _ _ _ _ _ Hget2 HU2 Hdoc).
      injection Hrun1 as _ _ <-. done.
Qed.
End Repeat.

(** Feeding the document built back in as the upstream document gives the
    same document. *)
Lemma repo_data_of_fixpoint (dest_name : string) (D : list FetchAction)
    (U doc : json) :
  repo_data_of dest_name D U = inr doc ->
  repo_data_of dest_name D doc = inr doc.
Proof.
  intros Hdoc.
  destruct (repo_data_of_inr _ _ _ _ Hdoc) as (m & pk & pc & -> & Hpk & Hpc).
  rewrite (repo_data_of_partitions _ _ _ _ _ Hpk Hpc) in Hdoc.
  injection Hdoc as <-. unfold make_repo_data at 1.
  rewrite (repo_data_of_partitions dest_name D _
             (retain (map fa_fn D) pk) (retain (map fa_fn D) pc)).
  - by rewrite !retain_retain.
  - left. rewrite lookup_insert_ne by done. by rewrite lookup_insert_eq.
  - left. do 2 (rewrite lookup_insert_ne by done). by rewrite lookup_singleton_eq.
Qed.

#[global] Instance demo_file_system_laws : FileSystemLaws Demo.Path Demo.FS.
Proof.
  split.
  - intros p fs fs'. cbn. unfold Demo.mkdir.
    destruct (Demo.nodes fs !! Demo.resolve fs p); [discriminate|].
    destruct (Demo.parent_is_dir fs _); [|discriminate].
    intros [= <-]. unfold Demo.is_dir, Demo.put, Demo.resolve. cbn.
    by rewrite lookup_insert_eq.
  - intros p q fs fs'. cbn. unfold Demo.mkdir.
    destruct (Demo.nodes fs !! Demo.resolve fs p) eqn:Hp; [discriminate|].
    destruct (Demo.parent_is_dir fs _); [|discriminate].
    intros [= <-]. unfold Demo.is_dir, Demo.put, Demo.resolve in *. cbn.
    destruct (decide ((if q.1 then q.2 else Demo.working_dir fs ++ q.2)
                      = (if p.1 then p.2 else Demo.working_dir fs ++ p.2)))
      as [->|Hne].
    + by rewrite lookup_insert_eq.
    + by rewrite lookup_insert_ne.
Qed.

#[global] Instance demo_runtime_laws : @PyRuntimeLaws Demo.runtime.
Proof.
  split.
  - intros xs. apply NoDup_remove_dups.
  - intros xs x. apply elem_of_remove_dups.
Qed.

(* ===================================================================== *)
(** ** The statements on the concrete world *)
(* ===================================================================== *)

Example demo_environment_name :
  _get_environment_name (path_of_str "environment.yaml") (Demo.world Demo.fs0)
  = (inr (JStr "demo"), Demo.world Demo.fs0, []).
Proof. reflexivity. Qed.

Example demo_repodata_jobs :
  repodata_jobs [Demo.foo; Demo.bar]
  = [ ("linux-64", "https://conda.example/main/linux-64");
      ("noarch", "https://conda.example/main/noarch") ].
Proof. reflexivity. Qed.

(** C1, the counterexample: the expected digest of [bar_upper] is the
    digest of the served bytes written in upper case; its lower-case form
    equals the computed digest, and the artifact is refused. *)
Lemma digest_case_counterexample :
  fa_sha256 Demo.bar_upper
  = Some "E3B0C44298FC1C149AFBF4C8996FB92427AE41E4649B934CA495991B7852B855" /\
  SHA256.hexdigest []
  = PyStr.lower "E3B0C44298FC1C149AFBF4C8996FB92427AE41E4649B934CA495991B7852B855" /\
  download_one (true, ["work"; "demo"]) Demo.bar_upper (Demo.world Demo.fs_ready)
  = (inl (SystemExit (ExitMessage "SHA256 Checksum Validation Failed")),
     Demo.world Demo.fs_ready,
     [EvGet "https://conda.example/main/noarch/bar-2.0-0.conda"]).
Proof. split; [|split]; reflexivity. Qed.

Lemma digest_check_is_exact_witness :
  written (snd (download_one (true, ["work"; "demo"]) Demo.bar
                  (Demo.world Demo.fs_ready)))
  = [((true, ["work"; "demo"; "noarch"; "bar-2.0-0.conda"]), Binary [])]
  <-> fa_sha256 Demo.bar = Some (SHA256.hexdigest []).
Proof.
  refine (proj1 (digest_check_is_exact (true, ["work"; "demo"]) Demo.bar
                   (Demo.world Demo.fs_ready)
                   {| resp_content := [];
                      resp_json := inl (ExternalError "JSONDecodeError") |}
                   Demo.ext0 _ _)).
  - reflexivity.
  - reflexivity.
Defined.

Lemma mismatch_aborts_before_write_witness :
  download_packages [Demo.bar; Demo.foo_tampered; Demo.foo]
    (true, ["work"; "demo"]) "linux-64" (Demo.world Demo.fs_ready)
  = (inl (SystemExit (ExitMessage "SHA256 Checksum Validation Failed")),
     {| w_fs := Demo.put ["work"; "demo"; "noarch"; "bar-2.0-0.conda"]
                  (Demo.File (Binary [])) Demo.fs_ready;
        w_ext := Demo.ext0 |},
     EvStatus Green true
       "Downloading and Verifying SHA256 Checksums for Solved Packages"
     :: [ EvGet "https://conda.example/main/noarch/bar-2.0-0.conda";
          EvWrite (true, ["work"; "demo"; "noarch"; "bar-2.0-0.conda"]) (Binary []) ]
        ++ [EvGet "https://conda.example/main/linux-64/foo-1.0-0.tar.bz2"]).
Proof.
  refine (proj1 (proj2 (mismatch_aborts_before_write
                          [Demo.bar; Demo.foo_tampered; Demo.foo]
                          (true, ["work"; "demo"]) "linux-64"
                          (Demo.world Demo.fs_ready))
                   [Demo.bar] Demo.foo_tampered [Demo.foo]
                   {| w_fs := Demo.put ["work"; "demo"; "noarch"; "bar-2.0-0.conda"]
                                (Demo.File (Binary [])) Demo.fs_ready;
                      w_ext := Demo.ext0 |}
                   [ EvGet "https://conda.example/main/noarch/bar-2.0-0.conda";
                     EvWrite (true, ["work"; "demo"; "noarch"; "bar-2.0-0.conda"])
                       (Binary []) ]
                   {| resp_content := str_bytes "abc";
                      resp_json := inl (ExternalError "JSONDecodeError") |}
                   Demo.ext0 _ _ _ _ _)).
  - reflexivity.
  - reflexivity.
  - reflexivity.
  - reflexivity.
  - vm_compute. discriminate.
Defined.

Lemma dry_run_checks_destination_witness :
  fst (fst (vendor (Some "environment.yaml") "conda" "linux-64" None true false
              (Demo.world Demo.fs_taken)))
  = inl (SystemExit (ExitCode 1)).
Proof.
  refine (proj1 (dry_run_checks_destination "environment.yaml" "conda" "linux-64"
                   None false (Demo.world Demo.fs_taken) "demo" _ _)).
  - reflexivity.
  - reflexivity.
Defined.

Lemma dry_run_leaves_file_system_witness :
  w_fs (snd (fst (vendor (Some "environment.yaml") "conda" "linux-64" None true
                    false (Demo.world Demo.fs0))))
  = Demo.fs0 /\
  written (snd (vendor (Some "environment.yaml") "conda" "linux-64" None true
                  false (Demo.world Demo.fs0))) = [] /\
  echoed (snd (vendor (Some "environment.yaml") "conda" "linux-64" None true
                 false (Demo.world Demo.fs0)))
  = [json_dumps [Demo.foo; Demo.bar]].
Proof.
  refine (match dry_run_leaves_file_system "environment.yaml" "conda" "linux-64"
                  None false (Demo.world Demo.fs0) "demo" _ _ with
          | conj Hfs (conj _ (conj Hw Hsolve)) =>
              conj Hfs (conj Hw
                (proj1 (proj2 (proj2
                   (Hsolve [Demo.foo; Demo.bar]
                      (snd (fst (solve_environment (path_of_str "environment.yaml")
                                   "conda" "linux-64" None (Demo.world Demo.fs0))))
                      (snd (solve_environment (path_of_str "environment.yaml")
                              "conda" "linux-64" None (Demo.world Demo.fs0)))
                      _)))))
          end).
  - reflexivity.
  - reflexivity.
  - reflexivity.
Defined.

Lemma destination_check_then_directories_witness :
  fst (fst (vendor (Some "environment.yaml") "conda" "linux-64" None false false
              (Demo.world Demo.fs_taken)))
  = inl (SystemExit (ExitCode 1)) /\
  Demo.nodes Demo.fs0 !! ["work"; "demo"] = None /\
  fs_is_dir Demo.fs_ready (joinpath (cwd Demo.fs0) "demo") = true /\
  fs_is_dir Demo.fs_ready
    (joinpath (joinpath (cwd Demo.fs0) "demo") "linux-64") = true /\
  fs_is_dir Demo.fs_ready
    (joinpath (joinpath (cwd Demo.fs0) "demo") "noarch") = true /\
  let rest :=
    vendor_run (path_of_str "environment.yaml")
      (joinpath (cwd Demo.fs0) "demo") "conda" "linux-64" None false false
      (Demo.world Demo.fs_ready) in
  vendor (Some "environment.yaml") "conda" "linux-64" None false false
    (Demo.world Demo.fs0)
  = (fst (fst rest), snd (fst rest),
     EvStatus Green false
       ("Vendoring Local Channel for file: " +:+ "environment.yaml")
     :: EvMkdir (joinpath (cwd Demo.fs0) "demo")
     :: EvMkdir (joinpath (joinpath (cwd Demo.fs0) "demo") "linux-64")
     :: EvMkdir (joinpath (joinpath (cwd Demo.fs0) "demo") "noarch")
     :: snd rest).
Proof.
  split; [|split; [reflexivity|]].
  - refine (proj1 (proj1 (destination_check_then_directories "environment.yaml"
                            "conda" "linux-64" None false false
                            (Demo.world Demo.fs_taken) "demo" _) _)).
    + reflexivity.
    + reflexivity.
  - assert (Hname : _get_environment_name (path_of_str "environment.yaml")
                      (Demo.world Demo.fs0)
                    = (inr (JStr "demo"), Demo.world Demo.fs0, []))
      by reflexivity.
    assert (Hfree : fs_exists Demo.fs0 (joinpath (cwd Demo.fs0) "demo") = false)
      by reflexivity.
    destruct (proj2 (destination_check_then_directories "environment.yaml"
                       "conda" "linux-64" None false false
                       (Demo.world Demo.fs0) "demo" Hname) Hfree eq_refl)
      as [(e & fs1 & H1 & _)
         | [(fs1 & e & fs2 & H1 & H2 & _)
           | [(fs1 & fs2 & e & fs3 & H1 & H2 & H3 & _)
             | (fs1 & fs2 & fs3 & H1 & H2 & H3 & D1 & D2 & D3 & Hrun)]]].
    + discriminate H1.
    + injection H1 as <-. discriminate H2.
    + injection H1 as <-. injection H2 as <-. discriminate H3.
    + injection H1 as <-. injection H2 as <-. injection H3 as <-.
      exact (conj D1 (conj D2 (conj D3 Hrun))).
Defined.

Lemma reconstruction_is_repeatable_witness :
  retain_items ["a"] [("b", JNull); ("a", JBool true)]
  = retain ["a"] (list_to_map [("b", JNull); ("a", JBool true)]) /\
  exists doc,
    repo_data_of "linux-64" [Demo.foo; Demo.bar] Demo.upstream_linux = inr doc /\
    written (snd (_reconstruct_repodata_json
                    "https://conda.example/main/linux-64/repodata.json"
                    (true, ["work"; "demo"; "linux-64"]) [Demo.foo; Demo.bar]
                    (Demo.world Demo.fs_ready)))
    = [(path_of_str "/work/demo/linux-64/repodata.json", JsonText doc)] /\
    written (snd (_reconstruct_repodata_json
                    "https://conda.example/main/linux-64/repodata.json"
                    (true, ["work"; "demo"; "linux-64"]) [Demo.foo; Demo.bar]
                    (snd (fst (_reconstruct_repodata_json
                                 "https://conda.example/main/linux-64/repodata.json"
                                 (true, ["work"; "demo"; "linux-64"])
                                 [Demo.foo; Demo.bar]
                                 (Demo.world Demo.fs_ready))))))
    = [(path_of_str "/work/demo/linux-64/repodata.json", JsonText doc)].
Proof.
  split.
  - refine (proj1 (reconstruction_is_repeatable (Path := Demo.Path)
                     (FS := Demo.FS) (Ext := Demo.Ext)) _ _ _ _ _).
    + cbn. apply NoDup_cons. split; [|apply NoDup_singleton].
      intros Hin%list_elem_of_singleton. discriminate.
    + reflexivity.
  - refine (proj2 (reconstruction_is_repeatable (Path := Demo.Path)
                     (FS := Demo.FS) (Ext := Demo.Ext))
              "https://conda.example/main/linux-64/repodata.json"
              (true, ["work"; "demo"; "linux-64"]) [Demo.foo; Demo.bar]
              Demo.upstream_linux (Demo.world Demo.fs_ready) _ _
              {| resp_content := []; resp_json := inr Demo.upstream_linux |}
              {| resp_content := []; resp_json := inr Demo.upstream_linux |}
              Demo.ext0 Demo.ext0 _ _ _ _ _).
    + reflexivity.
    + reflexivity.
    + reflexivity.
    + reflexivity.
    + reflexivity.
Defined.

(** The scenario end to end: the virtual package is dropped, the two
    directories receive their index and their artifact, then the manifest
    is written. *)
Example demo_vendor_run :
  fst (fst (vendor (Some "environment.yaml") "conda" "linux-64" None false true
              (Demo.world Demo.fs0))) = inr tt /\
  map fst (written (snd (vendor (Some "environment.yaml") "conda" "linux-64"
                           None false true (Demo.world Demo.fs0))))
  = [ (true, ["work"; "demo"; "linux-64"; "repodata.json"]);
      (true, ["work"; "demo"; "noarch"; "repodata.json"]);
      (true, ["work"; "demo"; "linux-64"; "foo-1.0-0.tar.bz2"]);
      (true, ["work"; "demo"; "noarch"; "bar-2.0-0.conda"]);
      (false, ["ib_manifest.yaml"]) ].
Proof. split; vm_compute; reflexivity. Qed.

Example demo_remove_channel :
  FETCH (_remove_channel (Demo.solution Demo.ext0) "file:///tmp/virtual")
  = [Demo.foo; Demo.bar].
Proof. reflexivity. Qed.

Example demo_query_list :
  _get_query_list (Demo.lock_spec Demo.ext0) = ["foo==1.0"; "bar>=2"].
Proof. reflexivity. Qed.

(* ===================================================================== *)
(** * Further properties *)
(* ===================================================================== *)

(** ** [_remove_channel], the LINK list *)

Lemma remove_channel_LINK (solution : DryRunInstall) (channel : string) :
  LINK (_remove_channel solution channel)
  = filter (fun l => String.eqb (la_base_url l) channel = false) (LINK solution).
Proof. unfold _remove_channel. simpl. by rewrite skip_loop_filter. Qed.

Lemma filter_filter_same {A : Type} (P : A -> Prop) `{!forall x, Decision (P x)}
    (l : list A) :
  filter P (filter P l) = filter P l.
Proof.
  induction l as [|x l IH]; [done|].
  destruct (decide (P x)) as [Hx|Hx].
  - rewrite (filter_cons_True P x l) by done.
    rewrite filter_cons_True by done. by rewrite IH.
  - by rewrite (filter_cons_False P x l).
Qed.

Lemma remove_channel_eq (solution : DryRunInstall) (channel : string) :
  _remove_channel solution channel
  = {| success := success solution;
       FETCH := filter (fun d => PyStr.startswith (fa_channel d) channel = false)
                       (FETCH solution);
       LINK := filter (fun l => String.eqb (la_base_url l) channel = false)
                      (LINK solution) |}.
Proof.
  rewrite <- remove_channel_FETCH, <- remove_channel_LINK. reflexivity.
Qed.

(** X1. [_remove_channel] drops from the LINK list exactly the entries
    whose [base_url] is the channel, character for character: an entry
    whose [base_url] only starts with the channel is kept (the FETCH list
    is filtered by prefix, the LINK list by equality).  The entries kept
    stay in order and the [success] flag is untouched. *)
Theorem remove_channel_link_by_equality (solution : DryRunInstall)
    (channel : string) :
  LINK (_remove_channel solution channel)
  = filter (fun l => la_base_url l <> channel) (LINK solution) /\
  (forall l, l ∈ LINK solution -> la_base_url l <> channel ->
             l ∈ LINK (_remove_channel solution channel)) /\
  (forall l, l ∈ LINK (_remove_channel solution channel) ->
             la_base_url l <> channel) /\
  success (_remove_channel solution channel) = success solution.
Proof.
  assert (Heq : LINK (_remove_channel solution channel)
                = filter (fun l => la_base_url l <> channel) (LINK solution)).
  { rewrite remove_channel_LINK. apply list_filter_iff. intros l.
    rewrite <- String.eqb_neq. done. }
  split; [exact Heq|]. split; [|split; [|done]].
  - intros l Hl Hne. rewrite Heq. by apply list_elem_of_filter.
  - intros l Hl. rewrite Heq in Hl. by apply list_elem_of_filter in Hl as [? _].
Qed.

(** X2. Removing the same channel a second time changes nothing. *)
Theorem remove_channel_idempotent (solution : DryRunInstall) (channel : string) :
  _remove_channel (_remove_channel solution channel) channel
  = _remove_channel solution channel.
Proof.
  rewrite (remove_channel_eq (_remove_channel solution channel)).
  rewrite (remove_channel_eq solution). cbn [success FETCH LINK].
  by rewrite !filter_filter_same.
Qed.

(** ** [_get_query_list] *)

Lemma append_nil_r (a : string) : a +:+ EmptyString = a.
Proof. induction a as [|c a IH]; [done|]. by rewrite append_cons, IH. Qed.

Lemma foldl_snoc_map {A B : Type} (f : A -> B) (l : list A) (acc : list B) :
  foldl (fun acc x => acc ++ [f x]) acc l = acc ++ map f l.
Proof.
  revert acc. induction l as [|x l IH]; intros acc; simpl.
  - by rewrite app_nil_r.
  - rewrite IH. by rewrite <- app_assoc.
Qed.

(** On the characters of ASCII, the numeric ones are the decimal
    digits. *)
Lemma isnumeric_ascii (c : ascii) :
  (N_of_ascii c < 128)%N ->
  PyStr.isnumeric (N_of_ascii c)
  = ((48 <=? N_of_ascii c) && (N_of_ascii c <=? 57))%N.
Proof.
  destruct c as [[] [] [] [] [] [] [] []]; intros Hc;
    first [ discriminate Hc | vm_compute; reflexivity ].
Qed.

Lemma ord_at_0_ascii (c : ascii) (rest : string) :
  (N_of_ascii c < 128)%N ->
  PyStr.ord_at_0 (String c rest) = Some (N_of_ascii c).
Proof.
  intros Hc. unfold PyStr.ord_at_0.
  by rewrite (proj2 (N.ltb_lt _ _) Hc).
Qed.

(** X3. [_get_query_list] gives one query per dependency, in the order of
    the dependencies; the query of a dependency is its name followed by its
    version, with [==] in between exactly when the first character of the
    version is numeric in the sense of [str.isnumeric] (a dependency
    without version gives its bare name).  For a version that starts with
    an ASCII character this means: exactly when it starts with a decimal
    digit. *)
Theorem query_list_shape (lock_spec : LockSpecification) :
  length (_get_query_list lock_spec) = length (dependencies lock_spec) /\
  forall i dep,
    dependencies lock_spec !! i = Some dep ->
    exists sep,
      _get_query_list lock_spec !! i
      = Some (dep_name dep +:+ sep +:+ dep_version dep) /\
      (sep = "==" \/ sep = EmptyString) /\
      (sep = "==" <->
       exists c, PyStr.ord_at_0 (dep_version dep) = Some c /\
                 PyStr.isnumeric c = true) /\
      (forall c rest,
         dep_version dep = String c rest -> (N_of_ascii c < 128)%N ->
         (sep = "==" <-> (48 <= N_of_ascii c <= 57)%N)).
Proof.
  unfold _get_query_list. rewrite foldl_snoc_map, app_nil_l.
  split; [by rewrite length_map|].
  intros i dep Hdep.
  exists (if PyStr.isnumeric_at_0 (dep_version dep) then "==" else EmptyString).
  assert (Hsep : (if PyStr.isnumeric_at_0 (dep_version dep)
                  then "==" else EmptyString) = "==" <->
                 exists c, PyStr.ord_at_0 (dep_version dep) = Some c /\
                           PyStr.isnumeric c = true).
  { unfold PyStr.isnumeric_at_0.
    destruct (PyStr.ord_at_0 (dep_version dep)) as [c|].
    - destruct (PyStr.isnumeric c) eqn:Hc.
      + split; [by exists c|done].
      + split; [discriminate|]. intros (c' & [= <-] & Hc'). congruence.
    - split; [discriminate|]. by intros (c' & [=] & _). }
  split; [|split; [|split]].
  - change (map query_of_dep (dependencies lock_spec))
      with (query_of_dep <$> dependencies lock_spec).
    rewrite list_lookup_fmap, Hdep. simpl. f_equal.
    unfold query_of_dep. destruct (dep_version dep) as [|c rest] eqn:Hv.
    + by rewrite append_nil_r.
    + by destruct (PyStr.isnumeric_at_0 (String c rest)).
  - destruct (PyStr.isnumeric_at_0 (dep_version dep)); [by left | by right].
  - exact Hsep.
  - intros c rest Hv Hc. rewrite Hsep, Hv, ord_at_0_ascii by done.
    split.
    + intros (c' & [= <-] & Hnum). rewrite isnumeric_ascii in Hnum by done.
      apply andb_true_iff in Hnum as [H1 H2].
      apply N.leb_le in H1, H2. done.
    + intros [H1 H2]. exists (N_of_ascii c). split; [done|].
      rewrite isnumeric_ascii by done.
      apply andb_true_iff. split; by apply N.leb_le.
Qed.

(** Versions that start with a digit, with a comparison and with numeric
    characters outside ASCII: a superscript, a fraction, a full-width
    digit. *)
Example query_list_numeric_characters :
  _get_query_list
    {| dependencies :=
         [ {| dep_name := "a"; dep_version := "1.0" |};
           {| dep_name := "b"; dep_version := ">=2" |};
           {| dep_name := "c"; dep_version := "" |};
           {| dep_name := "d"; dep_version := "²" |};
           {| dep_name := "e"; dep_version := "½x" |};
           {| dep_name := "f"; dep_version := "３.1" |};
           {| dep_name := "g"; dep_version := "é1" |};
           {| dep_name := "h"; dep_version := "𝟏.0" |} ];
       channels := [] |}
  = ["a==1.0"; "b>=2"; "c"; "d==²"; "e==½x"; "f==３.1"; "gé1"; "h==𝟏.0"].
Proof. vm_compute. reflexivity. Qed.

(** ** [_get_conda_platform] *)

Lemma platform_map_lookup (host : string) :
  _platform_map !! host
  = if decide (host = "linux2") then Some "linux"
    else if decide (host = "linux") then Some "linux"
    else if decide (host = "darwin") then Some "osx"
    else if decide (host = "win32") then Some "win"
    else if decide (host = "zos") then Some "zos"
    else None.
Proof.
  unfold _platform_map.
  destruct (decide (host = "linux2")) as [->|H1]; [by rewrite lookup_insert_eq|].
  rewrite lookup_insert_ne by done.
  destruct (decide (host = "linux")) as [->|H2]; [by rewrite lookup_insert_eq|].
  rewrite lookup_insert_ne by done.
  destruct (decide (host = "darwin")) as [->|H3]; [by rewrite lookup_insert_eq|].
  rewrite lookup_insert_ne by done.
  destruct (decide (host = "win32")) as [->|H4]; [by rewrite lookup_insert_eq|].
  rewrite lookup_insert_ne by done.
  destruct (decide (host = "zos")) as [->|H5]; [by rewrite lookup_singleton_eq|].
  by rewrite lookup_singleton_ne.
Qed.

(** X4. An explicit platform is returned as it is, whatever the host.
    Without one, the result is the conda name of the host's
    [sys.platform], a dash, and eight times the pointer size in decimal:
    [linux] for [linux2] and [linux], [osx] for [darwin], [win] for
    [win32], [zos] for [zos]; any other [sys.platform] raises [KeyError]
    with that name. *)
Theorem conda_platform_of_host (host : string) (calcsize_P : Z) :
  let bits := py_str_int (calcsize_P * 8) in
  let result := _get_conda_platform None host calcsize_P in
  (forall p, _get_conda_platform (Some p) host calcsize_P = inr p) /\
  (host = "linux2" \/ host = "linux" -> result = inr ("linux" +:+ "-" +:+ bits)) /\
  (host = "darwin" -> result = inr ("osx" +:+ "-" +:+ bits)) /\
  (host = "win32" -> result = inr ("win" +:+ "-" +:+ bits)) /\
  (host = "zos" -> result = inr ("zos" +:+ "-" +:+ bits)) /\
  (host ∉ ["linux2"; "linux"; "darwin"; "win32"; "zos"] ->
   result = inl (KeyError host)).
Proof.
  intros bits result. subst bits result.
  split; [done|]. unfold _get_conda_platform. rewrite platform_map_lookup.
  repeat split.
  - by intros [->| ->].
  - by intros ->.
  - by intros ->.
  - by intros ->.
  - intros Hnot. rewrite !not_elem_of_cons in Hnot.
    destruct Hnot as (? & ? & ? & ? & ? & _).
    by repeat (case_decide; [done|]).
Qed.

(** The cases of [tests/test_conda_vendor.py]. *)
Example test_get_conda_platform_32bit :
  _get_conda_platform None "linux" 4 = inr "linux-32".
Proof. reflexivity. Qed.

Example test_get_conda_platform_64bit :
  _get_conda_platform None "darwin" 8 = inr "osx-64".
Proof. reflexivity. Qed.

Example test_get_conda_platform_passthrough :
  map (fun p => _get_conda_platform (Some p) "linux" 8)
      ["linux-64"; "linux-32"; "win-64"; "win-32"; "osx-64"]
  = map inr ["linux-64"; "linux-32"; "win-64"; "win-32"; "osx-64"].
Proof. reflexivity. Qed.

(** ** The reconstructed document, continued *)

Lemma retain_ext (v1 v2 : list string) (items : gmap string json) :
  (forall k, k ∈ v1 <-> k ∈ v2) -> retain v1 items = retain v2 items.
Proof.
  intros Hv. apply map_eq. intros k. rewrite !retain_lookup.
  destruct (decide (k ∈ v1)) as [Hk|Hk].
  - rewrite !bool_decide_eq_true_2; [done | by apply Hv | done].
  - rewrite !bool_decide_eq_false_2; [done | by rewrite <- Hv | done].
Qed.

(** X5. The document depends on the descriptors only through the set of
    their file names: two lists with the same file names give the same
    result, whatever their order, repetitions, subdirectories or
    channels. *)
Theorem repo_data_by_file_name_only (dest_name : string)
    (D1 D2 : list FetchAction) (U : json) :
  (forall k, k ∈ map fa_fn D1 <-> k ∈ map fa_fn D2) ->
  repo_data_of dest_name D1 U = repo_data_of dest_name D2 U.
Proof.
  intros Hfn. unfold repo_data_of.
  destruct (py_get U "packages" (JObj ∅)) as [e|p1]; [done|].
  destruct (py_get U "packages.conda" (JObj ∅)) as [e|p2]; [done|]. simpl.
  destruct (py_len p1); [done|]. destruct (py_len p2); [done|]. simpl.
  destruct (py_items p1) as [e|i1]; [done|]. simpl.
  destruct (py_items p2) as [e|i2]; [done|]. simpl.
  by rewrite (retain_ext _ _ i1 Hfn), (retain_ext _ _ i2 Hfn).
Qed.

Lemma repo_data_by_file_name_only_witness :
  repo_data_of "linux-64" [Demo.foo; Demo.bar] Demo.upstream_linux
  = repo_data_of "linux-64" [Demo.bar; Demo.foo; Demo.foo] Demo.upstream_linux.
Proof.
  apply repo_data_by_file_name_only. intros k. cbn.
  rewrite !elem_of_cons. tauto.
Defined.

(** X6. The function returns a document exactly for the upstream documents
    that are objects whose [packages] and [packages.conda], when present,
    are objects; on every other input it raises [TypeError] or
    [AttributeError] (a [null] partition raises [TypeError]). *)
Theorem repo_data_of_raises (dest_name : string) (D : list FetchAction)
    (U : json) :
  ((exists doc, repo_data_of dest_name D U = inr doc) <->
   exists m pk pc, U = JObj m /\ partition_is m "packages" pk /\
                   partition_is m "packages.conda" pc) /\
  (forall e, repo_data_of dest_name D U = inl e ->
             e = TypeError \/ e = AttributeError) /\
  (forall m, U = JObj m -> m !! "packages" = Some JNull ->
             repo_data_of dest_name D U = inl TypeError).
Proof.
  split; [|split].
  - split.
    + intros [doc Hdoc]. by apply repo_data_of_inr in Hdoc.
    + intros (m & pk & pc & -> & Hpk & Hpc).
      rewrite (repo_data_of_partitions _ _ _ _ _ Hpk Hpc). by eexists.
  - unfold repo_data_of, py_get. intros e.
    destruct U as [| | | | |m]; try (intros [= <-]; by right).
    destruct (default (JObj ∅) (m !! "packages")) as [| | | | |p1];
      destruct (default (JObj ∅) (m !! "packages.conda")) as [| | | | |p2];
      simpl; intros [= <-]; (by left) || (by right).
  - intros m -> Hnull. unfold repo_data_of, py_get. rewrite Hnull. simpl.
    by destruct (default (JObj ∅) (m !! "packages.conda")).
Qed.

(** X7. Reconstruction applied to its own output returns that output: a
    mirror's [repodata.json] used as the upstream document for the same
    descriptors is reproduced as it is. *)
Theorem reconstruction_of_own_output (dest_name : string)
    (D : list FetchAction) (U doc : json) :
  repo_data_of dest_name D U = inr doc ->
  repo_data_of dest_name D doc = inr doc.
Proof. apply repo_data_of_fixpoint. Qed.

Lemma reconstruction_of_own_output_witness :
  repo_data_of "linux-64" [Demo.foo; Demo.bar]
    (make_repo_data "linux-64" {[ "foo-1.0-0.tar.bz2" := Demo.entry "foo" ]} ∅)
  = inr (make_repo_data "linux-64"
           {[ "foo-1.0-0.tar.bz2" := Demo.entry "foo" ]} ∅).
Proof.
  apply (reconstruction_of_own_output "linux-64" [Demo.foo; Demo.bar]
           Demo.upstream_linux).
  vm_compute. reflexivity.
Defined.

(** ** Events of a computation *)

Section Emits.
Context {Path FS Ext : Type}.
Local Notation "'M'" := (M Path FS Ext).

Lemma bind_events {A B} (m : M A) (k : A -> M B) w :
  snd (bind m k w)
  = snd (m w) ++ match fst (fst (m w)) with
                 | inl _ => []
                 | inr a => snd (k a (snd (fst (m w))))
                 end.
Proof.
  unfold bind. destruct (m w) as [[[e|a] w1] evs1]; simpl.
  - by rewrite app_nil_r.
  - by destruct (k a w1) as [[r w2] evs2].
Qed.


Lemma written_app (evs1 evs2 : list (event Path)) :
  written (evs1 ++ evs2) = written evs1 ++ written evs2.
Proof. apply omap_app. Qed.

Lemma fetched_app (evs1 evs2 : list (event Path)) :
  fetched (evs1 ++ evs2) = fetched evs1 ++ fetched evs2.
Proof. apply omap_app. Qed.

Lemma echoed_app (evs1 evs2 : list (event Path)) :
  echoed (evs1 ++ evs2) = echoed evs1 ++ echoed evs2.
Proof. apply omap_app. Qed.

Context (P : event Path -> Prop).

Lemma emits_ret {A} (a : A) : emits P (ret a : M A).
Proof. intros w. constructor. Qed.

Lemma emits_raise {A} (e : exn) : emits P (raise e : M A).
Proof. intros w. constructor. Qed.

Lemma emits_lift {A} (r : exn + A) : emits P (lift r : M A).
Proof. intros w. constructor. Qed.

Lemma emits_emit (e : event Path) : P e -> emits P (emit e : M unit).
Proof. intros He w. by repeat constructor. Qed.

Lemma emits_fs_query {A} (f : FS -> A) : emits P (fs_query f : M A).
Proof. intros w. constructor. Qed.

Lemma emits_fs_update {A} (f : FS -> (exn + A) * FS) : emits P (fs_update f : M A).
Proof. intros w. unfold fs_update. destruct (f (w_fs w)). constructor. Qed.

Lemma emits_ext_call {A} (f : FS -> Ext -> (exn + A) * Ext) :
  emits P (ext_call f : M A).
Proof.
  intros w. unfold ext_call. destruct (f (w_fs w) (w_ext w)). constructor.
Qed.

Lemma emits_bind {A B} (m : M A) (k : A -> M B) :
  emits P m -> (forall a, emits P (k a)) -> emits P (bind m k).
Proof.
  intros Hm Hk w. rewrite bind_events. apply Forall_app. split; [apply Hm|].
  destruct (fst (fst (m w))); [constructor | apply Hk].
Qed.

Lemma emits_for {A} (l : list A) (body : A -> M unit) :
  (forall x, x ∈ l -> emits P (body x)) -> emits P (for_ l body).
Proof.
  induction l as [|x l IH]; intros Hb; simpl; [apply emits_ret|].
  apply emits_bind; [apply Hb; left|].
  intros _. apply IH. intros y Hy. apply Hb. by right.
Qed.
End Emits.

Lemma emits_weaken {Path FS Ext A : Type} (P Q : event Path -> Prop)
    (m : M Path FS Ext A) :
  (forall e, P e -> Q e) -> emits P m -> emits Q m.
Proof. intros HPQ Hm w. eapply Forall_impl; [apply Hm | exact HPQ]. Qed.

Lemma keeps_fs_emits {Path FS Ext A : Type} (P : event Path -> Prop)
    (m : M Path FS Ext A) :
  keeps_fs P m -> emits P m.
Proof. intros Hm w. apply Hm. Qed.

Ltac emits_step :=
  first
    [ apply emits_bind; [|intros ?]
    | apply emits_ret | apply emits_raise | apply emits_lift
    | apply emits_fs_query | apply emits_fs_update | apply emits_ext_call
    | apply emits_emit ].

(** ** [_reconstruct_repodata_json] and [create_repodata_json] *)

Section Index.
Context {Path FS Ext : Type}.
Context `{!FileSystem Path FS} `{!Services Path FS Ext} `{!PyRuntime}.

(** [_reconstruct_repodata_json] writes at most once, and only after
    the download succeeded, its body parsed and the whole document was
    built: in every other case it raises having written nothing and left
    the file system as it was.  What it writes is the document for the
    name of the destination directory, into [repodata.json] there. *)
Lemma reconstruct_cases (repodata_url : string)
    (dest_dir : Path) (package_list : list FetchAction) (w : World FS Ext) :
  let run := _reconstruct_repodata_json repodata_url dest_dir package_list w in
  let dest_file := path_of_str (path_str dest_dir +:+ "/repodata.json") in
  (snd run = [EvGet repodata_url] /\
   w_fs (snd (fst run)) = w_fs w /\
   exists e, fst (fst run) = inl e) \/
  (exists response ext' U doc,
     session_get retry repodata_url (w_ext w) = (inr response, ext') /\
     resp_json response = inr U /\
     repo_data_of (path_name dest_dir) package_list U = inr doc /\
     snd run = [EvGet repodata_url; EvWrite dest_file (JsonText doc)]).
Proof.
  intros run dest_file. subst run.
  destruct (session_get retry repodata_url (w_ext w)) as [[e|response] ext'] eqn:Hget.
  { left. unfold _reconstruct_repodata_json.
    erewrite bind_inl by (rewrite improved_download_run, Hget; reflexivity).
    cbn. eauto. }
  destruct (resp_json response) as [e|U] eqn:HU.
  { left. unfold _reconstruct_repodata_json.
    erewrite bind_inr by (rewrite improved_download_run, Hget; reflexivity).
    cbn [fst snd]. rewrite HU. cbn. eauto. }
  destruct (repo_data_of (path_name dest_dir) package_list U) as [e|doc] eqn:Hdoc.
  { left. unfold _reconstruct_repodata_json.
    erewrite bind_inr by (rewrite improved_download_run, Hget; reflexivity).
    cbn [fst snd]. rewrite HU, bind_lift_inr, Hdoc. cbn. eauto. }
  right. exists response, ext', U, doc. repeat (split; [done|]).
  by rewrite (reconstruct_run _ _ _ _ _ _ _ _ Hget HU Hdoc).
Qed.

End Index.

Section IndexWrites.
Context {Path FS Ext : Type}.
Context `{!FileSystem Path FS} `{!Services Path FS Ext} `{!PyRuntime}.

(** X8. [_reconstruct_repodata_json] writes at most once, and only after
    the download succeeded, its body parsed as JSON and the whole document
    was built: in every other case it raises having written nothing, with
    the file system as it was.  What it writes is the document built for
    the name of the destination directory, into [repodata.json] there. *)
Theorem reconstruct_writes_built_document (repodata_url : string)
    (dest_dir : Path) (package_list : list FetchAction) (w : World FS Ext) :
  let run := _reconstruct_repodata_json repodata_url dest_dir package_list w in
  let dest_file := path_of_str (path_str dest_dir +:+ "/repodata.json") in
  (snd run = [EvGet repodata_url] /\
   w_fs (snd (fst run)) = w_fs w /\
   exists e, fst (fst run) = inl e) \/
  (exists response ext' U doc,
     session_get retry repodata_url (w_ext w) = (inr response, ext') /\
     resp_json response = inr U /\
     repo_data_of (path_name dest_dir) package_list U = inr doc /\
     snd run = [EvGet repodata_url; EvWrite dest_file (JsonText doc)]).
Proof. apply reconstruct_cases. Qed.

Context `{!PyRuntimeLaws}.

Lemma create_repodata_json_emits (D : list FetchAction) (root : Path) :
  emits (index_event D root) (create_repodata_json D root).
Proof.
  unfold create_repodata_json. apply emits_bind.
  - apply emits_for. intros pkg _. unfold describe_package, _blue, _yellow.
    repeat (emits_step; try exact I).
  - intros _. apply emits_for. intros S HS. apply emits_for. intros C _.
    apply (proj1 (list_of_set_elem _ _)) in HS.
    unfold reconstruct_pair, _red. apply emits_bind; [apply emits_emit; exact I|].
    intros _ w. cbn [fst snd].
    destruct (reconstruct_cases (C +:+ "/repodata.json") (joinpath root S) D w)
      as [(Hev & _) | (r & e' & U & doc & _ & _ & Hdoc & Hev)]; rewrite Hev.
    + apply Forall_cons_2; [exact I | apply Forall_nil_2].
    + apply Forall_cons_2; [exact I|].
      apply Forall_cons_2; [|apply Forall_nil_2].
      simpl. by exists S, U, doc.
Qed.





(** X9. [create_repodata_json] creates no directory and prints no data;
    every file it writes is the [repodata.json] of the subdirectory of some
    descriptor of the list, holding an index document built for that
    subdirectory. *)
Theorem create_repodata_json_writes_indexes (D : list FetchAction)
    (root : Path) (w : World FS Ext) :
  Forall (fun e => forall p, e <> EvMkdir p)
         (snd (create_repodata_json D root w)) /\
  forall p c,
    (p, c) ∈ written (snd (create_repodata_json D root w)) ->
    exists S U doc,
      S ∈ map fa_subdir D /\
      repo_data_of (path_name (joinpath root S)) D U = inr doc /\
      p = path_of_str (path_str (joinpath root S) +:+ "/repodata.json") /\
      c = JsonText doc.
Proof.
  pose proof (create_repodata_json_emits D root w) as Hev.
  split.
  - eapply Forall_impl; [exact Hev|]. intros e He p ->. exact He.
  - intros p c Hin. induction Hev as [|e evs He _ IH]; [by apply elem_of_nil in Hin|].
    destruct e; simpl in Hin; try (by apply IH).
    apply elem_of_cons in Hin as [[= -> ->]|Hin]; [exact He | by apply IH].
Qed.
End IndexWrites.

(** ** [download_packages], continued *)

Lemma round_length (st : list Z) (kw : Z * Z) :
  length (SHA256.round st kw) = length st.
Proof.
  unfold SHA256.round.
  do 8 (destruct st as [|? st]; [done|]). by destruct st.
Qed.

Lemma compress_length (h block : list Z) :
  length (SHA256.compress h block) = length h.
Proof.
  unfold SHA256.compress. rewrite length_zip_with.
  assert (Hfold : forall kws st,
             length (fold_left SHA256.round kws st) = length st).
  { induction kws as [|kw kws IH]; intros st; simpl; [done|].
    by rewrite IH, round_length. }
  rewrite Hfold. lia.
Qed.

Lemma digest_words_length (data : SHA256.bytes) :
  length (SHA256.digest_words data) = 8%nat.
Proof.
  unfold SHA256.digest_words.
  generalize (SHA256.blocks
                (length (SHA256.be_words
                           (length (SHA256.pad (map (fun b => Z.of_N (Byte.to_N b)) data)))
                           (SHA256.pad (map (fun b => Z.of_N (Byte.to_N b)) data))))
                (SHA256.be_words
                   (length (SHA256.pad (map (fun b => Z.of_N (Byte.to_N b)) data)))
                   (SHA256.pad (map (fun b => Z.of_N (Byte.to_N b)) data)))).
  assert (Hfold : forall bs h,
             length (fold_left SHA256.compress bs h) = length h).
  { induction bs as [|b bs IH]; intros h; simpl; [done|].
    by rewrite IH, compress_length. }
  intros bs. by rewrite Hfold.
Qed.

Lemma string_length_app (a b : string) :
  String.length (a +:+ b) = (String.length a + String.length b)%nat.
Proof.
  induction a as [|c a IH]; [done|]. rewrite append_cons. simpl. by rewrite IH.
Qed.

(** [hexdigest] prints 64 characters. *)
Lemma hexdigest_length (data : SHA256.bytes) :
  String.length (SHA256.hexdigest data) = 64%nat.
Proof.
  unfold SHA256.hexdigest.
  pose proof (digest_words_length data) as Hlen.
  assert (Hgen : forall ws,
             String.length
               (fold_right (fun w acc => SHA256.hex_word w +:+ acc) EmptyString ws)
             = (8 * length ws)%nat).
  { induction ws as [|w ws IH]; [done|].
    cbn [fold_right]. rewrite string_length_app, IH.
    cbn [length]. unfold SHA256.hex_word. simpl String.length. lia. }
  rewrite Hgen, Hlen. reflexivity.
Qed.

Section DownloadMore.
Context {Path FS Ext : Type}.
Context `{!FileSystem Path FS} `{!Services Path FS Ext} `{!PyRuntime}.

Lemma download_one_ok (root : Path) (pkg : FetchAction)
    (w w' : World FS Ext) (evs : list (event Path)) :
  download_one root pkg w = (inr tt, w', evs) ->
  exists data,
    evs = [ EvGet (fa_url pkg);
            EvWrite (joinpath (joinpath root (fa_subdir pkg)) (fa_fn pkg))
              (Binary data) ].
Proof.
  rewrite download_one_run.
  destruct (negb _); [discriminate|].
  destruct (session_get _ _ _) as [[e|response] ext']; [discriminate|].
  destruct (py_ne _ _); [discriminate|].
  cbn zeta. intros [= _ _ <-]. by eexists.
Qed.

Lemma for_download_ok (root : Path) (D : list FetchAction)
    (w w' : World FS Ext) (evs : list (event Path)) :
  for_ D (download_one root) w = (inr tt, w', evs) ->
  map fst (written evs)
  = map (fun d => joinpath (joinpath root (fa_subdir d)) (fa_fn d)) D /\
  fetched evs = map fa_url D.
Proof.
  revert w evs. induction D as [|d D IH]; intros w evs; simpl.
  - by intros [= _ <-].
  - unfold bind.
    destruct (download_one root d w) as [[[e|[]] w1] evs1] eqn:Hd; [discriminate|].
    destruct (for_ D (download_one root) w1) as [[r w2] evs2] eqn:HD.
    intros [= -> -> <-].
    destruct (download_one_ok _ _ _ _ _ Hd) as [data ->].
    destruct (IH _ _ HD) as [IHw IHf].
    rewrite written_app, fetched_app, map_app, IHw, IHf. by split.
Qed.

(** X10. When [download_packages] returns normally, it has downloaded the
    URL of every descriptor and written the destination file of every
    descriptor, each once and in the order of the list. *)
Theorem download_packages_complete (D : list FetchAction) (root : Path)
    (platform : string) (w w' : World FS Ext) (evs : list (event Path)) :
  download_packages D root platform w = (inr tt, w', evs) ->
  map fst (written evs)
  = map (fun d => joinpath (joinpath root (fa_subdir d)) (fa_fn d)) D /\
  fetched evs = map fa_url D.
Proof.
  unfold download_packages, _green. rewrite bind_emit.
  destruct (for_ D (download_one root) w) as [[r w1] evs1] eqn:HD.
  cbn [fst snd]. intros [= -> -> <-].
  by destruct (for_download_ok _ _ _ _ _ HD).
Qed.

(** X11. A descriptor whose destination directory is missing (or is not a
    directory) makes the run raise [AssertionError] before the artifact is
    downloaded: the world is the one the earlier descriptors left and the
    later descriptors are not processed. *)
Theorem download_needs_directory (pre post : list FetchAction)
    (d : FetchAction) (root : Path) (platform : string)
    (w w1 : World FS Ext) (evs1 : list (event Path)) :
  for_ pre (download_one root) w = (inr tt, w1, evs1) ->
  dest_dir_ok (w_fs w1) root d = false ->
  download_packages (pre ++ d :: post) root platform w
  = (inl AssertionError, w1,
     EvStatus Green true
       "Downloading and Verifying SHA256 Checksums for Solved Packages"
     :: evs1).
Proof.
  intros Hpre Hok. unfold download_packages, _green. rewrite bind_emit.
  rewrite for_app, (bind_inr _ _ _ _ _ _ Hpre). cbn [for_].
  erewrite bind_inl by (rewrite download_one_run, Hok; reflexivity).
  cbn [fst snd]. by rewrite app_nil_r.
Qed.

(** X12. An artifact is written only for a descriptor whose expected
    digest is a string of 64 characters in lower case; a descriptor
    without [sha256] (it is optional in [FetchAction]) is never
    written. *)
Theorem accepted_digest_is_canonical (root : Path) (pkg : FetchAction)
    (w : World FS Ext) :
  written (snd (download_one root pkg w)) <> [] ->
  exists E, fa_sha256 pkg = Some E /\
            String.length E = 64%nat /\ PyStr.lower E = E.
Proof.
  rewrite download_one_run.
  destruct (negb _); [done|].
  destruct (session_get _ _ _) as [[e|response] ext']; [done|].
  destruct (py_ne _ _) eqn:Hne; [done|].
  intros _. apply py_ne_false in Hne.
  exists (SHA256.hexdigest (resp_content response)).
  split; [done|]. split; [apply hexdigest_length | apply hexdigest_lower].
Qed.
End DownloadMore.

(** ** [solve_environment], continued *)

Section SolveMore.
Context {Path FS Ext : Type}.
Context `{!FileSystem Path FS} `{!Services Path FS Ext} `{!PyRuntime}.

Lemma solve_environment_prefix (environment_file : Path)
    (solver platform : string) (vps : option string)
    (w w1 w2 : World FS Ext) (evs1 evs2 : list (event Path))
    (lock_spec : LockSpecification) (virt_pkgs : FakeRepoData) :
  _generate_lock_spec environment_file platform w = (inr lock_spec, w1, evs1) ->
  _get_virtual_packages vps w1 = (inr virt_pkgs, w2, evs2) ->
  solve_environment environment_file solver platform vps w
  = match vp_all_repodata virt_pkgs !! platform with
    | None =>
        (inl (KeyError platform), w2,
         evs1 ++ evs2
         ++ solve_header solver platform (_get_query_list lock_spec))
    | Some pkgs =>
        let chans := channels lock_spec ++ [vp_channel_url virt_pkgs] in
        let specs := _get_query_list lock_spec in
        let listing :=
          map (fun pkg => EvStatus Cyan false
                            ("    " +:+ fst pkg +:+ ": " +:+ snd pkg)) pkgs in
        let before :=
          evs1 ++ evs2 ++ solve_header solver platform specs ++ listing
          ++ [EvSolve solver chans specs platform] in
        match solve_specs_for_arch solver chans specs platform
                (w_fs w2) (w_ext w2) with
        | (inl e, ext3) =>
            (inl e, {| w_fs := w_fs w2; w_ext := ext3 |}, before)
        | (inr solution, ext3) =>
            if success solution then
              match reconstruct_fetch_actions solver platform
                      (_remove_channel solution (vp_channel_url virt_pkgs))
                      (w_fs w2) ext3 with
              | (inl e, ext4) =>
                  (inl e, {| w_fs := w_fs w2; w_ext := ext4 |},
                   before ++ [ EvStatus Green true "Successfull Solve";
                               EvReconstructFetch ])
              | (inr patched, ext4) =>
                  (inr (FETCH patched), {| w_fs := w_fs w2; w_ext := ext4 |},
                   before ++ [ EvStatus Green true "Successfull Solve";
                               EvReconstructFetch ])
              end
            else
              (inl (SystemExit (ExitCode 1)),
               {| w_fs := w_fs w2; w_ext := ext3 |},
               before
               ++ [ EvStatus Red true ("Failed to Solve for " +:+ repr_list specs);
                    EvStatus Red true
                      ("Using " +:+ solver +:+ " for " +:+ platform) ])
        end
    end.
Proof.
  intros Hlock Hvirt. unfold solve_environment.
  rewrite (bind_inr _ _ _ _ _ _ Hlock).
  rewrite (bind_inr _ _ _ _ _ _ Hvirt).
  unfold _cyan. rewrite !bind_emit. cbn [fst snd].
  destruct (vp_all_repodata virt_pkgs !! platform) as [pkgs|].
  2:{ cbn. unfold solve_header. by rewrite <- ?app_assoc. }
  rewrite bind_lift_inr.
  assert (Hlist : forall w',
             for_ pkgs (fun pkg : string * string =>
                          emit (Path := Path) (FS := FS) (Ext := Ext)
                            (EvStatus Cyan false
                               ("    " +:+ fst pkg +:+ ": " +:+ snd pkg))) w'
             = (inr tt, w',
                map (fun pkg => EvStatus Cyan false
                                  ("    " +:+ fst pkg +:+ ": " +:+ snd pkg)) pkgs)).
  { induction pkgs as [|pkg pkgs IH]; intros w'; [done|].
    cbn [for_ map]. rewrite bind_emit, IH. reflexivity. }
  rewrite (bind_inr _ _ _ _ _ _ (Hlist w2)). rewrite bind_emit. cbn [fst snd].
  cbn zeta.
  destruct (solve_specs_for_arch solver
              (channels lock_spec ++ [vp_channel_url virt_pkgs])
              (_get_query_list lock_spec) platform (w_fs w2) (w_ext w2))
    as [[e|solution] ext3] eqn:Hsolve.
  - erewrite bind_inl by (unfold ext_call; rewrite Hsolve; reflexivity).
    unfold solve_header. by rewrite <- ?app_assoc.
  - erewrite bind_inr by (unfold ext_call; rewrite Hsolve; reflexivity).
    cbn [fst snd negb _remove_channel success].
    destruct (success solution); cbn [negb].
    + unfold _green. rewrite !bind_emit. cbn [fst snd].
      destruct (reconstruct_fetch_actions solver platform
                  (_remove_channel solution (vp_channel_url virt_pkgs))
                  (w_fs w2) ext3)
        as [[e|patched] ext4] eqn:Hrec.
      * erewrite bind_inl
          by (unfold ext_call; cbn [w_fs w_ext]; rewrite Hrec; reflexivity).
        unfold solve_header. by rewrite <- ?app_assoc.
      * erewrite bind_inr
          by (unfold ext_call; cbn [w_fs w_ext]; rewrite Hrec; reflexivity).
        cbn [fst snd ret]. unfold solve_header. rewrite <- ?app_assoc.
        by rewrite ?app_nil_r.
    + unfold _red. rewrite !bind_emit. cbn [fst snd sys_exit raise].
      unfold solve_header. by rewrite <- ?app_assoc.
Qed.
End SolveMore.

Section SolveOutcomes.
Context {Path FS Ext : Type}.
Context `{!FileSystem Path FS} `{!Services Path FS Ext} `{!PyRuntime}.

(** X13. When the solver answers with [success] false, [solve_environment]
    prints the two failure lines and exits with status 1:
    [reconstruct_fetch_actions] is not called and the file system is
    untouched. *)
Theorem solve_failure_exits (environment_file : Path)
    (solver platform : string) (vps : option string)
    (w w1 w2 : World FS Ext) (evs1 evs2 : list (event Path))
    (lock_spec : LockSpecification) (virt_pkgs : FakeRepoData)
    (pkgs : list (string * string)) (solution : DryRunInstall) (ext3 : Ext) :
  _generate_lock_spec environment_file platform w = (inr lock_spec, w1, evs1) ->
  _get_virtual_packages vps w1 = (inr virt_pkgs, w2, evs2) ->
  vp_all_repodata virt_pkgs !! platform = Some pkgs ->
  solve_specs_for_arch solver (channels lock_spec ++ [vp_channel_url virt_pkgs])
    (_get_query_list lock_spec) platform (w_fs w2) (w_ext w2)
  = (inr solution, ext3) ->
  success solution = false ->
  let run := solve_environment environment_file solver platform vps w in
  fst (fst run) = inl (SystemExit (ExitCode 1)) /\
  exit_status (fst (fst run)) = 1 /\
  snd (fst run) = {| w_fs := w_fs w2; w_ext := ext3 |} /\
  w_fs w2 = w_fs w /\
  (exists evs,
     snd run
     = evs ++ [ EvStatus Red true
                  ("Failed to Solve for " +:+ repr_list (_get_query_list lock_spec));
                EvStatus Red true ("Using " +:+ solver +:+ " for " +:+ platform) ] /\
     Forall (fun e => e <> EvReconstructFetch) evs).
Proof.
  intros Hlock Hvirt Hpkgs Hsolve Hfail run. subst run.
  pose proof (solve_environment_keeps_fs environment_file solver platform vps w)
    as [Hfs _].
  rewrite (solve_environment_prefix _ _ _ _ _ _ _ _ _ _ _ Hlock Hvirt) in *.
  rewrite Hpkgs in *. cbn zeta in *. rewrite Hsolve, Hfail in *. cbn [fst snd] in *.
  repeat (split; [done|]).
  eexists. split; [reflexivity|].
  pose proof (keeps_fs_emits _ _
                (solve_environment_keeps_fs environment_file solver platform vps)
                w) as Hcalm.
  rewrite (solve_environment_prefix _ _ _ _ _ _ _ _ _ _ _ Hlock Hvirt) in Hcalm.
  rewrite Hpkgs in Hcalm. cbn zeta in Hcalm. rewrite Hsolve, Hfail in Hcalm.
  cbn [snd] in Hcalm.
  assert (Hparse : Forall (fun e : event Path => e <> EvReconstructFetch) evs1).
  { assert (Hev : snd (_generate_lock_spec environment_file platform w) = evs1)
      by by rewrite Hlock.
    rewrite <- Hev. unfold _generate_lock_spec.
    apply (emits_bind (fun e : event Path => e <> EvReconstructFetch)).
    - by apply emits_emit.
    - intros _. destruct conda_lock_before_1_3_0; apply emits_ext_call. }
  assert (Hvp : Forall (fun e : event Path => e <> EvReconstructFetch) evs2).
  { assert (Hev : snd (_get_virtual_packages vps w1) = evs2) by by rewrite Hvirt.
    rewrite <- Hev. unfold _get_virtual_packages.
    apply (emits_bind (fun e : event Path => e <> EvReconstructFetch)).
    - by apply emits_emit.
    - intros _. destruct vps; apply emits_ext_call. }
  repeat (apply Forall_app; split); try done.
  - unfold solve_header. by repeat (apply Forall_cons_2; [done|]).
  - apply Forall_fmap || apply Forall_map. apply Forall_forall. by intros.
  - by repeat (apply Forall_cons_2; [done|]).
Qed.

(** X14. When the virtual-package repository has no entry for the
    platform, [solve_environment] raises [KeyError] with the platform name
    after the header lines, before the solver is called. *)
Theorem solve_unknown_platform (environment_file : Path)
    (solver platform : string) (vps : option string)
    (w w1 w2 : World FS Ext) (evs1 evs2 : list (event Path))
    (lock_spec : LockSpecification) (virt_pkgs : FakeRepoData) :
  _generate_lock_spec environment_file platform w = (inr lock_spec, w1, evs1) ->
  _get_virtual_packages vps w1 = (inr virt_pkgs, w2, evs2) ->
  vp_all_repodata virt_pkgs !! platform = None ->
  solve_environment environment_file solver platform vps w
  = (inl (KeyError platform), w2,
     evs1 ++ evs2 ++ solve_header solver platform (_get_query_list lock_spec)) /\
  evs1 = [EvParseEnvironment environment_file] /\
  evs2 = [EvVirtualPackages].
Proof.
  intros Hlock Hvirt Hnone.
  rewrite (solve_environment_prefix _ _ _ _ _ _ _ _ _ _ _ Hlock Hvirt), Hnone.
  split; [done|]. split.
  - revert Hlock. unfold _generate_lock_spec. rewrite bind_emit.
    cbn [fst snd]. intros [= _ _ <-].
    unfold ext_call. destruct conda_lock_before_1_3_0;
      by destruct (parse_environment_file _ _ _ _).
  - revert Hvirt. unfold _get_virtual_packages. rewrite bind_emit.
    cbn [fst snd]. intros [= _ _ <-].
    unfold ext_call. destruct vps.
    + by destruct (virtual_package_repo_from_specification _ _ _).
    + by destruct (default_virtual_package_repodata _).
Qed.

Lemma solve_environment_fetches_nothing (environment_file : Path)
    (solver platform : string) (vps : option string) (w : World FS Ext) :
  fetched (snd (solve_environment environment_file solver platform vps w)) = [].
Proof.
  assert (Hget : emits (fun e : event Path => forall url, e <> EvGet url)
                   (solve_environment environment_file solver platform vps)).
  { unfold solve_environment, _generate_lock_spec, _get_virtual_packages,
      _cyan, _red, _green, sys_exit.
    repeat first
      [ apply emits_bind; [|intros ?]
      | apply emits_for; intros ? _
      | apply emits_ret | apply emits_raise | apply emits_lift
      | apply emits_ext_call | apply emits_emit; done ].
    - destruct conda_lock_before_1_3_0; apply emits_ext_call.
    - destruct vps; apply emits_ext_call.
    - destruct (negb _);
        repeat first
          [ apply emits_bind; [|intros ?]
          | apply emits_ret | apply emits_raise
          | apply emits_ext_call | apply emits_emit; done ]. }
  specialize (Hget w). induction Hget as [|e evs He _ IH]; [done|].
  destruct e as [? ? ?|?|url|?|? ?|?| |? ? ? ?|]; simpl; try done.
  by specialize (He url).
Qed.

Lemma generate_lock_spec_events (environment_file : Path) (platform : string)
    (w : World FS Ext) :
  snd (_generate_lock_spec environment_file platform w)
  = [EvParseEnvironment environment_file].
Proof.
  unfold _generate_lock_spec. rewrite bind_emit. cbn [snd].
  unfold ext_call. destruct conda_lock_before_1_3_0;
    by destruct (parse_environment_file _ _ _ _).
Qed.

Lemma get_virtual_packages_events (vps : option string) (w : World FS Ext) :
  snd (_get_virtual_packages vps w) = [EvVirtualPackages (Path := Path)].
Proof.
  unfold _get_virtual_packages. rewrite bind_emit. cbn [snd].
  unfold ext_call. destruct vps.
  - by destruct (virtual_package_repo_from_specification _ _ _).
  - by destruct (default_virtual_package_repodata _).
Qed.

Lemma lock_calls_listing (pkgs : list (string * string)) :
  lock_calls (Path := Path)
    (map (fun pkg => EvStatus Cyan false
                       ("    " +:+ fst pkg +:+ ": " +:+ snd pkg)) pkgs)
  = [].
Proof. by induction pkgs. Qed.

(** X15. A run of [solve_environment] that returns a package list has
    gone through the four calls to conda-lock, once each and in this
    order: the environment file was parsed, the virtual packages were
    read and have an entry for the platform, the solver was asked for the
    query list of the parsed environment on its channels followed by the
    virtual channel and answered with [success] true, and the fetch
    actions were reconstructed from that solution without the entries of
    the virtual channel.  The list returned is the FETCH list of the
    reconstructed solution.  The function's own code wrote no file,
    downloaded nothing and printed only status lines. *)
Theorem solve_environment_returns (environment_file : Path)
    (solver platform : string) (vps : option string)
    (w w' : World FS Ext) (package_list : list FetchAction)
    (evs : list (event Path)) :
  solve_environment environment_file solver platform vps w
  = (inr package_list, w', evs) ->
  exists lock_spec virt_pkgs listing solution patched w1 w2 ext3 ext4,
    let chans := channels lock_spec ++ [vp_channel_url virt_pkgs] in
    let specs := _get_query_list lock_spec in
    _generate_lock_spec environment_file platform w
    = (inr lock_spec, w1, [EvParseEnvironment environment_file]) /\
    _get_virtual_packages vps w1 = (inr virt_pkgs, w2, [EvVirtualPackages]) /\
    vp_all_repodata virt_pkgs !! platform = Some listing /\
    solve_specs_for_arch solver chans specs platform (w_fs w2) (w_ext w2)
    = (inr solution, ext3) /\
    success solution = true /\
    reconstruct_fetch_actions solver platform
      (_remove_channel solution (vp_channel_url virt_pkgs)) (w_fs w2) ext3
    = (inr patched, ext4) /\
    package_list = FETCH patched /\
    w' = {| w_fs := w_fs w2; w_ext := ext4 |} /\
    lock_calls evs
    = [ EvParseEnvironment environment_file; EvVirtualPackages;
        EvSolve solver chans specs platform; EvReconstructFetch ] /\
    written evs = [] /\ echoed evs = [] /\ fetched evs = [].
Proof.
  intros Hrun.
  assert (Hquiet : written evs = [] /\ echoed evs = [] /\ fetched evs = []).
  { destruct (solve_environment_keeps_fs environment_file solver platform vps w)
      as [_ Hcalm].
    pose proof (solve_environment_fetches_nothing environment_file solver
                  platform vps w) as Hget.
    rewrite Hrun in Hcalm, Hget. cbn [snd] in Hcalm, Hget.
    split; [by apply calm_written|]. split; [by apply calm_echoed|done]. }
  pose proof (generate_lock_spec_events environment_file platform w) as Hev1.
  destruct (_generate_lock_spec environment_file platform w)
    as [[[e|lock_spec] w1] evs1] eqn:Hlock.
  { unfold solve_environment in Hrun.
    rewrite (bind_inl _ _ _ _ _ _ Hlock) in Hrun. discriminate Hrun. }
  cbn [snd] in Hev1. subst evs1.
  pose proof (get_virtual_packages_events vps w1) as Hev2.
  destruct (_get_virtual_packages vps w1) as [[[e|virt_pkgs] w2] evs2] eqn:Hvirt.
  { unfold solve_environment in Hrun.
    rewrite (bind_inr _ _ _ _ _ _ Hlock) in Hrun.
    rewrite (bind_inl _ _ _ _ _ _ Hvirt) in Hrun. discriminate Hrun. }
  cbn [snd] in Hev2. subst evs2.
  rewrite (solve_environment_prefix _ _ _ _ _ _ _ _ _ _ _ Hlock Hvirt) in Hrun.
  destruct (vp_all_repodata virt_pkgs !! platform) as [listing|] eqn:Hlist;
    [|discriminate Hrun].
  cbn zeta in Hrun.
  destruct (solve_specs_for_arch solver
              (channels lock_spec ++ [vp_channel_url virt_pkgs])
              (_get_query_list lock_spec) platform (w_fs w2) (w_ext w2))
    as [[e|solution] ext3] eqn:Hsolve; [discriminate Hrun|].
  destruct (success solution) eqn:Hok; [|discriminate Hrun].
  destruct (reconstruct_fetch_actions solver platform
              (_remove_channel solution (vp_channel_url virt_pkgs))
              (w_fs w2) ext3)
    as [[e|patched] ext4] eqn:Hrec; [discriminate Hrun|].
  injection Hrun as <- <- <-.
  exists lock_spec, virt_pkgs, listing, solution, patched, w1, w2, ext3, ext4.
  cbn zeta. do 8 (split; [done|]). split; [|exact Hquiet].
  pose proof (lock_calls_listing listing) as Hl.
  unfold lock_calls in Hl |- *. cbn [List.filter].
  rewrite !List.filter_app, Hl. reflexivity.
Qed.
End SolveOutcomes.

(** ** The manifest and the [ironbank-gen] command *)

Section Manifest.
Context {Path FS Ext : Type}.
Context `{!FileSystem Path FS} `{!Services Path FS Ext} `{!PyRuntime}.

Lemma yaml_dump_run (package_list : list FetchAction) (w : World FS Ext) :
  let p := path_of_str "ib_manifest.yaml" in
  let c := YamlText (map resource_of package_list) in
  yaml_dump_ironbank_manifest package_list w
  = match fs_write p c (w_fs w) with
    | (inl e, fs') =>
        (inl e, {| w_fs := fs'; w_ext := w_ext w |},
         [ EvStatus Cyan true "Generating Iron Bank resources clause";
           EvWrite p c ])
    | (inr _, fs') =>
        (inr tt, {| w_fs := fs'; w_ext := w_ext w |},
         [ EvStatus Cyan true "Generating Iron Bank resources clause";
           EvWrite p c;
           EvStatus Green true
             "Iron Bank resources list written to ib_manifest.yaml" ])
    end.
Proof.
  cbn zeta. unfold yaml_dump_ironbank_manifest, _cyan, _green.
  rewrite bind_emit. cbn [fst snd].
  rewrite (foldl_snoc_map resource_of), app_nil_l.
  destruct (fs_write (path_of_str "ib_manifest.yaml")
              (YamlText (map resource_of package_list)) (w_fs w))
    as [[e|[]] fs'] eqn:Hw.
  - erewrite bind_inl by (rewrite write_file_run, Hw; reflexivity). reflexivity.
  - erewrite bind_inr by (rewrite write_file_run, Hw; reflexivity). reflexivity.
Qed.

(** X16. [yaml_dump_ironbank_manifest] makes one write, of
    [ib_manifest.yaml], whose resources are one per descriptor, in the
    order of the list: URL, file name, validation type [sha256] and the
    expected digest of the descriptor.  It downloads nothing, and prints
    the closing line only when the write succeeded. *)
Theorem ironbank_manifest_resources (package_list : list FetchAction)
    (w : World FS Ext) :
  let run := yaml_dump_ironbank_manifest package_list w in
  exists resources,
    written (snd run) = [(path_of_str "ib_manifest.yaml", YamlText resources)] /\
    length resources = length package_list /\
    (forall i pkg,
       package_list !! i = Some pkg ->
       resources !! i
       = Some {| res_url := fa_url pkg;
                 res_filename := fa_fn pkg;
                 res_validation_type := "sha256";
                 res_validation_value := fa_sha256 pkg |}) /\
    fetched (snd run) = [] /\
    (EvStatus Green true "Iron Bank resources list written to ib_manifest.yaml"
       ∈ snd run <-> fst (fst run) = inr tt).
Proof.
  intros run. subst run. exists (map resource_of package_list).
  rewrite yaml_dump_run. cbn zeta.
  destruct (fs_write _ _ _) as [[e|[]] fs']; cbn [fst snd].
  - split; [done|]. split; [by rewrite length_map|]. split.
    + intros i pkg Hi.
      change (map resource_of package_list) with (resource_of <$> package_list).
      by rewrite list_lookup_fmap, Hi.
    + split; [done|]. split; [|done].
      rewrite !elem_of_cons. intros [?|[?|?%elem_of_nil]]; done.
  - split; [done|]. split; [by rewrite length_map|]. split.
    + intros i pkg Hi.
      change (map resource_of package_list) with (resource_of <$> package_list).
      by rewrite list_lookup_fmap, Hi.
    + split; [done|]. split; [done|]. intros _.
      rewrite !elem_of_cons. tauto.
Qed.

(** X17. The [ironbank-gen] command solves and writes the manifest and
    nothing else: it creates no directory, downloads nothing, prints no
    data, and its only write, if any, is [ib_manifest.yaml].  Without a
    file argument it raises [TypeError] at once. *)
Theorem ironbank_gen_writes_manifest_only (file : option string)
    (solver platform : string) (vps : option string) (w : World FS Ext) :
  let run := ironbank_gen file solver platform vps w in
  Forall (fun e => forall p, e <> EvMkdir p) (snd run) /\
  fetched (snd run) = [] /\
  echoed (snd run) = [] /\
  (written (snd run) = [] \/
   exists resources,
     written (snd run) = [(path_of_str "ib_manifest.yaml", YamlText resources)]) /\
  (file = None -> run = (inl TypeError, w, [])).
Proof.
  intros run. subst run. unfold ironbank_gen.
  destruct file as [file|].
  2:{ cbn. repeat split; try done. by left. }
  rewrite bind_lift_inr.
  pose proof (solve_environment_keeps_fs (path_of_str file) solver platform vps w)
    as [_ Hcalm].
  pose proof (solve_environment_fetches_nothing (path_of_str file) solver
                platform vps w) as Hfetch.
  rewrite bind_events.
  destruct (solve_environment (path_of_str file) solver platform vps w)
    as [[[e|pl] w1] evs1]; cbn [fst snd] in *.
  - rewrite app_nil_r. split; [|split; [done|split; [by apply calm_echoed|]]].
    + eapply Forall_impl; [exact Hcalm|]. intros e' [Hm _] p ->. by apply Hm.
    + split; [|done]. left. by apply calm_written.
  - rewrite yaml_dump_run. cbn zeta.
    assert (Hmk : Forall (fun e : event Path => forall p, e <> EvMkdir p) evs1).
    { eapply Forall_impl; [exact Hcalm|]. intros e' [Hm _] p ->. by apply Hm. }
    destruct (fs_write _ _ _) as [[e|[]] fs']; cbn [fst snd];
      rewrite fetched_app, echoed_app, written_app, Hfetch,
        (calm_echoed _ Hcalm), (calm_written _ Hcalm).
    all: split; [apply Forall_app; split; [done|];
                 by repeat (apply Forall_cons_2; [done|])|].
    all: repeat (split; [done|]); split; [|done]; right; by eexists.
Qed.
End Manifest.

(** ** [vendor], continued *)

Section VendorMore.
Context {Path FS Ext : Type}.
Context `{!FileSystem Path FS} `{!Services Path FS Ext} `{!PyRuntime}.

Lemma written_bind {A B} (m : M Path FS Ext A) (k : A -> M Path FS Ext B) w :
  written (snd (bind m k w))
  = written (snd (m w))
    ++ match fst (fst (m w)) with
       | inl _ => []
       | inr a => written (snd (k a (snd (fst (m w)))))
       end.
Proof.
  rewrite bind_events, written_app. by destruct (fst (fst (m w))).
Qed.

Lemma Forall_written (P : event Path -> Prop) (Q : Path * content -> Prop)
    (evs : list (event Path)) :
  (forall p c, P (EvWrite p c) -> Q (p, c)) ->
  Forall P evs -> Forall Q (written evs).
Proof.
  intros HPQ. induction 1 as [|e evs He _ IH]; [constructor|].
  destruct e; simpl; try done. apply Forall_cons_2; [by apply HPQ | done].
Qed.

Lemma make_directories_events (root : Path) (platform : string) :
  emits (FS := FS) (Ext := Ext) (fun e => exists p, e = EvMkdir p)
    (bind (mkdir root) (fun _ =>
     bind (mkdir (joinpath root platform)) (fun _ =>
           mkdir (joinpath root "noarch")))).
Proof.
  unfold mkdir.
  repeat first [ apply emits_bind; [|intros ?]
               | apply emits_fs_update
               | apply emits_emit; by eexists ].
Qed.

Lemma create_repodata_json_emits_json (D : list FetchAction) (root : Path) :
  emits (fun e => match e with
                  | EvWrite _ c => exists doc, c = JsonText doc
                  | _ => True
                  end)
        (create_repodata_json D root).
Proof.
  unfold create_repodata_json. apply emits_bind.
  - apply emits_for. intros pkg _. unfold describe_package, _blue, _yellow.
    repeat (emits_step; try exact I).
  - intros _. apply emits_for. intros S _. apply emits_for. intros C _.
    unfold reconstruct_pair, _red. apply emits_bind; [apply emits_emit; exact I|].
    intros _ w. cbn [fst snd].
    destruct (reconstruct_cases (C +:+ "/repodata.json") (joinpath root S) D w)
      as [(Hev & _) | (r & e' & U & doc & _ & _ & _ & Hev)]; rewrite Hev.
    + apply Forall_cons_2; [exact I | apply Forall_nil_2].
    + apply Forall_cons_2; [exact I|].
      apply Forall_cons_2; [by eexists | apply Forall_nil_2].
Qed.

Lemma download_packages_emits_binary (D : list FetchAction) (root : Path)
    (platform : string) :
  emits (fun e => match e with
                  | EvWrite _ c => exists data, c = Binary data
                  | _ => True
                  end)
        (download_packages D root platform).
Proof.
  unfold download_packages, _green. apply emits_bind; [apply emits_emit; exact I|].
  intros _. apply emits_for. intros d _ w. rewrite download_one_run.
  destruct (negb _); [apply Forall_nil_2|].
  destruct (session_get _ _ _) as [[e|response] ext'];
    [apply Forall_cons_2; [exact I | apply Forall_nil_2]|].
  destruct (py_ne _ _); [apply Forall_cons_2; [exact I | apply Forall_nil_2]|].
  apply Forall_cons_2; [exact I|].
  apply Forall_cons_2; [by eexists | apply Forall_nil_2].
Qed.

(** X18. Without a file argument, or when the environment name cannot be
    read as a string (unreadable file, YAML error, no [name] key, a name
    that is not a string), [vendor] raises right after its first line: the
    world is unchanged and nothing else is printed or done. *)
Theorem vendor_needs_environment_name (solver platform : string)
    (vps : option string) (dry_run ironbank_gen : bool) (w : World FS Ext) :
  vendor None solver platform vps dry_run ironbank_gen w
  = (inl TypeError, w,
     [EvStatus Green false "Vendoring Local Channel for file: None"]) /\
  forall file r,
    _get_environment_name (path_of_str file) w = (r, w, []) ->
    (forall name, r <> inr (JStr name)) ->
    exists e,
      vendor (Some file) solver platform vps dry_run ironbank_gen w
      = (inl e, w,
         [EvStatus Green false ("Vendoring Local Channel for file: " +:+ file)]) /\
      (r = inl e \/ e = TypeError).
Proof.
  split; [reflexivity|].
  intros file r Hname Hr. unfold vendor, _green.
  rewrite bind_emit, bind_lift_inr.
  destruct r as [e|v].
  - exists e. rewrite (bind_inl _ _ _ _ _ _ Hname). split; [done | by left].
  - exists TypeError. rewrite (bind_inr _ _ _ _ _ _ Hname).
    split; [|by right].
    destruct v as [| | |name| |]; try reflexivity. by destruct (Hr name).
Qed.

(** X19. When the solver fails in a run that is not a dry run, the
    directories created before it stay: the run ends with the exception of
    the solver, the file system is the one the three [mkdir] left, and no
    file has been written. *)
Theorem vendor_keeps_directories_on_failure (file solver platform : string)
    (vps : option string) (ironbank_gen : bool)
    (w w1 w2 : World FS Ext) (name : string) (e : exn)
    (evs_m evs_s : list (event Path)) :
  _get_environment_name (path_of_str file) w = (inr (JStr name), w, []) ->
  fs_exists (w_fs w) (joinpath (cwd (w_fs w)) name) = false ->
  let root := joinpath (cwd (w_fs w)) name in
  bind (mkdir root) (fun _ =>
  bind (mkdir (joinpath root platform)) (fun _ =>
        mkdir (joinpath root "noarch"))) w = (inr tt, w1, evs_m) ->
  solve_environment (path_of_str file) solver platform vps w1
  = (inl e, w2, evs_s) ->
  vendor (Some file) solver platform vps false ironbank_gen w
  = (inl e, w2,
     EvStatus Green false ("Vendoring Local Channel for file: " +:+ file)
     :: evs_m ++ evs_s) /\
  w_fs w2 = w_fs w1 /\
  written (evs_m ++ evs_s) = [].
Proof.
  intros Hname Hex root Hdirs Hsolve.
  rewrite (vendor_root_free _ _ _ _ _ _ _ _ Hname Hex). cbn zeta. fold root.
  rewrite (bind_inr _ _ _ _ _ _ Hdirs). unfold vendor_run.
  rewrite (bind_inl _ _ _ _ _ _ Hsolve). cbn [fst snd].
  split; [done|].
  pose proof (solve_environment_keeps_fs (path_of_str file) solver platform vps w1)
    as [Hfs Hcalm].
  rewrite Hsolve in Hfs, Hcalm. cbn [fst snd] in Hfs, Hcalm.
  split; [done|].
  rewrite written_app, (calm_written _ Hcalm), app_nil_r.
  pose proof (make_directories_events root platform w) as Hmk.
  rewrite Hdirs in Hmk. cbn [snd] in Hmk.
  clear Hdirs. induction Hmk as [|e' evs [p ->] _ IH]; [done | exact IH].
Qed.

(** X20. In a run that is not a dry run, the files are written in three
    phases: first index documents, then artifacts, and last the manifest,
    which is written only when the manifest flag is set. *)
Theorem vendor_write_order (file solver platform : string)
    (vps : option string) (ironbank_gen : bool)
    (w : World FS Ext) (name : string) :
  _get_environment_name (path_of_str file) w = (inr (JStr name), w, []) ->
  fs_exists (w_fs w) (joinpath (cwd (w_fs w)) name) = false ->
  exists indexes artifacts manifest,
    written (snd (vendor (Some file) solver platform vps false ironbank_gen w))
    = indexes ++ artifacts ++ manifest /\
    Forall (fun pc => exists doc, snd pc = JsonText doc) indexes /\
    Forall (fun pc => exists data, snd pc = Binary data) artifacts /\
    (manifest = [] \/
     ironbank_gen = true /\
     exists resources,
       manifest = [(path_of_str "ib_manifest.yaml", YamlText resources)]).
Proof.
  intros Hname Hex.
  rewrite (vendor_root_free _ _ _ _ _ _ _ _ Hname Hex). cbn zeta. cbn [snd].
  set (root := joinpath (cwd (w_fs w)) name).
  change (written (?e :: ?l)) with (written l).
  rewrite written_bind.
  assert (Hmk : written (snd (bind (mkdir root) (fun _ =>
                              bind (mkdir (joinpath root platform)) (fun _ =>
                                    mkdir (joinpath root "noarch"))) w)) = []).
  { pose proof (make_directories_events root platform w) as Hmk.
    induction Hmk as [|e' evs [p ->] _ IH]; [done | exact IH]. }
  rewrite Hmk, app_nil_l. clear Hmk.
  destruct (fst (fst (bind (mkdir root) _ w))) as [e|[]].
  { exists [], [], []. split; [done|]. split; [apply Forall_nil_2|].
    split; [apply Forall_nil_2 | by left]. }
  set (w1 := snd (fst (bind (mkdir root) _ w))). clearbody w1.
  unfold vendor_run. rewrite written_bind.
  pose proof (solve_environment_keeps_fs (path_of_str file) solver platform vps w1)
    as [_ Hcalm].
  rewrite (calm_written _ Hcalm), app_nil_l. clear Hcalm.
  destruct (fst (fst (solve_environment _ _ _ _ w1))) as [e|pl].
  { exists [], [], []. split; [done|]. split; [apply Forall_nil_2|].
    split; [apply Forall_nil_2 | by left]. }
  set (w2 := snd (fst (solve_environment _ _ _ _ w1))). clearbody w2.
  rewrite written_bind.
  exists (written (snd (create_repodata_json pl root w2))).
  assert (Hjs : Forall (fun pc : Path * content => exists doc, snd pc = JsonText doc)
                  (written (snd (create_repodata_json pl root w2)))).
  { eapply Forall_written; [|apply create_repodata_json_emits_json].
    by intros p c Hc. }
  destruct (fst (fst (create_repodata_json pl root w2))) as [e|[]].
  { exists [], []. rewrite !app_nil_r. split; [done|]. split; [done|].
    split; [apply Forall_nil_2 | by left]. }
  set (w3 := snd (fst (create_repodata_json pl root w2))). clearbody w3.
  rewrite written_bind.
  exists (written (snd (download_packages pl root platform w3))).
  assert (Hbs : Forall (fun pc : Path * content => exists data, snd pc = Binary data)
                  (written (snd (download_packages pl root platform w3)))).
  { eapply Forall_written; [|apply download_packages_emits_binary].
    by intros p c Hc. }
  destruct (fst (fst (download_packages pl root platform w3))) as [e|[]].
  { exists []. rewrite !app_nil_r. split; [done|]. split; [done|].
    split; [done | by left]. }
  set (w4 := snd (fst (download_packages pl root platform w3))). clearbody w4.
  unfold _green. rewrite !bind_emit. cbn [fst snd written omap].
  destruct ironbank_gen.
  - rewrite yaml_dump_run. cbn zeta.
    eexists. split; [reflexivity|]. repeat (split; [done|]).
    right. split; [done|].
    destruct (fs_write _ _ _) as [[e|[]] fs']; by eexists.
  - exists []. cbn. repeat (split; [done|]). by left.
Qed.
End VendorMore.

(** ** The further statements on the concrete world *)


Lemma create_repodata_json_writes_indexes_witness :
  Forall (fun e => forall p, e <> EvMkdir p)
         (snd (create_repodata_json [Demo.foo; Demo.bar] (true, ["work"; "demo"])
                 (Demo.world Demo.fs_ready))) /\
  forall p c,
    (p, c) ∈ written (snd (create_repodata_json [Demo.foo; Demo.bar]
                             (true, ["work"; "demo"])
                             (Demo.world Demo.fs_ready))) ->
    exists S U doc,
      S ∈ map fa_subdir [Demo.foo; Demo.bar] /\
      repo_data_of (path_name (joinpath (true, ["work"; "demo"]) S))
        [Demo.foo; Demo.bar] U = inr doc /\
      p = path_of_str (path_str (joinpath (true, ["work"; "demo"]) S)
                       +:+ "/repodata.json") /\
      c = JsonText doc.
Proof.
  exact (create_repodata_json_writes_indexes [Demo.foo; Demo.bar]
           (true, ["work"; "demo"]) (Demo.world Demo.fs_ready)).
Defined.

Lemma download_packages_complete_witness :
  map fst (written (snd (download_packages [Demo.bar; Demo.foo]
                           (true, ["work"; "demo"]) "linux-64"
                           (Demo.world Demo.fs_ready))))
  = [ (true, ["work"; "demo"; "noarch"; "bar-2.0-0.conda"]);
      (true, ["work"; "demo"; "linux-64"; "foo-1.0-0.tar.bz2"]) ] /\
  fetched (snd (download_packages [Demo.bar; Demo.foo]
                  (true, ["work"; "demo"]) "linux-64"
                  (Demo.world Demo.fs_ready)))
  = [ "https://conda.example/main/noarch/bar-2.0-0.conda";
      "https://conda.example/main/linux-64/foo-1.0-0.tar.bz2" ].
Proof.
  refine (download_packages_complete [Demo.bar; Demo.foo]
            (true, ["work"; "demo"]) "linux-64" (Demo.world Demo.fs_ready)
            (snd (fst (download_packages [Demo.bar; Demo.foo]
                         (true, ["work"; "demo"]) "linux-64"
                         (Demo.world Demo.fs_ready))))
            _ _).
  reflexivity.
Defined.

Lemma download_needs_directory_witness :
  download_packages ([] ++ Demo.bar :: [Demo.foo]) (true, ["work"; "demo"])
    "linux-64" (Demo.world Demo.fs_taken)
  = (inl AssertionError, Demo.world Demo.fs_taken,
     [ EvStatus Green true
         "Downloading and Verifying SHA256 Checksums for Solved Packages" ]).
Proof.
  refine (download_needs_directory [] [Demo.foo] Demo.bar (true, ["work"; "demo"])
            "linux-64" (Demo.world Demo.fs_taken) (Demo.world Demo.fs_taken) []
            _ _).
  - reflexivity.
  - reflexivity.
Defined.

Lemma accepted_digest_is_canonical_witness :
  exists E, fa_sha256 Demo.bar = Some E /\
            String.length E = 64%nat /\ PyStr.lower E = E.
Proof.
  refine (accepted_digest_is_canonical (true, ["work"; "demo"]) Demo.bar
            (Demo.world Demo.fs_ready) _).
  vm_compute. discriminate.
Defined.

Lemma solve_failure_exits_witness :
  fst (fst (solve_environment (path_of_str "environment.yaml") "conda" "linux-64"
              None {| w_fs := Demo.fs0; w_ext := demo_ext_failed |}))
  = inl (SystemExit (ExitCode 1)).
Proof.
  refine (proj1 (solve_failure_exits (path_of_str "environment.yaml") "conda"
                   "linux-64" None
                   {| w_fs := Demo.fs0; w_ext := demo_ext_failed |}
                   {| w_fs := Demo.fs0; w_ext := demo_ext_failed |}
                   {| w_fs := Demo.fs0; w_ext := demo_ext_failed |}
                   [EvParseEnvironment (path_of_str "environment.yaml")]
                   [EvVirtualPackages]
                   (Demo.lock_spec Demo.ext0) (Demo.virtual_packages Demo.ext0)
                   [("__glibc", "2.17")]
                   {| success := false; FETCH := []; LINK := [] |}
                   demo_ext_failed _ _ _ _ _)).
  all: reflexivity.
Defined.

Lemma solve_unknown_platform_witness :
  solve_environment (path_of_str "environment.yaml") "conda" "osx-64" None
    (Demo.world Demo.fs0)
  = (inl (KeyError "osx-64"), Demo.world Demo.fs0,
     [EvParseEnvironment (path_of_str "environment.yaml")]
     ++ [EvVirtualPackages]
     ++ solve_header "conda" "osx-64" (_get_query_list (Demo.lock_spec Demo.ext0))).
Proof.
  refine (proj1 (solve_unknown_platform (path_of_str "environment.yaml") "conda"
                   "osx-64" None (Demo.world Demo.fs0) (Demo.world Demo.fs0)
                   (Demo.world Demo.fs0)
                   [EvParseEnvironment (path_of_str "environment.yaml")]
                   [EvVirtualPackages]
                   (Demo.lock_spec Demo.ext0) (Demo.virtual_packages Demo.ext0)
                   _ _ _)).
  all: reflexivity.
Defined.

Lemma solve_environment_returns_witness :
  exists solution patched,
    success solution = true /\
    [Demo.foo; Demo.bar] = FETCH patched /\
    lock_calls (snd (solve_environment (path_of_str "environment.yaml") "conda"
                       "linux-64" None (Demo.world Demo.fs0)))
    = [ EvParseEnvironment (path_of_str "environment.yaml"); EvVirtualPackages;
        EvSolve "conda" ["https://conda.example/main"; "file:///tmp/virtual"]
          ["foo==1.0"; "bar>=2"] "linux-64";
        EvReconstructFetch ].
Proof.
  assert (Hrun : solve_environment (path_of_str "environment.yaml") "conda"
                   "linux-64" None (Demo.world Demo.fs0)
                 = (inr [Demo.foo; Demo.bar], Demo.world Demo.fs0,
                    snd (solve_environment (path_of_str "environment.yaml")
                           "conda" "linux-64" None (Demo.world Demo.fs0))))
    by reflexivity.
  destruct (solve_environment_returns _ _ _ _ _ _ _ _ Hrun)
    as (lock_spec & virt_pkgs & listing & solution & patched & w1 & w2 & ext3
        & ext4 & _ & _ & _ & _ & Hok & _ & Hlist & _ & _ & _).
  exists solution, patched. split; [exact Hok|]. split; [exact Hlist|].
  reflexivity.
Defined.

Lemma vendor_needs_environment_name_witness :
  exists e,
    vendor (Some "missing.yaml") "conda" "linux-64" None false false
      (Demo.world Demo.fs0)
    = (inl e, Demo.world Demo.fs0,
       [EvStatus Green false
          ("Vendoring Local Channel for file: " +:+ "missing.yaml")]) /\
    ((inl (OSError "FileNotFoundError") : exn + json) = inl e \/ e = TypeError).
Proof.
  refine (proj2 (vendor_needs_environment_name "conda" "linux-64" None false false
                   (Demo.world Demo.fs0))
            "missing.yaml" (inl (OSError "FileNotFoundError")) _ _).
  - reflexivity.
  - discriminate.
Defined.

Lemma vendor_keeps_directories_on_failure_witness :
  fst (fst (vendor (Some "environment.yaml") "conda" "linux-64" None false false
              {| w_fs := Demo.fs0; w_ext := demo_ext_failed |}))
  = inl (SystemExit (ExitCode 1)) /\
  w_fs (snd (fst (vendor (Some "environment.yaml") "conda" "linux-64" None false
                    false {| w_fs := Demo.fs0; w_ext := demo_ext_failed |})))
  = Demo.fs_ready.
Proof.
  pose (w := {| w_fs := Demo.fs0; w_ext := demo_ext_failed |}).
  pose (w1 := {| w_fs := Demo.fs_ready; w_ext := demo_ext_failed |}).
  pose (evs_s := snd (solve_environment (path_of_str "environment.yaml") "conda"
                        "linux-64" None w1)).
  refine (match vendor_keeps_directories_on_failure "environment.yaml" "conda"
                  "linux-64" None false w w1 w1 "demo" (SystemExit (ExitCode 1))
                  [ EvMkdir (true, ["work"; "demo"]);
                    EvMkdir (true, ["work"; "demo"; "linux-64"]);
                    EvMkdir (true, ["work"; "demo"; "noarch"]) ]
                  evs_s _ _ _ _ with
          | conj Hrun _ =>
              conj (f_equal (fun r => fst (fst r)) Hrun)
                   (f_equal (fun r => w_fs (snd (fst r))) Hrun)
          end).
  - reflexivity.
  - reflexivity.
  - reflexivity.
  - reflexivity.
Defined.

Lemma vendor_write_order_witness :
  exists indexes artifacts manifest,
    written (snd (vendor (Some "environment.yaml") "conda" "linux-64" None false
                    true (Demo.world Demo.fs0)))
    = indexes ++ artifacts ++ manifest /\
    Forall (fun pc => exists doc, snd pc = JsonText doc) indexes /\
    Forall (fun pc => exists data, snd pc = Binary data) artifacts /\
    (manifest = [] \/
     true = true /\
     exists resources,
       manifest = [(path_of_str "ib_manifest.yaml", YamlText resources)]).
Proof.
  refine (vendor_write_order "environment.yaml" "conda" "linux-64" None true
            (Demo.world Demo.fs0) "demo" _ _).
  - reflexivity.
  - reflexivity.
Defined.
